(** * Luxe Threads: shop listing and cart pages

    A shallow embedding of [Pages/Shop.js] and [Pages/Cart.js].

    Conventions of the embedding:
    - The data model holds money and ratings as rationals ([Q]) and
      quantities, stock levels and timestamps as integers ([Z]); the shop
      page only compares them.  The totals of the cart page are computed
      in IEEE 754 binary64, as the code does: [Js.number], with the
      operations of the standard library's [SpecFloat].
    - A [Map] is a [gmap] with string keys.  An object used as a
      dictionary is the [gmap] of its own properties, read through
      [Js.truthyMember] or [Js.member]: a key the object does not own
      still finds the members every object inherits.
    - An optional property ([product.brand?.x], [product.rating || 0]) is an
      [option].
    - An async handler is a finite tree of synchronous actions and await
      points over an explicit state.  It is either run to completion, or
      resumed one await at a time among other tasks.  The outcome of each
      awaited call to the remote store is read from a script carried by the
      state, so a rejected promise is an input of the model. *)

From Stdlib Require Import ZArith QArith Qfield Lqa String Ascii List Permutation Sorted Lia Bool.
From Stdlib Require SpecFloat.
From stdpp Require Import gmap strings list.

Import ListNotations.
Local Open Scope string_scope.
Local Open Scope Z_scope.
Local Open Scope list_scope.

(** ** The JavaScript runtime pieces the pages rely on *)
Module Js.

(** [String.prototype.toLowerCase], on the ASCII range. *)
Definition lower_ascii (c : ascii) : ascii :=
  let n := nat_of_ascii c in
  if (Nat.leb 65 n && Nat.leb n 90)%bool then ascii_of_nat (n + 32) else c.

Fixpoint toLowerCase (s : string) : string :=
  match s with
  | EmptyString => EmptyString
  | String c s' => String (lower_ascii c) (toLowerCase s')
  end.

(** [hay.includes(needle)]: substring test. *)
Fixpoint includes (needle hay : string) : bool :=
  if String.prefix needle hay then true
  else match hay with
       | EmptyString => false
       | String _ hay' => includes needle hay'
       end.

(** Truthiness of a string: only the empty string is falsy. *)
Definition truthy (s : string) : bool := negb (String.eqb s "").

(** [x || 0] on an optional number: a missing value and 0 both give 0. *)
Definition orZero (x : option Q) : Q :=
  match x with
  | Some r => if Qeq_bool r 0 then 0%Q else r
  | None => 0%Q
  end.

(** Strictly positive comparator result. *)
Definition positive (q : Q) : bool := negb (Qle_bool q 0).

(** [l.findIndex(p)]; [None] stands for -1. *)
Fixpoint findIndex {A} (p : A -> bool) (l : list A) : option nat :=
  match l with
  | [] => None
  | x :: l' => if p x then Some 0%nat else S <$> findIndex p l'
  end.

(** [[...new Set(l)]]: first occurrences, in order. *)
Definition unique (l : list string) : list string :=
  fold_left (fun seen x => if existsb (String.eqb x) seen then seen else seen ++ [x]) l [].

(** [new Map(entries)] and the loop [entries.forEach(([k, v]) => m[k] = v)]:
    a later entry replaces an earlier one with the same key. *)
Definition newMap {V} (entries : list (string * V)) : gmap string V :=
  fold_left (fun m kv => <[fst kv := snd kv]> m) entries ∅.

(** *** Numbers

    A JavaScript number is an IEEE 754 double: binary64, rounded to
    nearest, ties to even, with one NaN. *)
Definition number : Type := SpecFloat.spec_float.

Definition prec : Z := 53.
Definition emax : Z := 1024.

(** The literal [0], and [NaN]. *)
Definition zero : number := SpecFloat.S754_zero false.
Definition nan : number := SpecFloat.S754_nan.

(** [x + y] and [x * y]. *)
Definition plus (x y : number) : number := SpecFloat.SFadd prec emax x y.
Definition times (x y : number) : number := SpecFloat.SFmul prec emax x y.

(** The double of an integer and of a rational of the data model: the
    nearest one, as [JSON.parse] and a numeric literal give it. *)
Definition ofZ (z : Z) : number := SpecFloat.binary_normalize prec emax z 0 false.

Definition ofQ (q : Q) : number :=
  match Qnum q with
  | Z0 => zero
  | Zpos n =>
      SpecFloat.SFdiv prec emax (SpecFloat.S754_finite false n 0)
                      (SpecFloat.S754_finite false (Qden q) 0)
  | Zneg n =>
      SpecFloat.SFdiv prec emax (SpecFloat.S754_finite true n 0)
                      (SpecFloat.S754_finite false (Qden q) 0)
  end.

Definition isZero (x : number) : bool :=
  match x with
  | SpecFloat.S754_zero _ => true
  | _ => false
  end.

(** [l.reduce((total, x) => total + x, 0)] *)
Definition sum (l : list number) : number := fold_left plus l zero.

(** *** Plain objects used as dictionaries

    An object made by [{}] inherits the members of [Object.prototype]:
    reading a key it does not own finds them. *)
Definition objectPrototype : list string :=
  ["constructor"; "hasOwnProperty"; "isPrototypeOf"; "propertyIsEnumerable";
   "toLocaleString"; "toString"; "valueOf"; "__defineGetter__"; "__defineSetter__";
   "__lookupGetter__"; "__lookupSetter__"; "__proto__"].

Definition inherited (k : string) : bool := existsb (String.eqb k) objectPrototype.

(** [o[k]] as a condition, for an object of booleans whose properties are
    all defined by [{...prev, [k]: v}], which makes own properties only:
    an inherited member is a function or an object, hence truthy. *)
Definition truthyMember (o : gmap string bool) (k : string) : bool :=
  match o !! k with
  | Some b => b
  | None => inherited k
  end.

(** What [o[k]] finds in an object filled by assignments [o[key] = value]
    with objects as values: the value assigned under [k]; or a member that
    is not such a value, of which only the truthiness matters; or nothing.

    The assignment [o["__proto__"] = value] does not define a property: it
    makes [value] the prototype of [o], and [o["__proto__"]] reads it
    back.  So the entry of the [gmap] under ["__proto__"] stands for the
    prototype the code has installed, and a key [o] does not own is looked
    up in that object first ([members] gives the truthiness of its own
    members), then in [Object.prototype]. *)
Inductive Member (V : Type) : Type :=
| Own (v : V)
| Inherited (truthy : bool)
| Absent.
Arguments Own {V} v.
Arguments Inherited {V} truthy.
Arguments Absent {V}.

Definition member {V} (members : V -> string -> option bool) (o : gmap string V)
    (k : string) : Member V :=
  match o !! k with
  | Some v => Own v
  | None =>
      match o !! "__proto__" ≫= (fun proto => members proto k) with
      | Some b => Inherited b
      | None => if inherited k then Inherited true else Absent
      end
  end.

Section Sort.
Context {A : Type}.
Variable cmp : A -> A -> Q.

(** [Array.prototype.sort(cmp)].  ECMAScript requires the sort to be
    stable; it is modelled by insertion: an element moves past exactly
    the elements it compares strictly greater than. *)
Fixpoint insert (a : A) (l : list A) : list A :=
  match l with
  | [] => [a]
  | b :: l' => if positive (cmp a b) then b :: insert a l' else a :: l
  end.

Fixpoint sort (l : list A) : list A :=
  match l with
  | [] => []
  | a :: l' => insert a (sort l')
  end.
End Sort.

End Js.

(** ** Entities *)
Module Product.
Record t : Type := mk {
  id : string;
  name : string;
  description : option string;
  brand : option string;
  category : string;
  price : Q;
  stock : Z;
  rating : option Q;
  created_date : Z;          (* [new Date(created_date)] as a timestamp *)
  image_url : string
}.
End Product.

Module CartItem.
(** A line of the remote cart store. *)
Record t : Type := mk {
  id : nat;                  (* assigned by the store *)
  product_id : string;
  quantity : Z;
  user_email : string
}.

Definition with_quantity (q : Z) (c : t) : t :=
  mk (id c) (product_id c) q (user_email c).
End CartItem.

Module GuestItem.
(** An entry of the [anonymousCart] blob of local storage. *)
Record t : Type := mk {
  product_id : string;
  quantity : Z;
  name : string;
  price : Q;
  image_url : string;
  brand : option string
}.

Definition with_quantity (q : Z) (g : t) : t :=
  mk (product_id g) q (name g) (price g) (image_url g) (brand g).
End GuestItem.

Module User.
Record t : Type := mk { email : string }.
End User.

(** ** Asynchronous handlers

    An [async] function is a finite tree of synchronous actions and await
    points.  [run] executes it to completion; the task system at the end of
    the file resumes it one await point at a time. *)
Module Async.

Inductive Res (X : Type) : Type :=
| Resolved (x : X)
| Rejected.
Arguments Resolved {X} x.
Arguments Rejected {X}.

Inductive Prog (S A : Type) : Type :=
| Ret (a : A)
| Throw
| Do (X : Type) (f : S -> X * S) (k : X -> Prog S A)
| Await (X : Type) (call : S -> Res X * S) (k : Res X -> Prog S A).
Arguments Ret {S A} a.
Arguments Throw {S A}.
Arguments Do {S A X} f k.
Arguments Await {S A X} call k.

Fixpoint bind {S A B} (p : Prog S A) (f : A -> Prog S B) : Prog S B :=
  match p with
  | Ret a => f a
  | Throw => Throw
  | Do g k => Do g (fun x => bind (k x) f)
  | Await c k => Await c (fun r => bind (k r) f)
  end.

(** [try { p } catch { h }] *)
Fixpoint tryCatch {S A} (p : Prog S A) (h : Prog S A) : Prog S A :=
  match p with
  | Ret a => Ret a
  | Throw => h
  | Do g k => Do g (fun x => tryCatch (k x) h)
  | Await c k => Await c (fun r => tryCatch (k r) h)
  end.

(** [try { p } finally { fin }] *)
Fixpoint tryFinally {S A} (p : Prog S A) (fin : Prog S unit) : Prog S A :=
  match p with
  | Ret a => bind fin (fun _ => Ret a)
  | Throw => bind fin (fun _ => Throw)
  | Do g k => Do g (fun x => tryFinally (k x) fin)
  | Await c k => Await c (fun r => tryFinally (k r) fin)
  end.

(** A synchronous action. *)
Definition act {S X} (f : S -> X * S) : Prog S X := Do f Ret.

(** [await call]: a rejected promise throws at the await. *)
Definition await {S X} (call : S -> Res X * S) : Prog S X :=
  Await call (fun r => match r with Resolved x => Ret x | Rejected => Throw end).

(** The calls behind [Promise.all(promises)]: every call has been issued
    when the array of promises is built, so every one of them runs; the
    combined promise rejects when one of them does. *)
Fixpoint settleAll {S X} (calls : list (S -> Res X * S)) (s : S) : Res (list X) * S :=
  match calls with
  | [] => (Resolved [], s)
  | c :: cs =>
      let (r, s1) := c s in
      let (rs, s2) := settleAll cs s1 in
      (match r, rs with
       | Resolved x, Resolved xs => Resolved (x :: xs)
       | _, _ => Rejected
       end, s2)
  end.

Definition promiseAll {S X} (calls : list (S -> Res X * S)) : Prog S (list X) :=
  await (settleAll calls).

(** Running a handler to completion. *)
Fixpoint run {S A} (p : Prog S A) (s : S) : Res A * S :=
  match p with
  | Ret a => (Resolved a, s)
  | Throw => (Rejected, s)
  | Do f k => let (x, s') := f s in run (k x) s'
  | Await c k => let (r, s') := c s in run (k r) s'
  end.

Definition exec {S A} (p : Prog S A) (s : S) : S := snd (run p s).

(** Running up to the next await point. *)
Fixpoint advance {S A} (p : Prog S A) (s : S) : Prog S A * S :=
  match p with
  | Do f k => let (x, s') := f s in advance (k x) s'
  | _ => (p, s)
  end.

End Async.

Export Async(Res(..), Prog(..)).

#[global] Instance Prog_ret {S} : MRet (Prog S) := fun A a => Async.Ret a.
#[global] Instance Prog_bind {S} : MBind (Prog S) := fun A B f p => Async.bind p f.

(** ** The environment of the pages *)
Module Env.

Inductive Event : Type :=
| Toast (title : string) (destructive : bool)
| ConsoleError (msg : string)
| CartUpdated                       (* [window.dispatchEvent(new CustomEvent('cartUpdated'))] *)
| SetIsMerging (b : bool).          (* a call of the state setter [setIsMerging] *)

Record World : Type := mkWorld {
  anonymousCart : option (list GuestItem.t);  (* [localStorage] key 'anonymousCart' *)
  session : option User.t;                    (* whom the identity provider knows *)
  cartStore : list CartItem.t;                (* remote CartItem entity *)
  nextId : nat;
  catalog : list Product.t;                   (* remote Product entity *)
  script : list bool;                         (* outcomes of the next remote calls *)
  trace : list Event                          (* effects so far, oldest first *)
}.

Definition set_anonymousCart (v : option (list GuestItem.t)) (w : World) : World :=
  mkWorld v (session w) (cartStore w) (nextId w) (catalog w) (script w) (trace w).
Definition set_cartStore (v : list CartItem.t) (n : nat) (w : World) : World :=
  mkWorld (anonymousCart w) (session w) v n (catalog w) (script w) (trace w).
Definition set_script (v : list bool) (w : World) : World :=
  mkWorld (anonymousCart w) (session w) (cartStore w) (nextId w) (catalog w) v (trace w).
Definition set_trace (v : list Event) (w : World) : World :=
  mkWorld (anonymousCart w) (session w) (cartStore w) (nextId w) (catalog w) (script w) v.

(** *** Local storage *)

(** [JSON.parse(localStorage.getItem('anonymousCart') || '[]')] *)
Definition readCart (w : World) : list GuestItem.t :=
  match anonymousCart w with
  | Some l => l
  | None => []
  end.

Definition getCart (w : World) : list GuestItem.t * World := (readCart w, w).

(** [localStorage.setItem('anonymousCart', JSON.stringify(l))] *)
Definition setCart (l : list GuestItem.t) (w : World) : unit * World :=
  (tt, set_anonymousCart (Some l) w).

(** [localStorage.removeItem('anonymousCart')] *)
Definition removeCart (w : World) : unit * World :=
  (tt, set_anonymousCart None w).

Definition emit (e : Event) (w : World) : unit * World :=
  (tt, set_trace (trace w ++ [e]) w).

(** *** Remote calls *)

(** The next remote call fails when the script says so; an exhausted
    script means success. *)
Definition nextOutcome (w : World) : bool :=
  match script w with
  | b :: _ => b
  | [] => true
  end.

Definition popScript (w : World) : World := set_script (tl (script w)) w.

Definition remote {X} (op : World -> option (X * World)) (w : World) : Res X * World :=
  let w1 := popScript w in
  if nextOutcome w then
    match op w1 with
    | Some (x, w2) => (Resolved x, w2)
    | None => (Rejected, w1)
    end
  else (Rejected, w1).

(** Modelled from the spec: the identity provider,
    [currentIdentity() -> Authenticated(email) | fails]. *)
Definition User_me : World -> Res User.t * World :=
  remote (fun w => match session w with Some u => Some (u, w) | None => None end).

Definition matchesCriteria (email : string) (productId : option string)
    (c : CartItem.t) : bool :=
  String.eqb (CartItem.user_email c) email
  && match productId with
     | Some p => String.eqb (CartItem.product_id c) p
     | None => true
     end.

(** Modelled from the spec: the CartLine store,
    [filter(criteria: {email?, productRef?}) -> CartLine[]]. *)
Definition CartItem_filter (email : string) (productId : option string)
    : World -> Res (list CartItem.t) * World :=
  remote (fun w => Some (List.filter (matchesCriteria email productId) (cartStore w), w)).

Definition hasId (i : nat) (c : CartItem.t) : bool := Nat.eqb (CartItem.id c) i.

Definition setQuantity (i : nat) (q : Z) (c : CartItem.t) : CartItem.t :=
  if hasId i c then CartItem.with_quantity q c else c.

(** Modelled from the spec: the CartLine store,
    [update(id, {quantity}) -> CartLine]; an unknown id is rejected. *)
Definition CartItem_update (i : nat) (q : Z) : World -> Res CartItem.t * World :=
  remote (fun w =>
    match List.find (hasId i) (cartStore w) with
    | Some c => Some (CartItem.with_quantity q c,
                      set_cartStore (List.map (setQuantity i q) (cartStore w)) (nextId w) w)
    | None => None
    end).

(** Modelled from the spec: the CartLine store, [create(line) -> CartLine];
    the store assigns the identifier. *)
Definition CartItem_create (productId : string) (q : Z) (email : string)
    : World -> Res CartItem.t * World :=
  remote (fun w =>
    let c := CartItem.mk (nextId w) productId q email in
    Some (c, set_cartStore (cartStore w ++ [c]) (S (nextId w)) w)).

(** Modelled from the spec: the CartLine store, [delete(id)]; an unknown
    id is rejected. *)
Definition CartItem_delete (i : nat) : World -> Res unit * World :=
  remote (fun w =>
    match List.find (hasId i) (cartStore w) with
    | Some _ => Some (tt, set_cartStore (List.filter (fun c => negb (hasId i c)) (cartStore w))
                            (nextId w) w)
    | None => None
    end).

(** Modelled from the spec: the product store,
    [getByIds(ids: ref[]) -> Product[]]. *)
Definition Product_filter (ids : list string) : World -> Res (list Product.t) * World :=
  remote (fun w =>
    Some (List.filter (fun p => existsb (String.eqb (Product.id p)) ids) (catalog w), w)).

(** Identifiers of the store are unique and below the next one. *)
Definition store_wf (w : World) : Prop :=
  NoDup (List.map CartItem.id (cartStore w))
  /\ Forall (fun c => (CartItem.id c < nextId w)%nat) (cartStore w).

(** The lines of one identity. *)
Definition linesOf (email : string) (w : World) : list CartItem.t :=
  List.filter (matchesCriteria email None) (cartStore w).

(** Modelled from the spec: the product store, [list() -> Product[]]. *)
Definition Product_list : World -> Res (list Product.t) * World :=
  remote (fun w => Some (catalog w, w)).

End Env.

(** ** Shop.js: the catalog filter and sort engine *)
Module Shop.

Record Filters : Type := mkFilters {
  categories : list string;
  brands : list string;
  priceRange : option (Q * Q);
  inStock : bool
}.

(** [useState({ categories: [], brands: [], priceRange: [0, 1000],
    inStock: false })] *)
Definition initialFilters : Filters :=
  mkFilters [] [] (Some (0%Q, 1000%Q)) false.

Record ViewState : Type := mkView {
  searchTerm : string;
  sortBy : string;
  filters : Filters
}.

Definition initialView : ViewState := mkView "" "name" initialFilters.

Definition clearFilters (v : ViewState) : ViewState :=
  mkView "" (sortBy v) (mkFilters [] [] (Some (0%Q, 1000%Q)) false).

Definition optIncludes (term : string) (field : option string) : bool :=
  match field with
  | Some s => Js.includes (Js.toLowerCase term) (Js.toLowerCase s)
  | None => false
  end.

Definition matchesSearch (term : string) (p : Product.t) : bool :=
  Js.includes (Js.toLowerCase term) (Js.toLowerCase (Product.name p))
  || optIncludes term (Product.description p)
  || optIncludes term (Product.brand p).

Definition inList (xs : list string) (x : string) : bool :=
  existsb (String.eqb x) xs.

Definition matchesCategory (f : Filters) (p : Product.t) : bool :=
  inList (categories f) (Product.category p).

Definition matchesBrand (f : Filters) (p : Product.t) : bool :=
  match Product.brand p with
  | Some b => inList (brands f) b
  | None => false
  end.

Definition inRange (r : Q * Q) (p : Product.t) : bool :=
  Qle_bool (fst r) (Product.price p) && Qle_bool (Product.price p) (snd r).

Definition hasStock (p : Product.t) : bool := 0 <? Product.stock p.

(** The five filter blocks of [applyFilters], each with its guard. *)
Definition searchFilter (term : string) (l : list Product.t) : list Product.t :=
  if Js.truthy term then List.filter (matchesSearch term) l else l.

Definition categoryFilter (f : Filters) (l : list Product.t) : list Product.t :=
  if (0 <? length (categories f))%nat then List.filter (matchesCategory f) l else l.

Definition brandFilter (f : Filters) (l : list Product.t) : list Product.t :=
  if (0 <? length (brands f))%nat then List.filter (matchesBrand f) l else l.

Definition priceFilter (f : Filters) (l : list Product.t) : list Product.t :=
  match priceRange f with
  | Some r => List.filter (inRange r) l
  | None => l
  end.

Definition stockFilter (f : Filters) (l : list Product.t) : list Product.t :=
  if inStock f then List.filter hasStock l else l.

Section Engine.
(** [String.prototype.localeCompare]: its order depends on the host's
    locale data, so it is a parameter. *)
Variable localeCompare : string -> string -> Z.

Definition compareProducts (sortBy : string) (a b : Product.t) : Q :=
  if String.eqb sortBy "price-low" then Product.price a - Product.price b
  else if String.eqb sortBy "price-high" then Product.price b - Product.price a
  else if String.eqb sortBy "rating" then
    Js.orZero (Product.rating b) - Js.orZero (Product.rating a)
  else if String.eqb sortBy "newest" then
    inject_Z (Product.created_date b - Product.created_date a)
  else inject_Z (localeCompare (Product.name a) (Product.name b)).

Definition sortProducts (sortBy : string) (l : list Product.t) : list Product.t :=
  Js.sort (compareProducts sortBy) l.

Definition applyFilters (products : list Product.t) (searchTerm : string)
    (filters : Filters) (sortBy : string) : list Product.t :=
  let filtered := products in
  let filtered := searchFilter searchTerm filtered in
  let filtered := categoryFilter filters filtered in
  let filtered := brandFilter filters filtered in
  let filtered := priceFilter filters filtered in
  let filtered := stockFilter filters filtered in
  sortProducts sortBy filtered.

(** What the page shows for a view state. *)
Definition visible (products : list Product.t) (v : ViewState) : list Product.t :=
  applyFilters products (searchTerm v) (filters v) (sortBy v).
End Engine.

(** *** Adding to the cart *)

Definition sameProduct (pid : string) (g : GuestItem.t) : bool :=
  String.eqb (GuestItem.product_id g) pid.

Definition increment (g : GuestItem.t) : GuestItem.t :=
  GuestItem.with_quantity (GuestItem.quantity g + 1) g.

Definition snapshot (product : Product.t) : GuestItem.t :=
  GuestItem.mk (Product.id product) 1 (Product.name product) (Product.price product)
               (Product.image_url product) (Product.brand product).

(** The read-modify-write of the anonymous branch. *)
Definition addToGuestCart (product : Product.t) (anonymousCart : list GuestItem.t)
    : list GuestItem.t :=
  match Js.findIndex (sameProduct (Product.id product)) anonymousCart with
  | Some existingItemIndex => alter increment existingItemIndex anonymousCart
  | None => anonymousCart ++ [snapshot product]
  end.

Definition handleAddToCart (user : option User.t) (product : Product.t)
    : Prog Env.World unit :=
  match user with
  | Some u =>
      Async.tryCatch
        (existingItems ← Async.await
           (Env.CartItem_filter (User.email u) (Some (Product.id product)));
         match existingItems with
         | existingItem :: _ =>
             Async.await (Env.CartItem_update (CartItem.id existingItem)
                            (CartItem.quantity existingItem + 1))
         | [] =>
             Async.await (Env.CartItem_create (Product.id product) 1 (User.email u))
         end;;
         Async.act (Env.emit (Env.Toast "Added to cart" false)))
        (Async.act (Env.emit (Env.Toast "Error" true)))
  | None =>
      anonymousCart ← Async.act Env.getCart;
      Async.act (Env.setCart (addToGuestCart product anonymousCart));;
      Async.act (Env.emit (Env.Toast "Added to cart" false))
  end;;
  Async.act (Env.emit Env.CartUpdated).


(** *** Loading the page *)

(** The [useState] cells that the loaders of the page write. *)
Record Page : Type := mkPage {
  products : list Product.t;
  loading : bool;
  user : option User.t
}.

Definition initialPage : Page := mkPage [] true None.

Record PageState : Type := mkPageState { world : Env.World; page : Page }.

Definition onWorld {X} (f : Env.World -> X * Env.World) (s : PageState) : X * PageState :=
  let (x, w) := f (world s) in (x, mkPageState w (page s)).

Definition onPage (f : Page -> Page) (s : PageState) : unit * PageState :=
  (tt, mkPageState (world s) (f (page s))).

Definition setProducts (v : list Product.t) : Prog PageState unit :=
  Async.act (onPage (fun x => mkPage v (loading x) (user x))).
Definition setLoading (v : bool) : Prog PageState unit :=
  Async.act (onPage (fun x => mkPage (products x) v (user x))).
Definition setUser (v : option User.t) : Prog PageState unit :=
  Async.act (onPage (fun x => mkPage (products x) (loading x) v)).

Definition loadUser : Prog PageState unit :=
  Async.tryCatch
    (currentUser ← Async.await (onWorld Env.User_me);
     setUser (Some currentUser))
    (mret tt).

Definition loadProducts : Prog PageState unit :=
  setLoading true;;
  Async.tryFinally
    (Async.tryCatch
       (data ← Async.await (onWorld Env.Product_list);
        setProducts data)
       (Async.act (onWorld (Env.emit (Env.Toast "Error" true)))))
    (setLoading false).

(** What the page renders below the search bar. *)
Inductive Screen : Type :=
| Skeletons
| NoProductsFound
| ProductGrid (cards : list Product.t).

Definition screen (loading : bool) (filteredProducts : list Product.t) : Screen :=
  if loading then Skeletons
  else if (length filteredProducts =? 0)%nat then NoProductsFound
  else ProductGrid filteredProducts.

End Shop.

(** ** Cart.js: the cart page *)
Module Cart.

(** An element of the [cartItems] state: a line of the store, or a guest
    entry spread with [id: item.product_id]. *)
Inductive Line : Type :=
| StoredLine (c : CartItem.t)
| GuestLine (g : GuestItem.t).

Definition product_id (l : Line) : string :=
  match l with
  | StoredLine c => CartItem.product_id c
  | GuestLine g => GuestItem.product_id g
  end.

Definition quantity (l : Line) : Z :=
  match l with
  | StoredLine c => CartItem.quantity c
  | GuestLine g => GuestItem.quantity g
  end.

(** An object stored in the [products] dictionary: the product fields the
    cart page reads, and the names of its further own members, each with
    its truthiness. *)
Record ProductInfo : Type := mkInfo {
  id : string;
  name : string;
  price : Q;
  image_url : string;
  brand : option string;
  rest : list (string * bool)
}.

(** [{ id: item.product_id, name: item.name, price: item.price,
       image_url: item.image_url, brand: item.brand }] *)
Definition ofGuest (item : GuestItem.t) : ProductInfo :=
  mkInfo (GuestItem.product_id item) (GuestItem.name item) (GuestItem.price item)
         (GuestItem.image_url item) (GuestItem.brand item) [].

Definition truthyOption (x : option string) : bool :=
  match x with
  | Some s => Js.truthy s
  | None => false
  end.

(** The [product] itself, as the store returned it. *)
Definition ofProduct (p : Product.t) : ProductInfo :=
  mkInfo (Product.id p) (Product.name p) (Product.price p)
         (Product.image_url p) (Product.brand p)
         [("description", truthyOption (Product.description p));
          ("category", Js.truthy (Product.category p));
          ("stock", negb (Product.stock p =? 0));
          ("rating", match Product.rating p with
                     | Some r => negb (Qeq_bool r 0)
                     | None => false
                     end);
          ("created_date", true)].

(** The truthiness of the own member [k] of a stored object. *)
Definition members (product : ProductInfo) (k : string) : option bool :=
  if String.eqb k "id" then Some (Js.truthy (id product))
  else if String.eqb k "name" then Some (Js.truthy (name product))
  else if String.eqb k "price" then Some (negb (Qeq_bool (price product) 0))
  else if String.eqb k "image_url" then Some (Js.truthy (image_url product))
  else if String.eqb k "brand" then Some (truthyOption (brand product))
  else snd <$> List.find (fun kv => String.eqb (fst kv) k) (rest product).

(** [products[key]] *)
Definition lookupProduct (products : gmap string ProductInfo) (key : string)
    : Js.Member ProductInfo :=
  Js.member members products key.

(** The [useState] cells of the component. *)
Record View : Type := mkView {
  cartItems : list Line;
  products : gmap string ProductInfo;
  loading : bool;
  user : option User.t;
  updating : gmap string bool;
  isMerging : bool
}.

Definition initialView : View := mkView [] ∅ true None ∅ false.

Record State : Type := mkState { world : Env.World; view : View }.

Definition onWorld {X} (f : Env.World -> X * Env.World) (s : State) : X * State :=
  let (x, w) := f (world s) in (x, mkState w (view s)).

Definition onView (f : View -> View) (s : State) : unit * State :=
  (tt, mkState (world s) (f (view s))).

Definition read {X} (f : View -> X) (s : State) : X * State := (f (view s), s).

Definition setCartItems (v : list Line) : Prog State unit :=
  Async.act (onView (fun x =>
    mkView v (products x) (loading x) (user x) (updating x) (isMerging x))).
Definition setProducts (v : gmap string ProductInfo) : Prog State unit :=
  Async.act (onView (fun x =>
    mkView (cartItems x) v (loading x) (user x) (updating x) (isMerging x))).
Definition setLoading (v : bool) : Prog State unit :=
  Async.act (onView (fun x =>
    mkView (cartItems x) (products x) v (user x) (updating x) (isMerging x))).
Definition setUser (v : option User.t) : Prog State unit :=
  Async.act (onView (fun x =>
    mkView (cartItems x) (products x) (loading x) v (updating x) (isMerging x))).
(** [setUpdating(prev => ({ ...prev, [productId]: v }))] *)
Definition setUpdating (productId : string) (v : bool) : Prog State unit :=
  Async.act (onView (fun x =>
    mkView (cartItems x) (products x) (loading x) (user x)
           (<[productId := v]> (updating x)) (isMerging x))).
Definition setIsMerging (v : bool) : Prog State unit :=
  Async.act (onView (fun x =>
    mkView (cartItems x) (products x) (loading x) (user x) (updating x) v));;
  Async.act (onWorld (Env.emit (Env.SetIsMerging v))).

Definition toast (title : string) (destructive : bool) : Prog State unit :=
  Async.act (onWorld (Env.emit (Env.Toast title destructive))).
Definition consoleError (msg : string) : Prog State unit :=
  Async.act (onWorld (Env.emit (Env.ConsoleError msg))).
Definition dispatchCartUpdated : Prog State unit :=
  Async.act (onWorld (Env.emit Env.CartUpdated)).

(** [user?.email] as a condition. *)
Definition hasEmail (u : option User.t) : bool :=
  match u with
  | Some u => Js.truthy (User.email u)
  | None => false
  end.

(** *** mergeCarts *)

Definition dbCartMapOf (dbCartItems : list CartItem.t) : gmap string CartItem.t :=
  Js.newMap (List.map (fun item => (CartItem.product_id item, item)) dbCartItems).

(** The body of [localCart.map(localItem => ...)]: the call issued for one
    guest line. *)
Definition mergeLine (dbCartMap : gmap string CartItem.t) (userEmail : string)
    (localItem : GuestItem.t) : Env.World -> Res CartItem.t * Env.World :=
  match dbCartMap !! GuestItem.product_id localItem with
  | Some dbItem =>
      Env.CartItem_update (CartItem.id dbItem)
        (CartItem.quantity dbItem + GuestItem.quantity localItem)
  | None =>
      Env.CartItem_create (GuestItem.product_id localItem)
        (GuestItem.quantity localItem) userEmail
  end.

Definition mergeCarts (localCart : list GuestItem.t) (userEmail : string)
    : Prog State unit :=
  setIsMerging true;;
  Async.tryFinally
    (Async.tryCatch
       (dbCartItems ← Async.await (onWorld (Env.CartItem_filter userEmail None));
        let dbCartMap := dbCartMapOf dbCartItems in
        let promises := List.map (mergeLine dbCartMap userEmail) localCart in
        Async.promiseAll (List.map onWorld promises);;
        Async.act (onWorld Env.removeCart);;
        toast "Cart Updated" false)
       (consoleError "Error merging carts:";;
        toast "Error merging carts" true))
    (setIsMerging false;;
     dispatchCartUpdated).

(** *** loadUser *)

Definition loadUser : Prog State unit :=
  Async.tryCatch
    (currentUser ← Async.await (onWorld Env.User_me);
     setUser (Some currentUser);;
     localCart ← Async.act (onWorld Env.getCart);
     if (0 <? length localCart)%nat && Js.truthy (User.email currentUser)
     then mergeCarts localCart (User.email currentUser)
     else mret tt)
    (setUser None).

(** *** loadCartItems *)

Definition guestProductMap (localCart : list GuestItem.t) : gmap string ProductInfo :=
  Js.newMap (List.map (fun item => (GuestItem.product_id item, ofGuest item)) localCart).

Definition productMapOf (productList : list Product.t) : gmap string ProductInfo :=
  Js.newMap (List.map (fun product => (Product.id product, ofProduct product)) productList).

Definition loadCartItems : Prog State unit :=
  user ← Async.act (read user);
  if negb (hasEmail user) then
    setLoading true;;
    localCart ← Async.act (onWorld Env.getCart);
    setProducts (guestProductMap localCart);;
    setCartItems (List.map GuestLine localCart);;
    setLoading false
  else
    setLoading true;;
    Async.tryFinally
      (Async.tryCatch
         (items ← Async.await (onWorld
            (Env.CartItem_filter (match user with Some u => User.email u | None => "" end)
                                 None));
          setCartItems (List.map StoredLine items);;
          let productIds := Js.unique (List.map CartItem.product_id items) in
          productList ←
            (if (0 <? length productIds)%nat
             then Async.await (onWorld (Env.Product_filter productIds))
             else mret []);
          setProducts (productMapOf productList))
         (consoleError "Failed to load cart items:";;
          toast "Error" true))
      (setLoading false).

(** *** updateQuantity and removeItem *)

Definition isProduct (productId : string) (item : Line) : bool :=
  String.eqb (product_id item) productId.

(** [CartItem.update(cartItem.id, ...)]: the id of a guest line is its
    product reference, which the store does not know. *)
Definition updateLine (cartItem : Line) (q : Z) : Env.World -> Res CartItem.t * Env.World :=
  match cartItem with
  | StoredLine c => Env.CartItem_update (CartItem.id c) q
  | GuestLine _ => Env.remote (fun _ => None)
  end.

Definition deleteLine (cartItem : Line) : Env.World -> Res unit * Env.World :=
  match cartItem with
  | StoredLine c => Env.CartItem_delete (CartItem.id c)
  | GuestLine _ => Env.remote (fun _ => None)
  end.

Definition setGuestQuantity (productId : string) (newQuantity : Z)
    (localCart : list GuestItem.t) : list GuestItem.t :=
  List.map (fun item => if String.eqb (GuestItem.product_id item) productId
                        then GuestItem.with_quantity newQuantity item else item)
           localCart.

Definition removeGuestItem (productId : string) (localCart : list GuestItem.t)
    : list GuestItem.t :=
  List.filter (fun item => negb (String.eqb (GuestItem.product_id item) productId))
              localCart.

Definition reloadAndNotify (productId : string) : Prog State unit :=
  loadCartItems;;
  dispatchCartUpdated;;
  setUpdating productId false.

Definition updateQuantity (productId : string) (newQuantity : Z) : Prog State unit :=
  if newQuantity <? 1 then mret tt
  else
    setUpdating productId true;;
    user ← Async.act (read user);
    match user with
    | Some _ =>
        cartItems ← Async.act (read cartItems);
        match List.find (isProduct productId) cartItems with
        | None => setUpdating productId false
        | Some cartItem =>
            Async.tryCatch
              (Async.await (onWorld (updateLine cartItem newQuantity));; mret tt)
              (consoleError "Failed to update quantity in DB:";;
               toast "Error" true);;
            reloadAndNotify productId
        end
    | None =>
        localCart ← Async.act (onWorld Env.getCart);
        Async.act (onWorld (Env.setCart (setGuestQuantity productId newQuantity localCart)));;
        reloadAndNotify productId
    end.

Definition removeItem (productId : string) : Prog State unit :=
  setUpdating productId true;;
  user ← Async.act (read user);
  match user with
  | Some _ =>
      cartItems ← Async.act (read cartItems);
      match List.find (isProduct productId) cartItems with
      | None => setUpdating productId false
      | Some cartItem =>
          Async.tryCatch
            (Async.await (onWorld (deleteLine cartItem));;
             toast "Item removed" false)
            (consoleError "Failed to remove item from DB:";;
             toast "Error" true);;
          reloadAndNotify productId
      end
  | None =>
      localCart ← Async.act (onWorld Env.getCart);
      Async.act (onWorld (Env.setCart (removeGuestItem productId localCart)));;
      toast "Item removed" false;;
      reloadAndNotify productId
  end.

(** *** Totals *)

(** [product ? product.price * item.quantity : 0].  A truthy member that
    is not a stored product has no [price]: [product.price] is
    [undefined], which [*] reads as [NaN]. *)
Definition lineAmount (products : gmap string ProductInfo) (item : Line) : Js.number :=
  match lookupProduct products (product_id item) with
  | Js.Own product => Js.times (Js.ofQ (price product)) (Js.ofZ (quantity item))
  | Js.Inherited true => Js.times Js.nan (Js.ofZ (quantity item))
  | Js.Inherited false | Js.Absent => Js.zero
  end.

Definition getSubtotal (v : View) : Js.number :=
  fold_left (fun total item => Js.plus total (lineAmount (products v) item))
            (cartItems v) Js.zero.

(** [getSubtotal() * 0.08] *)
Definition getTax (v : View) : Js.number := Js.times (getSubtotal v) (Js.ofQ (8 # 100)).

Definition getTotal (v : View) : Js.number := Js.plus (getSubtotal v) (getTax v).


(** *** What the page renders *)

(** [updating[productId]] as a condition. *)
Definition isUpdating (v : View) (productId : string) : bool :=
  Js.truthyMember (updating v) productId.

(** One card of the list, with the [disabled] flags of its three buttons. *)
Record Row : Type := mkRow {
  row_item : Line;
  row_product : ProductInfo;
  minusDisabled : bool;
  plusDisabled : bool;
  removeDisabled : bool;
  row_amount : Js.number
}.

(** What the body of [cartItems.map((item) => ...)] gives for a line: a
    card, [null], or a [TypeError] ([product.price.toFixed] on a truthy
    member that has no [price]). *)
Inductive Rendered : Type :=
| Card (row : Row)
| Null
| TypeError.

Definition renderRow (v : View) (item : Line) : Rendered :=
  match lookupProduct (products v) (product_id item) with
  | Js.Own product =>
      Card (mkRow item product
              (isUpdating v (product_id item) || (quantity item <=? 1))
              (isUpdating v (product_id item))
              (isUpdating v (product_id item))
              (Js.times (Js.ofQ (price product)) (Js.ofZ (quantity item))))
  | Js.Inherited true => TypeError
  | Js.Inherited false | Js.Absent => Null
  end.

(** [cartItems.map(...)]: the cards in order, unless a line throws. *)
Fixpoint renderRows (v : View) (items : list Line) : option (list Row) :=
  match items with
  | [] => Some []
  | item :: items' =>
      match renderRow v item with
      | Card row => cons row <$> renderRows v items'
      | Null => renderRows v items'
      | TypeError => None
      end
  end.

(** The [onClick] handlers of the three buttons. *)
Definition clickMinus (item : Line) : Prog State unit :=
  updateQuantity (product_id item) (quantity item - 1).
Definition clickPlus (item : Line) : Prog State unit :=
  updateQuantity (product_id item) (quantity item + 1).
Definition clickRemove (item : Line) : Prog State unit :=
  removeItem (product_id item).

(** What the component returns; [Crash] is a render that throws. *)
Inductive Screen : Type :=
| Spinner (message : string)
| EmptyCart
| CartList (count : nat) (rows : list Row) (subtotal tax total : Js.number)
           (signedIn : bool)
| Crash.

Definition screen (v : View) : Screen :=
  if loading v || isMerging v then
    Spinner (if isMerging v then "Merging your cart..." else "Loading your cart...")
  else if (length (cartItems v) =? 0)%nat then EmptyCart
  else match renderRows v (cartItems v) with
       | Some rows =>
           CartList (length (cartItems v)) rows
                    (getSubtotal v) (getTax v) (getTotal v)
                    (match user v with Some _ => true | None => false end)
       | None => Crash
       end.

End Cart.

(** ** Interleaving of the page's asynchronous tasks

    JavaScript runs one task at a time and switches only at an await.  A
    system is the shared state with the [loadUser] tasks the effect
    [useEffect(() => { loadUser(); }, [loadUser])] has started; a suspended
    task is the continuation of its pending await. *)
Module Tasks.

Record Sys : Type := mkSys {
  st : Cart.State;
  tasks : list (Prog Cart.State unit)
}.

(** The effect fires: [loadUser()] runs up to its first await. *)
Definition mount (y : Sys) : Sys :=
  let (p, s') := Async.advance Cart.loadUser (st y) in
  mkSys s' (tasks y ++ [p]).

(** The pending call of a task settles and the task runs on to its next
    await. *)
Definition resumeTask (p : Prog Cart.State unit) (s : Cart.State)
    : Prog Cart.State unit * Cart.State :=
  match p with
  | Async.Await call k => let (r, s1) := call s in Async.advance (k r) s1
  | _ => (p, s)
  end.

Definition resume (i : nat) (y : Sys) : Sys :=
  match tasks y !! i with
  | Some p => let (p', s') := resumeTask p (st y) in mkSys s' (<[i := p']> (tasks y))
  | None => y
  end.

Inductive Action : Type :=
| Mount
| Resume (i : nat).

Definition perform (a : Action) (y : Sys) : Sys :=
  match a with
  | Mount => mount y
  | Resume i => resume i y
  end.

Inductive step : Sys -> Sys -> Prop :=
| step_perform (a : Action) (y : Sys) : step y (perform a y).

Definition reachable (s0 : Cart.State) (y : Sys) : Prop :=
  rtc step (mkSys s0 []) y.

Definition schedule (acts : list Action) (y : Sys) : Sys :=
  fold_left (fun y a => perform a y) acts y.

Definition finished (p : Prog Cart.State unit) : bool :=
  match p with
  | Async.Ret _ | Async.Throw => true
  | _ => false
  end.

(** Whether a trace shows [setIsMerging(true)] called while an earlier
    merge has not yet called [setIsMerging(false)]. *)
Fixpoint overlaps (depth : nat) (t : list Env.Event) : bool :=
  match t with
  | [] => false
  | Env.SetIsMerging true :: t' =>
      if (0 <? depth)%nat then true else overlaps (S depth) t'
  | Env.SetIsMerging false :: t' => overlaps (pred depth) t'
  | _ :: t' => overlaps depth t'
  end.

Definition mergesOverlap (s : Cart.State) : bool :=
  overlaps 0 (Env.trace (Cart.world s)).

End Tasks.

(** ** Overlapping calls of the shop's add-to-cart handler

    Each click on an add-to-cart button calls [handleAddToCart(product)];
    Shop.js keeps no flag of a call in flight and waits for nothing before
    it takes the next click.  A call runs up to its first await when it is
    made; when the pending remote call of a suspended call settles, it runs
    on to its next await.  A remote call acts on the store at the moment it
    settles, so the order of the settlements is the order in which the
    store serves the calls. *)
Module ShopTasks.

Record Sys : Type := mkSys {
  world : Env.World;
  tasks : list (Prog Env.World unit)
}.

(** [handleAddToCart(product)] is called. *)
Definition click (user : option User.t) (product : Product.t) (y : Sys) : Sys :=
  let (p, w') := Async.advance (Shop.handleAddToCart user product) (world y) in
  mkSys w' (tasks y ++ [p]).

Definition resumeTask (p : Prog Env.World unit) (w : Env.World)
    : Prog Env.World unit * Env.World :=
  match p with
  | Async.Await call k => let (r, w1) := call w in Async.advance (k r) w1
  | _ => (p, w)
  end.

(** The pending remote call of the [i]-th call settles. *)
Definition settle (i : nat) (y : Sys) : Sys :=
  match tasks y !! i with
  | Some p => let (p', w') := resumeTask p (world y) in mkSys w' (<[i := p']> (tasks y))
  | None => y
  end.

Inductive Action : Type :=
| Click (user : option User.t) (product : Product.t)
| Settle (i : nat).

Definition perform (a : Action) (y : Sys) : Sys :=
  match a with
  | Click user product => click user product y
  | Settle i => settle i y
  end.

Definition schedule (acts : list Action) (y : Sys) : Sys :=
  fold_left (fun y a => perform a y) acts y.

Definition finished (p : Prog Env.World unit) : bool :=
  match p with
  | Async.Ret _ | Async.Throw => true
  | _ => false
  end.

(** Every call made so far has run to its end. *)
Definition allFinished (y : Sys) : bool := forallb finished (tasks y).

(** Two calls made one right after the other, then the remote calls
    settling in the order [settles] names their callers. *)
Definition twoClicks (user : option User.t) (product : Product.t)
    (settles : list nat) (w : Env.World) : Sys :=
  schedule (Click user product :: Click user product :: List.map Settle settles)
           (mkSys w []).

End ShopTasks.

(** ** Vocabulary of the statements *)
Module Spec.

(** The first [n] remote calls succeed. *)
Fixpoint okPrefix (n : nat) (script : list bool) : bool :=
  match n with
  | O => true
  | S n' => hd true script && okPrefix n' (tl script)
  end.

(** What a remote call leaves alone, whatever its outcome. *)
Definition sameLocal (w w' : Env.World) : Prop :=
  Env.anonymousCart w' = Env.anonymousCart w
  /\ Env.trace w' = Env.trace w
  /\ Env.session w' = Env.session w.

Definition isResolved {X} (r : Res X) : bool :=
  match r with
  | Resolved _ => true
  | Rejected => false
  end.

(** The line an update aims at is in the store. *)
Definition targetsKnown (dbCartMap : gmap string CartItem.t)
    (localCart : list GuestItem.t) (w : Env.World) : Prop :=
  forall g r, In g localCart -> dbCartMap !! GuestItem.product_id g = Some r ->
    exists c, List.find (Env.hasId (CartItem.id r)) (Env.cartStore w) = Some c.

(** What the merge owes a guest line [g]: the line [r] that the lookup
    found now holds [r]'s quantity plus [g]'s; without such a line, a line
    with an identifier from [n0] on holds [g]'s quantity. *)
Definition lineMerged (dbCartMap : gmap string CartItem.t) (email : string) (n0 : nat)
    (store' : list CartItem.t) (g : GuestItem.t) : Prop :=
  match dbCartMap !! GuestItem.product_id g with
  | Some r =>
      List.find (Env.hasId (CartItem.id r)) store'
      = Some (CartItem.with_quantity (CartItem.quantity r + GuestItem.quantity g) r)
  | None =>
      exists i, (n0 <= i)%nat
        /\ List.find (Env.hasId i) store'
           = Some (CartItem.mk i (GuestItem.product_id g) (GuestItem.quantity g) email)
  end.

(** The awaited part of [mergeCarts]: the fetch of the remote lines, then
    the calls for the guest lines. *)
Definition mergeOutcome (localCart : list GuestItem.t) (email : string) (w : Env.World)
    : Res (list CartItem.t) * Env.World :=
  if Env.nextOutcome w then
    Async.settleAll
      (List.map (Cart.mergeLine (Cart.dbCartMapOf (Env.linesOf email w)) email) localCart)
      (Env.popScript w)
  else (Rejected, Env.popScript w).

(** The condition under which [loadUser] goes on to merge: [User.me()]
    resolves, the guest cart is not empty and the user has an email. *)
Definition mergeDue (w : Env.World) : bool :=
  Env.nextOutcome w
  && match Env.session w with
     | Some u => (0 <? length (Env.readCart w))%nat && Js.truthy (User.email u)
     | None => false
     end.

(** The state in which [loadUser] reaches [mergeCarts]. *)
Definition afterMe (u : User.t) (s : Cart.State) : Cart.State :=
  Cart.mkState (Env.popScript (Cart.world s))
    (Cart.mkView (Cart.cartItems (Cart.view s)) (Cart.products (Cart.view s))
                 (Cart.loading (Cart.view s)) (Some u)
                 (Cart.updating (Cart.view s)) (Cart.isMerging (Cart.view s))).

(** The guard the merge is said to have: in no system reachable from a
    state with an empty trace does a merge start while another one is in
    progress. *)
Definition mergeGuarded : Prop :=
  forall s0 y, Env.trace (Cart.world s0) = [] -> Tasks.reachable s0 y ->
    Tasks.mergesOverlap (Tasks.st y) = false.


(** Equal as numbers, the sign of a zero apart. *)
Definition sameNumber (x y : Js.number) : Prop :=
  x = y \/ (Js.isZero x = true /\ Js.isZero y = true).

(** The product a line resolves to: the one stored under its reference. *)
Definition productOf (products : gmap string Cart.ProductInfo) (item : Cart.Line)
    : option Cart.ProductInfo :=
  match Cart.lookupProduct products (Cart.product_id item) with
  | Js.Own product => Some product
  | _ => None
  end.

(** The lines whose product reference resolves, with the product. *)
Definition resolved (products : gmap string Cart.ProductInfo) (lines : list Cart.Line)
    : list (Cart.Line * Cart.ProductInfo) :=
  omap (fun item => (fun p => (item, p)) <$> productOf products item) lines.

(** Price times quantity of a resolved line. *)
Definition amount (lp : Cart.Line * Cart.ProductInfo) : Js.number :=
  Js.times (Js.ofQ (Cart.price (snd lp)))
           (Js.ofZ match fst lp with
                   | Cart.StoredLine c => CartItem.quantity c
                   | Cart.GuestLine g => GuestItem.quantity g
                   end).

(** The reference of a line finds a truthy member that is not a product:
    one every object inherits, or one of an object installed as the
    prototype of the dictionary. *)
Definition picksInherited (products : gmap string Cart.ProductInfo) (item : Cart.Line)
    : Prop :=
  Cart.lookupProduct products (Cart.product_id item) = Js.Inherited true.

(** The conjunction of the five filter conditions. *)
Definition keeps (term : string) (f : Shop.Filters) (p : Product.t) : bool :=
  (negb (Js.truthy term) || Shop.matchesSearch term p)
  && (negb (0 <? length (Shop.categories f))%nat || Shop.matchesCategory f p)
  && (negb (0 <? length (Shop.brands f))%nat || Shop.matchesBrand f p)
  && match Shop.priceRange f with Some r => Shop.inRange r p | None => true end
  && (negb (Shop.inStock f) || Shop.hasStock p).

Definition stages (term : string) (f : Shop.Filters)
    : list (list Product.t -> list Product.t) :=
  [Shop.searchFilter term; Shop.categoryFilter f; Shop.brandFilter f;
   Shop.priceFilter f; Shop.stockFilter f].

(** Applying filter blocks one after the other. *)
Definition pipeline (ss : list (list Product.t -> list Product.t))
    (l : list Product.t) : list Product.t :=
  fold_left (fun acc stage => stage acc) ss l.

(** A block that keeps the elements satisfying some condition. *)
Definition filterLike (stage : list Product.t -> list Product.t) : Prop :=
  exists q, forall l, stage l = List.filter q l.

(** Two products tie under a sort key. *)
Definition ties (cmp : Product.t -> Product.t -> Q) (x y : Product.t) : bool :=
  Qeq_bool (cmp x y) 0.

Definition ratingOf (p : Product.t) : Q := Js.orZero (Product.rating p).


(** Number of items in a guest cart, and in a list of stored lines. *)
Definition guestTotal (cart : list GuestItem.t) : Z :=
  fold_right Z.add 0 (List.map GuestItem.quantity cart).

Definition storeTotal (lines : list CartItem.t) : Z :=
  fold_right Z.add 0 (List.map CartItem.quantity lines).

(** Every quantity of a guest cart is at least 1. *)
Definition positiveQuantities (cart : list GuestItem.t) : Prop :=
  Forall (fun g => 1 <= GuestItem.quantity g) cart.


(** A call that does nothing: it completes without an error and leaves
    local storage, the remote store, what has been shown and dispatched,
    and the lines and products of the view as they were. *)
Definition noOp (p : Prog Cart.State unit) (s : Cart.State) : Prop :=
  fst (Async.run p s) = Resolved tt
  /\ Cart.world (Async.exec p s) = Cart.world s
  /\ Cart.cartItems (Cart.view (Async.exec p s)) = Cart.cartItems (Cart.view s)
  /\ Cart.products (Cart.view (Async.exec p s)) = Cart.products (Cart.view s).

(** The boundary calls of a guest as no-ops: [updateQuantity] and
    [removeItem] on a product reference the guest cart has no entry for. *)
Definition guestBoundaryNoOps : Prop :=
  forall (productId : string) (s : Cart.State),
    Cart.user (Cart.view s) = None ->
    (forall g, In g (Env.readCart (Cart.world s)) -> GuestItem.product_id g <> productId) ->
    (forall q, noOp (Cart.updateQuantity productId q) s)
    /\ noOp (Cart.removeItem productId) s.

(** The store accepts a write to line [i]: the call is not made to fail
    and the line exists. *)
Definition accepted (i : nat) (w : Env.World) : bool :=
  Env.nextOutcome w && existsb (Env.hasId i) (Env.cartStore w).

(** What a handler logs and shows when a call is rejected. *)
Definition report (msg : string) : list Env.Event :=
  [Env.ConsoleError msg; Env.Toast "Error" true].

(** The view [loadCartItems] leaves: lines and product map as given, the
    loading flag down, the rest as it was. *)
Definition viewAfterLoad (s : Cart.State) (lines : list Cart.Line)
    (products : gmap string Cart.ProductInfo) : Cart.View :=
  Cart.mkView lines products false (Cart.user (Cart.view s))
              (Cart.updating (Cart.view s)) (Cart.isMerging (Cart.view s)).

(** The cart of an identity as product references with their quantities:
    the guest cart of local storage, or the lines of the store under the
    user's email. *)
Definition cartOf (user : option User.t) (w : Env.World) : list (string * Z) :=
  match user with
  | Some u => List.map (fun c => (CartItem.product_id c, CartItem.quantity c))
                       (Env.linesOf (User.email u) w)
  | None => List.map (fun g => (GuestItem.product_id g, GuestItem.quantity g))
                     (Env.readCart w)
  end.

(** Two calls of [handleAddToCart] made one right after the other on an
    empty cart leave one line of quantity 2, in whatever order the remote
    calls settle. *)
Definition addTwiceOneLine : Prop :=
  forall (user : option User.t) (product : Product.t) (w : Env.World)
         (settles : list nat),
    cartOf user w = [] ->
    Env.store_wf w ->
    okPrefix 4 (Env.script w) = true ->
    ShopTasks.allFinished (ShopTasks.twoClicks user product settles w) = true ->
    cartOf user (ShopTasks.world (ShopTasks.twoClicks user product settles w))
    = [(Product.id product, 2)].

End Spec.

(** ** Sample data *)
Module Sample.

(** A stand-in for [localeCompare]: code-unit order. *)
Definition codeUnitCompare (a b : string) : Z :=
  match String.compare a b with
  | Lt => -1
  | Eq => 0
  | Gt => 1
  end.

Definition coat : Product.t :=
  Product.mk "p1" "Wool Coat" (Some "Long winter coat") (Some "Luxe") "outerwear"
             1000 3 None 20 "coat.png".
Definition scarf : Product.t :=
  Product.mk "p2" "Silk Scarf" None (Some "Aria") "accessories"
             (4999 # 100) 0 (Some 0%Q) 30 "scarf.png".
Definition watch : Product.t :=
  Product.mk "p3" "Gold Watch" (Some "Automatic") None "accessories"
             1500 2 (Some (9 # 2)) 10 "watch.png".

Definition catalog : list Product.t := [coat; scarf; watch].

Definition accessoriesUnder2000 : Shop.Filters :=
  Shop.mkFilters ["accessories"] [] (Some (0%Q, 2000%Q)) false.

Definition ann : User.t := User.mk "ann@example.com".

Definition guestScarf (q : Z) : GuestItem.t :=
  GuestItem.mk "p2" q "Silk Scarf" (4999 # 100) "scarf.png" (Some "Aria").

Definition guestWorld : Env.World :=
  Env.mkWorld (Some [guestScarf 2]) None [] 0 catalog [] [].

Definition guestState : Cart.State := Cart.mkState guestWorld Cart.initialView.

(** A guest who has not added anything yet. *)
Definition freshGuestState : Cart.State :=
  Cart.mkState (Env.mkWorld None None [] 0 catalog [] []) Cart.initialView.

(** Ann is signed in; the store holds a line of someone else. *)
Definition annWorld : Env.World :=
  Env.mkWorld None (Some ann) [CartItem.mk 0 "p2" 4 "bob@example.com"] 1 catalog [] [].

(** Ann has just signed in with two scarves in the guest cart. *)
Definition mergeState (remote : list CartItem.t) (script : list bool) : Cart.State :=
  Cart.mkState
    (Env.mkWorld (Some [guestScarf 2]) (Some ann) remote (length remote) catalog script [])
    Cart.initialView.

Definition annScarf (q : Z) : CartItem.t := CartItem.mk 0 "p2" q "ann@example.com".

(** The effect running [loadUser] fires twice; the second task starts its
    merge while the first one waits for the remote lines. *)
Definition doubleMount : list Tasks.Action :=
  [Tasks.Mount; Tasks.Mount; Tasks.Resume 0; Tasks.Resume 1].

(** ... and both tasks run to their end, the first one first. *)
Definition doubleMerge : list Tasks.Action :=
  doubleMount ++ [Tasks.Resume 0; Tasks.Resume 0; Tasks.Resume 1; Tasks.Resume 1].

(** A stored line whose product has left the catalog and whose reference
    is the name of a member every object inherits. *)
Definition inheritedView : Cart.View :=
  Cart.mkView [Cart.StoredLine (CartItem.mk 7 "constructor" 1 "ann@example.com")]
              ∅ false (Some ann) ∅ false.



(** Ann is signed in on the cart page; the store holds three of her
    scarves and a line of hers whose product has left the catalog. *)
Definition annStore : list CartItem.t :=
  [annScarf 3; CartItem.mk 1 "gone" 1 "ann@example.com"].

Definition annCartState (script : list bool) : Cart.State :=
  Cart.mkState (Env.mkWorld None (Some ann) annStore 2 catalog script [])
               (Cart.mkView [] ∅ true (Some ann) ∅ false).

(** The guest's cart page once it has loaded the guest cart. *)
Definition guestShownState : Cart.State :=
  Cart.mkState guestWorld
    (Cart.mkView [Cart.GuestLine (guestScarf 2)] (Cart.guestProductMap [guestScarf 2])
                 false None ∅ false).

Definition guestCoat (q : Z) : GuestItem.t :=
  GuestItem.mk "p1" q "Wool Coat" 1000 "coat.png" (Some "Luxe").

(** Ann has just signed in with a coat and two scarves in the guest cart
    and three scarves in her remote cart. *)
Definition coatMergeState (script : list bool) : Cart.State :=
  Cart.mkState
    (Env.mkWorld (Some [guestCoat 1; guestScarf 2]) (Some ann) [annScarf 3] 1 catalog script [])
    Cart.initialView.

(** ... and the page has loaded her lines. *)
Definition annShownState (script : list bool) : Cart.State :=
  Cart.mkState (Env.mkWorld None (Some ann) annStore 2 catalog script [])
               (Cart.mkView (List.map Cart.StoredLine annStore) (Cart.productMapOf [scarf])
                            false (Some ann) ∅ false).

End Sample.

(** * Properties *)

(** ** Sorting by insertion *)
Section SortFacts.
Context {A : Type} (cmp : A -> A -> Q).

Lemma insert_perm (a : A) (l : list A) :
  Permutation (Js.insert cmp a l) (a :: l).
Proof.
  induction l as [|b l IH]; simpl.
  - reflexivity.
  - destruct (Js.positive (cmp a b)).
    + rewrite IH. apply perm_swap.
    + reflexivity.
Qed.

Lemma sort_perm (l : list A) : Permutation (Js.sort cmp l) l.
Proof.
  induction l as [|a l IH]; simpl.
  - reflexivity.
  - rewrite insert_perm. now apply perm_skip.
Qed.

(** An element that never moves past a member of a class leaves the
    subsequence of that class as it was. *)
Lemma filter_insert (P : A -> bool) (a : A) (l : list A) :
  (forall b, In b l -> P a = true -> P b = true -> Js.positive (cmp a b) = false) ->
  List.filter P (Js.insert cmp a l)
  = if P a then a :: List.filter P l else List.filter P l.
Proof.
  induction l as [|b l IH]; intros Hcls; simpl.
  - reflexivity.
  - destruct (Js.positive (cmp a b)) eqn:Hpos; simpl.
    + rewrite IH by (intros c Hc; apply Hcls; now right).
      destruct (P b) eqn:Hb, (P a) eqn:Ha; try reflexivity.
      rewrite (Hcls b) in Hpos by (auto; now left). discriminate.
    + reflexivity.
Qed.

Lemma sort_stable (P : A -> bool) (l : list A) :
  (forall a b, P a = true -> P b = true -> Js.positive (cmp a b) = false) ->
  List.filter P (Js.sort cmp l) = List.filter P l.
Proof.
  intros Hcls. induction l as [|a l IH]; simpl.
  - reflexivity.
  - rewrite filter_insert by (intros b _; apply Hcls). now rewrite IH.
Qed.

(** With a comparator that subtracts keys, the output is in descending
    key order. *)
Section Keyed.
Variable key : A -> Q.
Hypothesis cmp_key : forall a b, (cmp a b == key b - key a)%Q.

Lemma insert_descending (a : A) (l : list A) :
  StronglySorted (fun x y => (key y <= key x)%Q) l ->
  StronglySorted (fun x y => (key y <= key x)%Q) (Js.insert cmp a l).
Proof.
  induction 1 as [|b l Hs IH Hall]; simpl.
  - repeat constructor.
  - destruct (Js.positive (cmp a b)) eqn:Hpos.
    + constructor; [exact IH|].
      eapply Permutation_Forall; [symmetry; apply insert_perm|].
      constructor; [|exact Hall].
      unfold Js.positive in Hpos. apply negb_true_iff in Hpos.
      destruct (Qlt_le_dec 0 (cmp a b)) as [Hlt|Hle].
      * rewrite cmp_key in Hlt. lra.
      * apply Qle_bool_iff in Hle. congruence.
    + assert (Hab : (key b <= key a)%Q).
      { unfold Js.positive in Hpos. apply negb_false_iff, Qle_bool_iff in Hpos.
        rewrite cmp_key in Hpos. lra. }
      constructor; [constructor; assumption|].
      constructor; [exact Hab|].
      eapply List.Forall_impl; [|exact Hall]. simpl. intros c Hc. lra.
Qed.

Lemma sort_descending (l : list A) :
  StronglySorted (fun x y => (key y <= key x)%Q) (Js.sort cmp l).
Proof.
  induction l as [|a l IH]; simpl.
  - constructor.
  - now apply insert_descending.
Qed.
End Keyed.
End SortFacts.

(** ** The catalog filters *)
Section FilterFacts.

Lemma filter_true {A} (l : list A) : List.filter (fun _ => true) l = l.
Proof. induction l; simpl; congruence. Qed.

Lemma filter_guard {A} (g : bool) (q : A -> bool) (l : list A) :
  (if g then List.filter q l else l) = List.filter (fun x => negb g || q x) l.
Proof. destruct g; simpl; [reflexivity | now rewrite filter_true]. Qed.

Lemma filter_comm {A} (p q : A -> bool) (l : list A) :
  List.filter p (List.filter q l) = List.filter q (List.filter p l).
Proof.
  induction l as [|x l IH]; simpl; [reflexivity|].
  destruct (q x) eqn:Hq, (p x) eqn:Hp; simpl; rewrite ?Hq, ?Hp, IH; reflexivity.
Qed.

Lemma filter_and {A} (p q : A -> bool) (l : list A) :
  List.filter p (List.filter q l) = List.filter (fun x => q x && p x) l.
Proof.
  induction l as [|x l IH]; simpl; [reflexivity|].
  destruct (q x); simpl; [destruct (p x)|]; now rewrite IH.
Qed.

Variables (term : string) (f : Shop.Filters).

Lemma searchFilter_spec l :
  Shop.searchFilter term l
  = List.filter (fun p => negb (Js.truthy term) || Shop.matchesSearch term p) l.
Proof. apply filter_guard. Qed.

Lemma categoryFilter_spec l :
  Shop.categoryFilter f l
  = List.filter (fun p => negb (0 <? length (Shop.categories f))%nat
                          || Shop.matchesCategory f p) l.
Proof. apply filter_guard. Qed.

Lemma brandFilter_spec l :
  Shop.brandFilter f l
  = List.filter (fun p => negb (0 <? length (Shop.brands f))%nat
                          || Shop.matchesBrand f p) l.
Proof. apply filter_guard. Qed.

Lemma priceFilter_spec l :
  Shop.priceFilter f l
  = List.filter (fun p => match Shop.priceRange f with
                          | Some r => Shop.inRange r p
                          | None => true
                          end) l.
Proof.
  unfold Shop.priceFilter. destruct (Shop.priceRange f); [reflexivity|].
  now rewrite filter_true.
Qed.

Lemma stockFilter_spec l :
  Shop.stockFilter f l
  = List.filter (fun p => negb (Shop.inStock f) || Shop.hasStock p) l.
Proof. apply filter_guard. Qed.

Lemma stages_filterLike : Forall Spec.filterLike (Spec.stages term f).
Proof.
  repeat constructor; eexists; intros l.
  - apply searchFilter_spec.
  - apply categoryFilter_spec.
  - apply brandFilter_spec.
  - apply priceFilter_spec.
  - apply stockFilter_spec.
Qed.

Lemma filterLike_comm s1 s2 l :
  Spec.filterLike s1 -> Spec.filterLike s2 -> s1 (s2 l) = s2 (s1 l).
Proof. intros [q1 H1] [q2 H2]. rewrite !H1, !H2. apply filter_comm. Qed.

Lemma filterLike_subset s l p : Spec.filterLike s -> In p (s l) -> In p l.
Proof. intros [q Hq]. rewrite Hq, filter_In. tauto. Qed.

(** Reordering filter-like blocks does not change what a pipeline keeps. *)
Lemma pipeline_perm ss ss' :
  Permutation ss ss' -> Forall Spec.filterLike ss ->
  forall l, Spec.pipeline ss l = Spec.pipeline ss' l.
Proof.
  induction 1 as [|s ss ss' Hp IH|s1 s2 ss|ss1 ss2 ss3 Hp1 IH1 Hp2 IH2];
    intros Hall l.
  - reflexivity.
  - simpl. apply IH. now inversion Hall.
  - simpl. f_equal. inversion Hall as [|? ? H2 Hrest]; subst.
    inversion Hrest; subst. now apply filterLike_comm.
  - rewrite IH1 by assumption. apply IH2.
    eapply Permutation_Forall; eassumption.
Qed.

Lemma pipeline_stages l :
  Spec.pipeline (Spec.stages term f) l = List.filter (Spec.keeps term f) l.
Proof.
  unfold Spec.pipeline, Spec.stages; simpl.
  rewrite stockFilter_spec, priceFilter_spec, brandFilter_spec,
    categoryFilter_spec, searchFilter_spec.
  rewrite !filter_and. apply List.filter_ext. intros p.
  unfold Spec.keeps. now rewrite !andb_assoc.
Qed.

Lemma applyFilters_pipeline lc products sortBy :
  Shop.applyFilters lc products term f sortBy
  = Shop.sortProducts lc sortBy (Spec.pipeline (Spec.stages term f) products).
Proof. reflexivity. Qed.

End FilterFacts.

(** C7: the five filters of [applyFilters] compose as one conjunction and
    commute: the page shows the sort of the products that satisfy every
    filter condition; running the five blocks in any order before the sort
    gives the same list; any two blocks commute, the category and price
    blocks in particular.  The sort is the last step. *)
Theorem filters_commute (localeCompare : string -> string -> Z)
    (products : list Product.t) (term : string) (f : Shop.Filters) (sortBy : string) :
  Shop.applyFilters localeCompare products term f sortBy
  = Shop.sortProducts localeCompare sortBy (List.filter (Spec.keeps term f) products)
  /\ (forall ss, Permutation ss (Spec.stages term f) ->
        Shop.applyFilters localeCompare products term f sortBy
        = Shop.sortProducts localeCompare sortBy (Spec.pipeline ss products))
  /\ (forall l, Shop.categoryFilter f (Shop.priceFilter f l)
                = Shop.priceFilter f (Shop.categoryFilter f l))
  /\ (forall s1 s2 l, In s1 (Spec.stages term f) -> In s2 (Spec.stages term f) ->
        s1 (s2 l) = s2 (s1 l)).
Proof.
  pose proof (stages_filterLike term f) as Hall.
  split; [|split; [|split]].
  - rewrite applyFilters_pipeline. now rewrite pipeline_stages.
  - intros ss Hp. rewrite applyFilters_pipeline. f_equal.
    apply pipeline_perm; [now symmetry | assumption].
  - intros l. rewrite !categoryFilter_spec, !priceFilter_spec. apply filter_comm.
  - intros s1 s2 l H1 H2. rewrite List.Forall_forall in Hall.
    apply filterLike_comm; auto.
Qed.

Lemma filters_commute_witness :
  Shop.applyFilters Sample.codeUnitCompare Sample.catalog "o"
    Sample.accessoriesUnder2000 "price-low"
  = Shop.sortProducts Sample.codeUnitCompare "price-low"
      (Spec.pipeline
         [Shop.categoryFilter Sample.accessoriesUnder2000;
          Shop.searchFilter "o";
          Shop.brandFilter Sample.accessoriesUnder2000;
          Shop.priceFilter Sample.accessoriesUnder2000;
          Shop.stockFilter Sample.accessoriesUnder2000]
         Sample.catalog).
Proof.
  apply (proj1 (proj2 (filters_commute Sample.codeUnitCompare Sample.catalog "o"
                         Sample.accessoriesUnder2000 "price-low"))).
  apply perm_swap.
Defined.

(** ** The sort step *)
Section SortStep.
Variable localeCompare : string -> string -> Z.

Lemma positive_false (q : Q) : (q <= 0)%Q -> Js.positive q = false.
Proof. intros H. unfold Js.positive. apply negb_false_iff. now apply Qle_bool_iff. Qed.

Lemma inject_Z_zero (z : Z) : (inject_Z z == 0)%Q -> z = 0.
Proof. intros H. now apply (inject_Z_injective z 0). Qed.

Lemma orZero_eq (x : option Q) :
  (Js.orZero x == match x with Some r => r | None => 0 end)%Q.
Proof.
  destruct x as [r|]; simpl; [|reflexivity].
  destruct (Qeq_bool r 0) eqn:E; [|reflexivity].
  apply Qeq_bool_iff in E. now rewrite E.
Qed.

(** The tie classes of the four numeric keys are closed: two products
    that tie with a third tie with each other.  For the name key this is
    what [localeCompare] has to provide. *)
Hypothesis localeCompare_ties :
  forall s a b, localeCompare s a = 0 -> localeCompare s b = 0 -> localeCompare a b = 0.

Lemma compare_ties (sortBy : string) (x a b : Product.t) :
  Spec.ties (Shop.compareProducts localeCompare sortBy) x a = true ->
  Spec.ties (Shop.compareProducts localeCompare sortBy) x b = true ->
  Js.positive (Shop.compareProducts localeCompare sortBy a b) = false.
Proof.
  unfold Spec.ties, Shop.compareProducts. intros Ha Hb.
  apply Qeq_bool_iff in Ha, Hb. apply positive_false.
  repeat match goal with
         | H : context [if ?c then _ else _] |- _ => destruct c
         end; try lra.
  - apply inject_Z_zero in Ha, Hb.
    replace (Product.created_date b - Product.created_date a) with 0 by lia.
    apply Qle_refl.
  - apply inject_Z_zero in Ha, Hb.
    rewrite (localeCompare_ties _ _ _ Ha Hb). apply Qle_refl.
Qed.

Lemma rating_ties (r : Q) (a b : Product.t) :
  Qeq_bool (Spec.ratingOf a) r = true ->
  Qeq_bool (Spec.ratingOf b) r = true ->
  Js.positive (Shop.compareProducts localeCompare "rating" a b) = false.
Proof.
  intros Ha Hb. apply Qeq_bool_iff in Ha, Hb. apply positive_false.
  unfold Shop.compareProducts; simpl. unfold Spec.ratingOf in *. lra.
Qed.
End SortStep.

(** C8: the sort step is stable for every sort key: its output is a
    rearrangement of its input in which the products that tie under the key
    stand in their input order.  For the rating key, where a missing
    rating counts as 0, the output is in descending rating order, the
    products of each rating keep their input order, and two products of
    equal rating are left as they came. *)
Theorem sort_step_stable (localeCompare : string -> string -> Z)
    (localeCompare_ties : forall s a b,
        localeCompare s a = 0 -> localeCompare s b = 0 -> localeCompare a b = 0)
    (sortBy : string) (l : list Product.t) :
  Permutation (Shop.sortProducts localeCompare sortBy l) l
  /\ (forall x,
        List.filter (Spec.ties (Shop.compareProducts localeCompare sortBy) x)
                    (Shop.sortProducts localeCompare sortBy l)
        = List.filter (Spec.ties (Shop.compareProducts localeCompare sortBy) x) l)
  /\ (forall r,
        List.filter (fun p => Qeq_bool (Spec.ratingOf p) r)
                    (Shop.sortProducts localeCompare "rating" l)
        = List.filter (fun p => Qeq_bool (Spec.ratingOf p) r) l)
  /\ StronglySorted (fun x y => (Spec.ratingOf y <= Spec.ratingOf x)%Q)
                    (Shop.sortProducts localeCompare "rating" l)
  /\ (forall a b, (Spec.ratingOf a == Spec.ratingOf b)%Q ->
        Shop.sortProducts localeCompare "rating" [a; b] = [a; b]).
Proof.
  repeat split.
  - apply sort_perm.
  - intros x. apply sort_stable. intros a b. now apply compare_ties.
  - intros r. apply sort_stable. intros a b. apply rating_ties.
  - apply sort_descending. intros a b. reflexivity.
  - intros a b Hab. unfold Shop.sortProducts; simpl.
    rewrite positive_false; [reflexivity|].
    unfold Shop.compareProducts; simpl. unfold Spec.ratingOf in Hab. lra.
Qed.

Lemma codeUnitCompare_ties (s a b : string) :
  Sample.codeUnitCompare s a = 0 -> Sample.codeUnitCompare s b = 0 ->
  Sample.codeUnitCompare a b = 0.
Proof.
  unfold Sample.codeUnitCompare. intros Ha Hb.
  destruct (String.compare s a) eqn:Ea; try discriminate.
  destruct (String.compare s b) eqn:Eb; try discriminate.
  apply String.compare_eq_iff in Ea, Eb. subst.
  pose proof (String.compare_antisym b b) as Hrefl.
  destruct (String.compare b b); simpl in Hrefl; congruence.
Qed.

Lemma sort_step_stable_witness :
  Shop.sortProducts Sample.codeUnitCompare "rating" [Sample.coat; Sample.scarf]
  = [Sample.coat; Sample.scarf].
Proof.
  apply (sort_step_stable Sample.codeUnitCompare codeUnitCompare_ties "rating" []).
  reflexivity.
Defined.

(** ** The price filter *)

Lemma priceFilter_In (f : Shop.Filters) (lo hi : Q) (l : list Product.t) (p : Product.t) :
  Shop.priceRange f = Some (lo, hi) ->
  In p (Shop.priceFilter f l)
  <-> In p l /\ (lo <= Product.price p)%Q /\ (Product.price p <= hi)%Q.
Proof.
  intros Hr. unfold Shop.priceFilter. rewrite Hr, filter_In.
  unfold Shop.inRange; simpl. rewrite andb_true_iff, !Qle_bool_iff. reflexivity.
Qed.

(** C9: the price filter is inclusive at both ends.  With the range
    [lo, hi] (lo not above hi) it keeps exactly the products priced from lo
    to hi, so a product priced lo or priced hi is kept; with [0, 1000] a
    product priced 1000 is kept. *)
Theorem price_filter_inclusive (f : Shop.Filters) (lo hi : Q)
    (l : list Product.t) (p : Product.t) :
  Shop.priceRange f = Some (lo, hi) ->
  (In p (Shop.priceFilter f l)
   <-> In p l /\ (lo <= Product.price p)%Q /\ (Product.price p <= hi)%Q)
  /\ ((lo <= hi)%Q -> In p l ->
      (Product.price p == lo)%Q \/ (Product.price p == hi)%Q ->
      In p (Shop.priceFilter f l))
  /\ ((lo == 0)%Q -> (hi == 1000)%Q -> In p l -> (Product.price p == 1000)%Q ->
      In p (Shop.priceFilter f l)).
Proof.
  intros Hr. pose proof (priceFilter_In f lo hi l p Hr) as Hiff.
  split; [exact Hiff|split].
  - intros Hle Hin [He|He]; apply Hiff; repeat split; auto; lra.
  - intros Hlo Hhi Hin He. apply Hiff; repeat split; auto; lra.
Qed.

Lemma price_filter_inclusive_witness :
  In Sample.coat (Shop.priceFilter Shop.initialFilters Sample.catalog).
Proof.
  apply (price_filter_inclusive Shop.initialFilters 0 1000 Sample.catalog Sample.coat).
  - reflexivity.
  - reflexivity.
  - reflexivity.
  - now left.
  - reflexivity.
Defined.

(** C10: the initial view and the view after [clearFilters] both carry the
    price range [0, 1000], so with no filter chosen a product priced above
    1000 is not shown, whatever the search term and the sort key. *)
Theorem default_price_cap (localeCompare : string -> string -> Z)
    (products : list Product.t) (v : Shop.ViewState) (p : Product.t) :
  Shop.priceRange Shop.initialFilters = Some (0%Q, 1000%Q)
  /\ Shop.priceRange (Shop.filters (Shop.clearFilters v)) = Some (0%Q, 1000%Q)
  /\ Shop.filters (Shop.clearFilters v) = Shop.initialFilters
  /\ ((1000 < Product.price p)%Q ->
      ~ In p (Shop.visible localeCompare products Shop.initialView)
      /\ ~ In p (Shop.visible localeCompare products (Shop.clearFilters v))
      /\ forall term sortBy,
           ~ In p (Shop.applyFilters localeCompare products term Shop.initialFilters sortBy)).
Proof.
  assert (Hcap : forall term sortBy, (1000 < Product.price p)%Q ->
            ~ In p (Shop.applyFilters localeCompare products term
                      Shop.initialFilters sortBy)).
  { intros term sortBy Hp Hin. rewrite applyFilters_pipeline in Hin.
    apply (Permutation_in _ (sort_perm _ _)) in Hin.
    rewrite pipeline_stages in Hin. apply filter_In in Hin as [_ Hk].
    unfold Spec.keeps in Hk; simpl in Hk. rewrite !andb_true_iff in Hk.
    destruct Hk as [[_ Hk] _]. unfold Shop.inRange in Hk; simpl in Hk.
    apply andb_true_iff in Hk as [_ Hk]. apply Qle_bool_iff in Hk. lra. }
  repeat split; try reflexivity; intros; apply Hcap; assumption.
Qed.

Lemma default_price_cap_witness :
  ~ In Sample.watch (Shop.visible Sample.codeUnitCompare Sample.catalog Shop.initialView).
Proof.
  apply (default_price_cap Sample.codeUnitCompare Sample.catalog Shop.initialView
           Sample.watch).
  reflexivity.
Defined.

(** ** Totals *)
Section Numbers.


Lemma plus_nan_l (x : Js.number) : Js.plus Js.nan x = Js.nan.
Proof. reflexivity. Qed.

Lemma times_nan_l (x : Js.number) : Js.times Js.nan x = Js.nan.
Proof. reflexivity. Qed.

Lemma sameNumber_refl (x : Js.number) : Spec.sameNumber x x.
Proof. now left. Qed.

Lemma sameNumber_trans (x y z : Js.number) :
  Spec.sameNumber x y -> Spec.sameNumber y z -> Spec.sameNumber x z.
Proof.
  intros [->|[Hx Hy]] [->|[Hy' Hz]]; try (now left); try (right; now split).
Qed.

(** Adding the literal [0] changes at most the sign of a zero. *)
Lemma plus_zero_same (x : Js.number) : Spec.sameNumber (Js.plus x Js.zero) x.
Proof. destruct x as [[|]| | |]; (now left) || (right; now split). Qed.

(** A sum does not tell the two zeros apart in its first term. *)
Lemma plus_same (x x' a : Js.number) :
  Spec.sameNumber x x' -> Spec.sameNumber (Js.plus x a) (Js.plus x' a).
Proof.
  intros [->|[Hx Hx']]; [now left|].
  destruct x as [sx| | |]; try discriminate. destruct x' as [sx'| | |]; try discriminate.
  destruct a as [sa| | |]; try (now left).
  destruct sx, sx', sa; (now left) || (right; now split).
Qed.

Lemma fold_plus_same (l : list Js.number) (acc acc' : Js.number) :
  Spec.sameNumber acc acc' ->
  Spec.sameNumber (fold_left Js.plus l acc) (fold_left Js.plus l acc').
Proof.
  revert acc acc'. induction l as [|a l IH]; intros acc acc' H; simpl; [exact H|].
  apply IH. now apply plus_same.
Qed.

Lemma fold_plus_nan (l : list Js.number) : fold_left Js.plus l Js.nan = Js.nan.
Proof. induction l as [|a l IH]; simpl; [reflexivity | exact IH]. Qed.
End Numbers.

Section Totals.
Variable products : gmap string Cart.ProductInfo.

Lemma lookupProduct_own (key : string) (product : Cart.ProductInfo) :
  Cart.lookupProduct products key = Js.Own product <-> products !! key = Some product.
Proof.
  unfold Cart.lookupProduct, Js.member. destruct (products !! key) as [p|].
  - split; congruence.
  - split; [|discriminate].
    destruct (_ ≫= _) as [b|]; [discriminate|]. now destruct (Js.inherited key).
Qed.

Lemma productOf_Some (item : Cart.Line) (product : Cart.ProductInfo) :
  Spec.productOf products item = Some product
  <-> products !! Cart.product_id item = Some product.
Proof.
  rewrite <- lookupProduct_own. unfold Spec.productOf.
  destruct (Cart.lookupProduct products (Cart.product_id item)); split; congruence.
Qed.

(** The amount of a line, by what its reference finds. *)
Lemma lineAmount_cases (item : Cart.Line) :
  match Spec.productOf products item with
  | Some product => Cart.lineAmount products item = Spec.amount (item, product)
  | None =>
      (Spec.picksInherited products item /\ Cart.lineAmount products item = Js.nan)
      \/ (~ Spec.picksInherited products item /\ Cart.lineAmount products item = Js.zero)
  end.
Proof.
  unfold Spec.productOf, Spec.picksInherited, Cart.lineAmount, Spec.amount.
  destruct (Cart.lookupProduct products (Cart.product_id item)) as [p|[|]|].
  - now destruct item.
  - left. split; reflexivity.
  - right. split; [discriminate | reflexivity].
  - right. split; [discriminate | reflexivity].
Qed.

Lemma fold_subtotal (lines : list Cart.Line) (acc acc' : Js.number) :
  (forall item, In item lines -> ~ Spec.picksInherited products item) ->
  Spec.sameNumber acc acc' ->
  Spec.sameNumber
    (fold_left (fun total item => Js.plus total (Cart.lineAmount products item)) lines acc)
    (fold_left Js.plus (List.map Spec.amount (Spec.resolved products lines)) acc').
Proof.
  revert acc acc'. induction lines as [|item lines IH]; intros acc acc' Hplain Hacc.
  - exact Hacc.
  - cbn [fold_left]. unfold Spec.resolved. cbn [omap list_omap].
    fold (Spec.resolved products lines).
    pose proof (lineAmount_cases item) as Hitem.
    destruct (Spec.productOf products item) as [product|]; cbn [fmap option_fmap option_map].
    + rewrite Hitem. cbn [List.map fold_left]. apply IH.
      * intros x Hx. apply Hplain. now right.
      * now apply plus_same.
    + destruct Hitem as [[Hin _]|[_ ->]].
      * exfalso. apply (Hplain item); [now left | exact Hin].
      * apply IH; [intros x Hx; apply Hplain; now right|].
        eapply sameNumber_trans; [apply plus_zero_same | exact Hacc].
Qed.



Lemma resolved_app (l1 l2 : list Cart.Line) :
  Spec.resolved products (l1 ++ l2) = Spec.resolved products l1 ++ Spec.resolved products l2.
Proof. unfold Spec.resolved. apply omap_app. Qed.

End Totals.

Lemma subtotal_sum (v : Cart.View) :
  (forall item, In item (Cart.cartItems v) ->
     ~ Spec.picksInherited (Cart.products v) item) ->
  Spec.sameNumber (Cart.getSubtotal v)
    (Js.sum (List.map Spec.amount (Spec.resolved (Cart.products v) (Cart.cartItems v)))).
Proof.
  intros Hplain. unfold Cart.getSubtotal, Js.sum.
  apply fold_subtotal; [exact Hplain | apply sameNumber_refl].
Qed.



(** ** Running handlers *)
Section ProgFacts.
Context {S : Type}.

Lemma run_bind_raw {A B} (p : Prog S A) (f : A -> Prog S B) (s : S) :
  Async.run (Async.bind p f) s
  = match Async.run p s with
    | (Resolved a, s') => Async.run (f a) s'
    | (Rejected, s') => (Rejected, s')
    end.
Proof.
  revert s.
  induction p as [a| |X g k IH|X c k IH]; intros s; simpl; try reflexivity.
  - destruct (g s) as [x s']. apply IH.
  - destruct (c s) as [r s']. apply IH.
Qed.

Lemma run_bind {A B} (p : Prog S A) (f : A -> Prog S B) (s : S) :
  Async.run (p ≫= f) s
  = match Async.run p s with
    | (Resolved a, s') => Async.run (f a) s'
    | (Rejected, s') => (Rejected, s')
    end.
Proof. apply run_bind_raw. Qed.

Lemma run_tryCatch {A} (p h : Prog S A) (s : S) :
  Async.run (Async.tryCatch p h) s
  = match Async.run p s with
    | (Resolved a, s') => (Resolved a, s')
    | (Rejected, s') => Async.run h s'
    end.
Proof.
  revert s.
  induction p as [a| |X g k IH|X c k IH]; intros s; simpl; try reflexivity.
  - destruct (g s) as [x s']. apply IH.
  - destruct (c s) as [r s']. apply IH.
Qed.

Lemma run_tryFinally {A} (p : Prog S A) (fin : Prog S unit) (s : S) :
  Async.run (Async.tryFinally p fin) s
  = match Async.run fin (snd (Async.run p s)) with
    | (Resolved _, s'') => (fst (Async.run p s), s'')
    | (Rejected, s'') => (Rejected, s'')
    end.
Proof.
  revert s.
  induction p as [a| |X g k IH|X c k IH]; intros s; simpl.
  - rewrite run_bind_raw. destruct (Async.run fin s) as [[[]|] s']; reflexivity.
  - rewrite run_bind_raw. destruct (Async.run fin s) as [[[]|] s']; reflexivity.
  - destruct (g s) as [x s']. apply IH.
  - destruct (c s) as [r s']. apply IH.
Qed.

Lemma run_act {X} (f : S -> X * S) (s : S) :
  Async.run (Async.act f) s = (Resolved (fst (f s)), snd (f s)).
Proof. unfold Async.act; simpl. now destruct (f s). Qed.

Lemma run_await {X} (c : S -> Res X * S) (s : S) :
  Async.run (Async.await c) s = c s.
Proof. unfold Async.await; simpl. now destruct (c s) as [[x|] s']. Qed.

Lemma run_ret {A} (a : A) (s : S) :
  Async.run (mret a : Prog S A) s = (Resolved a, s).
Proof. reflexivity. Qed.
End ProgFacts.

Ltac run_step :=
  rewrite ?run_bind, ?run_tryCatch, ?run_tryFinally, ?run_act, ?run_await, ?run_ret.

Ltac st_simpl :=
  cbn [fst snd Cart.world Cart.view
       Cart.cartItems Cart.products Cart.loading Cart.user Cart.updating Cart.isMerging
       Cart.onView Cart.onWorld Cart.read
       Env.getCart Env.setCart Env.removeCart Env.emit
       Env.set_anonymousCart Env.set_trace Env.set_script Env.set_cartStore
       Env.anonymousCart Env.session Env.cartStore Env.nextId Env.catalog Env.script
       Env.trace Env.readCart Env.popScript negb].

Ltac run_all := repeat (run_step; st_simpl).

Ltac unfold_cart :=
  unfold Cart.reloadAndNotify, Cart.loadCartItems, Cart.toast, Cart.consoleError,
    Cart.dispatchCartUpdated, Cart.setCartItems, Cart.setProducts, Cart.setLoading,
    Cart.setUser, Cart.setUpdating, Cart.setIsMerging.

(** ** The guest cart keeps one entry per product *)
Section GuestCart.
Variable productId : string.

Lemma setGuestQuantity_absent (q : Z) (localCart : list GuestItem.t) :
  (forall g, In g localCart -> GuestItem.product_id g <> productId) ->
  Cart.setGuestQuantity productId q localCart = localCart.
Proof.
  induction localCart as [|g l IH]; intros Hno; simpl; [reflexivity|].
  destruct (String.eqb_spec (GuestItem.product_id g) productId) as [E|_].
  - exfalso. apply (Hno g); [now left | exact E].
  - f_equal. apply IH. intros g' Hg'. apply Hno. now right.
Qed.

Lemma removeGuestItem_absent (localCart : list GuestItem.t) :
  (forall g, In g localCart -> GuestItem.product_id g <> productId) ->
  Cart.removeGuestItem productId localCart = localCart.
Proof.
  induction localCart as [|g l IH]; intros Hno; simpl; [reflexivity|].
  destruct (String.eqb_spec (GuestItem.product_id g) productId) as [E|_]; simpl.
  - exfalso. apply (Hno g); [now left | exact E].
  - f_equal. apply IH. intros g' Hg'. apply Hno. now right.
Qed.

Lemma setGuestQuantity_ids (q : Z) (localCart : list GuestItem.t) :
  List.map GuestItem.product_id (Cart.setGuestQuantity productId q localCart)
  = List.map GuestItem.product_id localCart.
Proof.
  induction localCart as [|g l IH]; simpl; [reflexivity|].
  rewrite IH. now destruct (String.eqb (GuestItem.product_id g) productId).
Qed.
End GuestCart.

(** ** Boundary cases of updateQuantity and removeItem *)
Section Boundary.
Variables (productId : string) (s : Cart.State).

Lemma updateQuantity_underflow (q : Z) :
  q < 1 -> Async.run (Cart.updateQuantity productId q) s = (Resolved tt, s).
Proof.
  intros Hq. unfold Cart.updateQuantity.
  destruct (Z.ltb_spec q 1); [reflexivity | lia].
Qed.

Lemma updateQuantity_unknown_stored (q : Z) (u : User.t) :
  Cart.user (Cart.view s) = Some u ->
  List.find (Cart.isProduct productId) (Cart.cartItems (Cart.view s)) = None ->
  Spec.noOp (Cart.updateQuantity productId q) s.
Proof.
  intros Hu Hfind. unfold Spec.noOp, Async.exec, Cart.updateQuantity.
  destruct (q <? 1).
  - rewrite run_ret. auto.
  - unfold_cart. run_all. rewrite Hu. run_all. rewrite Hfind. run_all. auto.
Qed.

Lemma removeItem_unknown_stored (u : User.t) :
  Cart.user (Cart.view s) = Some u ->
  List.find (Cart.isProduct productId) (Cart.cartItems (Cart.view s)) = None ->
  Spec.noOp (Cart.removeItem productId) s.
Proof.
  intros Hu Hfind. unfold Spec.noOp, Async.exec, Cart.removeItem.
  unfold_cart. run_all. rewrite Hu. run_all. rewrite Hfind. run_all. auto.
Qed.

(** The reload of a guest: the view is rebuilt from local storage and the
    notification is dispatched. *)
Lemma reload_guest (s0 : Cart.State) :
  Cart.user (Cart.view s0) = None ->
  exists s',
    Async.run (Cart.reloadAndNotify productId) s0 = (Resolved tt, s')
    /\ Env.anonymousCart (Cart.world s') = Env.anonymousCart (Cart.world s0)
    /\ Env.cartStore (Cart.world s') = Env.cartStore (Cart.world s0)
    /\ Env.trace (Cart.world s') = Env.trace (Cart.world s0) ++ [Env.CartUpdated]
    /\ Cart.cartItems (Cart.view s')
       = List.map Cart.GuestLine (Env.readCart (Cart.world s0)).
Proof.
  intros Hu. unfold_cart. run_all. rewrite Hu. st_simpl. run_all.
  eexists. split; [reflexivity|]. st_simpl. auto.
Qed.

Lemma updateQuantity_unknown_guest (q : Z) :
  1 <= q ->
  Cart.user (Cart.view s) = None ->
  (forall g, In g (Env.readCart (Cart.world s)) -> GuestItem.product_id g <> productId) ->
  let s' := Async.exec (Cart.updateQuantity productId q) s in
  fst (Async.run (Cart.updateQuantity productId q) s) = Resolved tt
  /\ Env.anonymousCart (Cart.world s') = Some (Env.readCart (Cart.world s))
  /\ Env.cartStore (Cart.world s') = Env.cartStore (Cart.world s)
  /\ Env.trace (Cart.world s') = Env.trace (Cart.world s) ++ [Env.CartUpdated]
  /\ Cart.cartItems (Cart.view s')
     = List.map Cart.GuestLine (Env.readCart (Cart.world s)).
Proof.
  intros Hq Hu Hno. unfold Async.exec, Cart.updateQuantity.
  destruct (Z.ltb_spec q 1); [lia|].
  unfold Cart.setUpdating. run_all. rewrite Hu. run_all.
  rewrite setGuestQuantity_absent by assumption.
  match goal with |- context [Async.run (Cart.reloadAndNotify _) ?s0] =>
    destruct (reload_guest s0 eq_refl) as (s' & Hrun & Hcart & Hstore & Htrace & Hview) end.
  rewrite Hrun. st_simpl. rewrite Hcart, Hstore, Htrace, Hview. st_simpl. auto.
Qed.

Lemma removeItem_unknown_guest :
  Cart.user (Cart.view s) = None ->
  (forall g, In g (Env.readCart (Cart.world s)) -> GuestItem.product_id g <> productId) ->
  let s' := Async.exec (Cart.removeItem productId) s in
  fst (Async.run (Cart.removeItem productId) s) = Resolved tt
  /\ Env.anonymousCart (Cart.world s') = Some (Env.readCart (Cart.world s))
  /\ Env.cartStore (Cart.world s') = Env.cartStore (Cart.world s)
  /\ Env.trace (Cart.world s')
     = Env.trace (Cart.world s) ++ [Env.Toast "Item removed" false; Env.CartUpdated]
  /\ Cart.cartItems (Cart.view s')
     = List.map Cart.GuestLine (Env.readCart (Cart.world s)).
Proof.
  intros Hu Hno. unfold Async.exec, Cart.removeItem.
  unfold Cart.setUpdating, Cart.toast. run_all. rewrite Hu. run_all.
  rewrite removeGuestItem_absent by assumption.
  match goal with |- context [Async.run (Cart.reloadAndNotify _) ?s0] =>
    destruct (reload_guest s0 eq_refl) as (s' & Hrun & Hcart & Hstore & Htrace & Hview) end.
  rewrite Hrun. st_simpl. rewrite Hcart, Hstore, Htrace, Hview. st_simpl.
  rewrite <- app_assoc. auto.
Qed.
End Boundary.

(** C6, as the code has it.  [updateQuantity] with a quantity below 1 (0
    and -1 in particular) returns at once with the whole state untouched.
    For a signed-in user, [updateQuantity] and [removeItem] for a product
    reference without a shown line do nothing: no store call is made, and
    local storage, the remote store, what is shown and the lines of the
    view stay as they were.  For a guest, the two calls on a reference the
    guest cart has no entry for complete without an error and keep the
    entries of the cart, but they are no no-ops: the guest cart is written
    back to local storage with the same entries (an absent one is created
    empty), the view is reloaded from it and the "cart changed"
    notification is dispatched, for [removeItem] after its "Item removed"
    toast; the remote store is not touched. *)
Theorem boundary_noops (productId : string) (s : Cart.State) :
  Async.run (Cart.updateQuantity productId 0) s = (Resolved tt, s)
  /\ Async.run (Cart.updateQuantity productId (-1)) s = (Resolved tt, s)
  /\ (forall q, q < 1 -> Async.run (Cart.updateQuantity productId q) s = (Resolved tt, s))
  /\ (forall u,
        Cart.user (Cart.view s) = Some u ->
        List.find (Cart.isProduct productId) (Cart.cartItems (Cart.view s)) = None ->
        (forall q, Spec.noOp (Cart.updateQuantity productId q) s)
        /\ Spec.noOp (Cart.removeItem productId) s)
  /\ (Cart.user (Cart.view s) = None ->
      (forall g, In g (Env.readCart (Cart.world s)) ->
                 GuestItem.product_id g <> productId) ->
      (forall q, 1 <= q ->
         let s' := Async.exec (Cart.updateQuantity productId q) s in
         fst (Async.run (Cart.updateQuantity productId q) s) = Resolved tt
         /\ Env.anonymousCart (Cart.world s') = Some (Env.readCart (Cart.world s))
         /\ Env.cartStore (Cart.world s') = Env.cartStore (Cart.world s)
         /\ Env.trace (Cart.world s') = Env.trace (Cart.world s) ++ [Env.CartUpdated]
         /\ Cart.cartItems (Cart.view s')
            = List.map Cart.GuestLine (Env.readCart (Cart.world s)))
      /\ (let s' := Async.exec (Cart.removeItem productId) s in
          fst (Async.run (Cart.removeItem productId) s) = Resolved tt
          /\ Env.anonymousCart (Cart.world s') = Some (Env.readCart (Cart.world s))
          /\ Env.cartStore (Cart.world s') = Env.cartStore (Cart.world s)
          /\ Env.trace (Cart.world s')
             = Env.trace (Cart.world s) ++ [Env.Toast "Item removed" false; Env.CartUpdated]
          /\ Cart.cartItems (Cart.view s')
             = List.map Cart.GuestLine (Env.readCart (Cart.world s)))).
Proof.
  split; [apply updateQuantity_underflow; lia|].
  split; [apply updateQuantity_underflow; lia|].
  split; [apply updateQuantity_underflow|].
  split.
  - intros u Hu Hfind. split.
    + intros q. now apply (updateQuantity_unknown_stored productId s q u).
    + now apply (removeItem_unknown_stored productId s u).
  - intros Hu Hno. split.
    + intros q Hq. now apply updateQuantity_unknown_guest.
    + now apply removeItem_unknown_guest.
Qed.

Lemma boundary_noops_witness :
  let s' := Async.exec (Cart.removeItem "p9") Sample.guestState in
  Env.anonymousCart (Cart.world s') = Some [Sample.guestScarf 2]
  /\ Env.trace (Cart.world s') = [Env.Toast "Item removed" false; Env.CartUpdated]
  /\ Cart.cartItems (Cart.view s') = [Cart.GuestLine (Sample.guestScarf 2)].
Proof.
  destruct (proj2 (proj2 (proj2 (proj2 (boundary_noops "p9" Sample.guestState)))) eq_refl)
    as [_ (_ & Hcart & _ & Htrace & Hview)].
  - simpl. intros g [<-|[]]. discriminate.
  - repeat split; assumption.
Defined.

(** C6 fails as stated for a guest: removing a product that is not in the
    cart writes local storage, shows "Item removed" and dispatches the
    notification. *)
Lemma guest_boundary_not_noop : ~ Spec.guestBoundaryNoOps.
Proof.
  intros H.
  destruct (H "p9" Sample.freshGuestState eq_refl) as [_ (_ & Hworld & _)].
  - intros g [].
  - vm_compute in Hworld. discriminate Hworld.
Qed.

(** ** The remote store *)
Section Remote.

Lemma okPrefix_S (n : nat) (w : Env.World) :
  Spec.okPrefix (S n) (Env.script w) = true ->
  Env.nextOutcome w = true /\ Spec.okPrefix n (Env.script (Env.popScript w)) = true.
Proof.
  unfold Env.nextOutcome. simpl. intros H. apply andb_true_iff in H.
  destruct (Env.script w); simpl in *; tauto.
Qed.

Lemma remote_ok {X} (op : Env.World -> option (X * Env.World)) (w : Env.World) :
  Env.nextOutcome w = true ->
  Env.remote op w
  = match op (Env.popScript w) with
    | Some (x, w2) => (Resolved x, w2)
    | None => (Rejected, Env.popScript w)
    end.
Proof. intros H. unfold Env.remote. now rewrite H. Qed.

Lemma remote_fail {X} (op : Env.World -> option (X * Env.World)) (w : Env.World) :
  Env.nextOutcome w = false -> Env.remote op w = (Rejected, Env.popScript w).
Proof. intros H. unfold Env.remote. now rewrite H. Qed.

Lemma filter_ok (email : string) (productId : option string) (w : Env.World) :
  Env.nextOutcome w = true ->
  Env.CartItem_filter email productId w
  = (Resolved (List.filter (Env.matchesCriteria email productId) (Env.cartStore w)),
     Env.popScript w).
Proof. intros H. unfold Env.CartItem_filter. now rewrite remote_ok. Qed.

Lemma create_ok (productId : string) (q : Z) (email : string) (w : Env.World) :
  Env.nextOutcome w = true ->
  Env.CartItem_create productId q email w
  = (Resolved (CartItem.mk (Env.nextId w) productId q email),
     Env.set_cartStore
       (Env.cartStore w ++ [CartItem.mk (Env.nextId w) productId q email])
       (S (Env.nextId w)) (Env.popScript w)).
Proof. intros H. unfold Env.CartItem_create. now rewrite remote_ok. Qed.

Lemma update_ok (i : nat) (q : Z) (c : CartItem.t) (w : Env.World) :
  Env.nextOutcome w = true ->
  List.find (Env.hasId i) (Env.cartStore w) = Some c ->
  Env.CartItem_update i q w
  = (Resolved (CartItem.with_quantity q c),
     Env.set_cartStore (List.map (Env.setQuantity i q) (Env.cartStore w))
       (Env.nextId w) (Env.popScript w)).
Proof.
  intros H Hf. unfold Env.CartItem_update. rewrite remote_ok by assumption.
  st_simpl. now rewrite Hf.
Qed.

(** A line of the store is found under its own identifier. *)
Lemma find_member (c : CartItem.t) (store : list CartItem.t) :
  In c store -> exists c', List.find (Env.hasId (CartItem.id c)) store = Some c'.
Proof.
  intros Hin. destruct (List.find (Env.hasId (CartItem.id c)) store) eqn:E; [eauto|].
  exfalso. apply (find_none _ _ E) in Hin. unfold Env.hasId in Hin.
  now rewrite Nat.eqb_refl in Hin.
Qed.

Lemma find_fresh (n : nat) (c : CartItem.t) (store : list CartItem.t) :
  Forall (fun c => (CartItem.id c < n)%nat) store ->
  CartItem.id c = n ->
  List.find (Env.hasId n) (store ++ [c]) = Some c.
Proof.
  intros Hlt Hc. induction Hlt as [|c0 store Hc0 _ IH]; simpl.
  - unfold Env.hasId. now rewrite Hc, Nat.eqb_refl.
  - unfold Env.hasId at 1. destruct (Nat.eqb_spec (CartItem.id c0) n); [lia|]. exact IH.
Qed.

Lemma setQuantity_fresh (n : nat) (q : Z) (store : list CartItem.t) :
  Forall (fun c => (CartItem.id c < n)%nat) store ->
  List.map (Env.setQuantity n q) store = store.
Proof.
  induction 1 as [|c0 store Hc0 _ IH]; simpl; [reflexivity|].
  rewrite IH. unfold Env.setQuantity, Env.hasId.
  destruct (Nat.eqb_spec (CartItem.id c0) n); [lia|reflexivity].
Qed.

Lemma criteria_weaken (email productId : string) (c : CartItem.t) :
  Env.matchesCriteria email (Some productId) c = true ->
  Env.matchesCriteria email None c = true.
Proof. unfold Env.matchesCriteria. rewrite !andb_true_iff. tauto. Qed.

Lemma filter_nil {A} (p : A -> bool) (l : list A) :
  List.filter p l = [] <-> forall x, In x l -> p x = false.
Proof.
  induction l as [|x l IH]; simpl.
  - split; [intros _ ? [] | reflexivity].
  - destruct (p x) eqn:E.
    + split; [discriminate|]. intros H. rewrite (H x) in E by now left. discriminate.
    + rewrite IH. split.
      * intros H y [<-|Hy]; auto.
      * intros H y Hy. apply H. now right.
Qed.

Lemma no_line_of_product (email productId : string) (w : Env.World) :
  Env.linesOf email w = [] ->
  List.filter (Env.matchesCriteria email (Some productId)) (Env.cartStore w) = [].
Proof.
  unfold Env.linesOf. rewrite !filter_nil. intros H c Hc.
  destruct (Env.matchesCriteria email (Some productId) c) eqn:E; [|reflexivity].
  apply criteria_weaken in E. rewrite (H c Hc) in E. discriminate.
Qed.
End Remote.

(** ** Adding to the cart *)
Section AddToCart.
Variable product : Product.t.

Lemma add_guest (w : Env.World) :
  Async.exec (Shop.handleAddToCart None product) w
  = Env.set_trace (Env.trace w ++ [Env.Toast "Added to cart" false; Env.CartUpdated])
      (Env.set_anonymousCart (Some (Shop.addToGuestCart product (Env.readCart w))) w).
Proof.
  unfold Async.exec, Shop.handleAddToCart. run_all.
  rewrite <- app_assoc. reflexivity.
Qed.

Lemma add_guest_new (cart : list GuestItem.t) :
  (forall g, In g cart -> GuestItem.product_id g <> Product.id product) ->
  Shop.addToGuestCart product cart = cart ++ [Shop.snapshot product].
Proof.
  intros Hno. unfold Shop.addToGuestCart.
  replace (Js.findIndex (Shop.sameProduct (Product.id product)) cart) with (@None nat);
    [reflexivity|].
  induction cart as [|g cart IH]; simpl; [reflexivity|].
  unfold Shop.sameProduct at 1.
  destruct (String.eqb_spec (GuestItem.product_id g) (Product.id product)) as [E|_].
  - exfalso. apply (Hno g); [now left | exact E].
  - rewrite <- IH; [reflexivity|]. intros g' Hg'. apply Hno. now right.
Qed.

Lemma add_guest_existing (before after : list GuestItem.t) (g : GuestItem.t) :
  (forall g', In g' before -> GuestItem.product_id g' <> Product.id product) ->
  GuestItem.product_id g = Product.id product ->
  Shop.addToGuestCart product (before ++ g :: after)
  = before ++ Shop.increment g :: after.
Proof.
  intros Hno Hg. unfold Shop.addToGuestCart.
  replace (Js.findIndex (Shop.sameProduct (Product.id product)) (before ++ g :: after))
    with (Some (length before)).
  - induction before as [|b before IH]; simpl; [reflexivity|].
    f_equal. apply IH. intros g' Hg'. apply Hno. now right.
  - induction before as [|b before IH]; simpl.
    + unfold Shop.sameProduct. now rewrite Hg, String.eqb_refl.
    + unfold Shop.sameProduct at 1.
      destruct (String.eqb_spec (GuestItem.product_id b) (Product.id product)) as [E|_].
      * exfalso. apply (Hno b); [now left | exact E].
      * rewrite <- IH; [reflexivity|]. intros g' Hg'. apply Hno. now right.
Qed.

Lemma add_stored_new (u : User.t) (w : Env.World) :
  Spec.okPrefix 2 (Env.script w) = true ->
  List.filter (Env.matchesCriteria (User.email u) (Some (Product.id product)))
              (Env.cartStore w) = [] ->
  Async.exec (Shop.handleAddToCart (Some u) product) w
  = Env.set_trace (Env.trace w ++ [Env.Toast "Added to cart" false; Env.CartUpdated])
      (Env.set_cartStore
         (Env.cartStore w ++ [CartItem.mk (Env.nextId w) (Product.id product) 1 (User.email u)])
         (S (Env.nextId w)) (Env.popScript (Env.popScript w))).
Proof.
  intros Hok Hnone. apply okPrefix_S in Hok as [H1 Hok]. apply okPrefix_S in Hok as [H2 _].
  unfold Async.exec, Shop.handleAddToCart. run_all.
  rewrite filter_ok by assumption. rewrite Hnone. run_all.
  rewrite create_ok by assumption. run_all.
  rewrite <- app_assoc. reflexivity.
Qed.

Lemma add_stored_existing (u : User.t) (w : Env.World) (existing : CartItem.t)
    (rest : list CartItem.t) :
  Spec.okPrefix 2 (Env.script w) = true ->
  List.filter (Env.matchesCriteria (User.email u) (Some (Product.id product)))
              (Env.cartStore w) = existing :: rest ->
  Async.exec (Shop.handleAddToCart (Some u) product) w
  = Env.set_trace (Env.trace w ++ [Env.Toast "Added to cart" false; Env.CartUpdated])
      (Env.set_cartStore
         (List.map (Env.setQuantity (CartItem.id existing) (CartItem.quantity existing + 1))
                   (Env.cartStore w))
         (Env.nextId w) (Env.popScript (Env.popScript w))).
Proof.
  intros Hok Hsome. apply okPrefix_S in Hok as [H1 Hok]. apply okPrefix_S in Hok as [H2 _].
  assert (Hin : In existing (Env.cartStore w)).
  { eapply proj1. apply filter_In. rewrite Hsome. now left. }
  destruct (find_member _ _ Hin) as [c' Hc'].
  unfold Async.exec, Shop.handleAddToCart. run_all.
  rewrite filter_ok by assumption. rewrite Hsome. run_all.
  rewrite (update_ok _ _ c') by assumption. run_all.
  rewrite <- app_assoc. reflexivity.
Qed.
End AddToCart.

Section AddTwice.
Variable product : Product.t.

Lemma add_guest_twice (w : Env.World) :
  Env.readCart w = [] ->
  Env.readCart (Async.exec (Shop.handleAddToCart None product)
                  (Async.exec (Shop.handleAddToCart None product) w))
  = [GuestItem.mk (Product.id product) 2 (Product.name product) (Product.price product)
                  (Product.image_url product) (Product.brand product)].
Proof.
  intros Hempty. rewrite !add_guest. st_simpl. rewrite Hempty.
  unfold Shop.addToGuestCart; simpl. unfold Shop.sameProduct; simpl.
  now rewrite String.eqb_refl.
Qed.

Lemma add_stored_twice (u : User.t) (w : Env.World) :
  Env.store_wf w ->
  Env.linesOf (User.email u) w = [] ->
  Spec.okPrefix 4 (Env.script w) = true ->
  Env.linesOf (User.email u)
    (Async.exec (Shop.handleAddToCart (Some u) product)
       (Async.exec (Shop.handleAddToCart (Some u) product) w))
  = [CartItem.mk (Env.nextId w) (Product.id product) 2 (User.email u)].
Proof.
  intros [_ Hlt] Hnone Hok.
  assert (Hok2 : Spec.okPrefix 2 (Env.script w) = true).
  { simpl in *. rewrite !andb_true_iff in *. tauto. }
  assert (Hok2' : Spec.okPrefix 2 (Env.script (Env.popScript (Env.popScript w))) = true).
  { simpl in *. rewrite !andb_true_iff in *. tauto. }
  rewrite (add_stored_new product u w Hok2 (no_line_of_product _ _ _ Hnone)).
  set (c := CartItem.mk (Env.nextId w) (Product.id product) 1 (User.email u)).
  erewrite (add_stored_existing product u _ c []); [|exact Hok2'|].
  - unfold Env.linesOf. st_simpl. rewrite List.map_app, List.filter_app.
    rewrite (setQuantity_fresh _ _ _ Hlt).
    unfold Env.linesOf in Hnone. rewrite Hnone. simpl.
    unfold Env.setQuantity, Env.hasId, Env.matchesCriteria; simpl.
    now rewrite Nat.eqb_refl, String.eqb_refl.
  - st_simpl. rewrite List.filter_app, (no_line_of_product _ _ _ Hnone). simpl.
    unfold Env.matchesCriteria; simpl. now rewrite !String.eqb_refl.
Qed.

(** Settling changes nothing once every call has run to its end. *)
Lemma settle_finished (i : nat) (y : ShopTasks.Sys) :
  ShopTasks.allFinished y = true -> ShopTasks.settle i y = y.
Proof.
  intros Hall. unfold ShopTasks.settle. destruct (ShopTasks.tasks y !! i) as [p|] eqn:E; [|reflexivity].
  assert (Hp : ShopTasks.finished p = true).
  { unfold ShopTasks.allFinished in Hall. rewrite forallb_forall in Hall.
    apply Hall. apply list_elem_of_In. eapply list_elem_of_lookup_2. exact E. }
  destruct y as [w ts]. simpl in *.
  destruct p as [[]| |X f k|X c k]; simpl in *; try discriminate;
    now rewrite list_insert_id.
Qed.

Lemma settles_finished (settles : list nat) (y : ShopTasks.Sys) :
  ShopTasks.allFinished y = true ->
  ShopTasks.schedule (List.map ShopTasks.Settle settles) y = y.
Proof.
  intros Hall. unfold ShopTasks.schedule.
  induction settles as [|i settles IH]; simpl; [reflexivity|].
  now rewrite settle_finished.
Qed.

Lemma two_clicks_guest (settles : list nat) (w : Env.World) :
  ShopTasks.twoClicks None product settles w
  = ShopTasks.mkSys
      (Async.exec (Shop.handleAddToCart None product)
         (Async.exec (Shop.handleAddToCart None product) w))
      [Async.Ret tt; Async.Ret tt].
Proof.
  unfold ShopTasks.twoClicks.
  change (ShopTasks.schedule (?a :: ?b :: ?l) ?y)
    with (ShopTasks.schedule l (ShopTasks.perform b (ShopTasks.perform a y))).
  rewrite settles_finished; reflexivity.
Qed.

Ltac call_ok :=
  unfold Env.nextOutcome in *; cbn in *; assumption.

Lemma filter_own (u : User.t) (store : list CartItem.t) (n : nat) (q : Z) :
  List.filter (Env.matchesCriteria (User.email u) (Some (Product.id product))) store = [] ->
  List.filter (Env.matchesCriteria (User.email u) (Some (Product.id product)))
              (store ++ [CartItem.mk n (Product.id product) q (User.email u)])
  = [CartItem.mk n (Product.id product) q (User.email u)].
Proof.
  intros Hnone. rewrite List.filter_app, Hnone. simpl.
  unfold Env.matchesCriteria; simpl. now rewrite !String.eqb_refl.
Qed.

Lemma two_clicks_overlap (u : User.t) (w : Env.World) (settles : list nat) :
  Env.linesOf (User.email u) w = [] ->
  Spec.okPrefix 4 (Env.script w) = true ->
  In settles [[0; 1; 0; 1]; [0; 1; 1; 0]; [1; 0; 0; 1]; [1; 0; 1; 0]]%nat ->
  ShopTasks.allFinished (ShopTasks.twoClicks (Some u) product settles w) = true
  /\ Env.cartStore (ShopTasks.world (ShopTasks.twoClicks (Some u) product settles w))
     = Env.cartStore w
       ++ [CartItem.mk (Env.nextId w) (Product.id product) 1 (User.email u);
           CartItem.mk (S (Env.nextId w)) (Product.id product) 1 (User.email u)].
Proof.
  intros Hnone Hok Hin.
  apply okPrefix_S in Hok as [H1 Hok]. apply okPrefix_S in Hok as [H2 Hok].
  apply okPrefix_S in Hok as [H3 Hok]. apply okPrefix_S in Hok as [H4 _].
  pose proof (no_line_of_product _ (Product.id product) _ Hnone) as Hno.
  simpl in Hin.
  destruct Hin as [<-|[<-|[<-|[<-|[]]]]];
    unfold ShopTasks.twoClicks, ShopTasks.schedule, ShopTasks.allFinished;
    cbn; rewrite filter_ok by call_ok; rewrite Hno;
    cbn; rewrite filter_ok by call_ok; st_simpl; rewrite Hno;
    cbn; rewrite create_ok by call_ok;
    cbn; rewrite create_ok by call_ok;
    cbn; rewrite <- app_assoc; split; reflexivity.
Qed.

Lemma two_clicks_serial (u : User.t) (w : Env.World) (settles : list nat) :
  Env.store_wf w ->
  Env.linesOf (User.email u) w = [] ->
  Spec.okPrefix 4 (Env.script w) = true ->
  In settles [[0; 0; 1; 1]; [1; 1; 0; 0]]%nat ->
  ShopTasks.allFinished (ShopTasks.twoClicks (Some u) product settles w) = true
  /\ Env.cartStore (ShopTasks.world (ShopTasks.twoClicks (Some u) product settles w))
     = Env.cartStore w
       ++ [CartItem.mk (Env.nextId w) (Product.id product) 2 (User.email u)].
Proof.
  intros [_ Hlt] Hnone Hok Hin.
  apply okPrefix_S in Hok as [H1 Hok]. apply okPrefix_S in Hok as [H2 Hok].
  apply okPrefix_S in Hok as [H3 Hok]. apply okPrefix_S in Hok as [H4 _].
  pose proof (no_line_of_product _ (Product.id product) _ Hnone) as Hno.
  set (c := CartItem.mk (Env.nextId w) (Product.id product) 1 (User.email u)).
  assert (Hfind : List.find (Env.hasId (Env.nextId w)) (Env.cartStore w ++ [c]) = Some c)
    by now apply find_fresh.
  simpl in Hin.
  destruct Hin as [<-|[<-|[]]];
    unfold ShopTasks.twoClicks, ShopTasks.schedule, ShopTasks.allFinished;
    cbn; rewrite filter_ok by call_ok; rewrite Hno;
    cbn; rewrite create_ok by call_ok;
    cbn; rewrite filter_ok by call_ok; st_simpl; rewrite (filter_own u _ _ _ Hno);
    cbn; rewrite (update_ok _ _ c) by (first [call_ok | exact Hfind]);
    cbn; rewrite List.map_app, (setQuantity_fresh _ _ _ Hlt); cbn;
    unfold Env.setQuantity, Env.hasId; cbn; rewrite Nat.eqb_refl;
    split; reflexivity.
Qed.
End AddTwice.

(** C5: what two calls of [handleAddToCart] for one product leave of an
    empty cart.  A guest's call never suspends, so two calls in a row leave
    one entry of quantity 2, whatever settles afterwards.  For a signed-in
    user whose remote calls succeed, a second call made when the first has
    returned leaves one line of quantity 2; of two calls made one right
    after the other, the result depends on the order in which the remote
    calls settle: one line of quantity 2 when both calls of one click settle
    before those of the other, and two lines of quantity 1 when both
    lookups settle before a line is created.  One call adds 1 to the
    quantity of the line of that product when there is one, and otherwise
    appends a line of quantity 1. *)
Theorem add_to_cart_twice (product : Product.t) :
  (forall w settles,
      Env.readCart w = [] ->
      ShopTasks.allFinished (ShopTasks.twoClicks None product settles w) = true
      /\ Env.readCart (ShopTasks.world (ShopTasks.twoClicks None product settles w))
         = [GuestItem.mk (Product.id product) 2 (Product.name product)
                         (Product.price product) (Product.image_url product)
                         (Product.brand product)])
  /\ (forall u w,
        Env.store_wf w ->
        Env.linesOf (User.email u) w = [] ->
        Spec.okPrefix 4 (Env.script w) = true ->
        Env.linesOf (User.email u)
          (Async.exec (Shop.handleAddToCart (Some u) product)
             (Async.exec (Shop.handleAddToCart (Some u) product) w))
        = [CartItem.mk (Env.nextId w) (Product.id product) 2 (User.email u)])
  /\ (forall u w settles,
        Env.store_wf w ->
        Env.linesOf (User.email u) w = [] ->
        Spec.okPrefix 4 (Env.script w) = true ->
        (In settles [[0; 0; 1; 1]; [1; 1; 0; 0]]%nat ->
         ShopTasks.allFinished (ShopTasks.twoClicks (Some u) product settles w) = true
         /\ Env.linesOf (User.email u)
              (ShopTasks.world (ShopTasks.twoClicks (Some u) product settles w))
            = [CartItem.mk (Env.nextId w) (Product.id product) 2 (User.email u)])
        /\ (In settles [[0; 1; 0; 1]; [0; 1; 1; 0]; [1; 0; 0; 1]; [1; 0; 1; 0]]%nat ->
            ShopTasks.allFinished (ShopTasks.twoClicks (Some u) product settles w) = true
            /\ Env.linesOf (User.email u)
                 (ShopTasks.world (ShopTasks.twoClicks (Some u) product settles w))
               = [CartItem.mk (Env.nextId w) (Product.id product) 1 (User.email u);
                  CartItem.mk (S (Env.nextId w)) (Product.id product) 1 (User.email u)]))
  /\ (forall w,
        Env.readCart (Async.exec (Shop.handleAddToCart None product) w)
        = Shop.addToGuestCart product (Env.readCart w))
  /\ (forall cart,
        (forall g, In g cart -> GuestItem.product_id g <> Product.id product) ->
        Shop.addToGuestCart product cart
        = cart ++ [GuestItem.mk (Product.id product) 1 (Product.name product)
                                (Product.price product) (Product.image_url product)
                                (Product.brand product)])
  /\ (forall before g after,
        (forall g', In g' before -> GuestItem.product_id g' <> Product.id product) ->
        GuestItem.product_id g = Product.id product ->
        Shop.addToGuestCart product (before ++ g :: after)
        = before
            ++ GuestItem.mk (GuestItem.product_id g) (GuestItem.quantity g + 1)
                            (GuestItem.name g) (GuestItem.price g)
                            (GuestItem.image_url g) (GuestItem.brand g)
            :: after)
  /\ (forall u w,
        Spec.okPrefix 2 (Env.script w) = true ->
        List.filter (Env.matchesCriteria (User.email u) (Some (Product.id product)))
                    (Env.cartStore w) = [] ->
        Env.cartStore (Async.exec (Shop.handleAddToCart (Some u) product) w)
        = Env.cartStore w
            ++ [CartItem.mk (Env.nextId w) (Product.id product) 1 (User.email u)])
  /\ (forall u w existing rest,
        Spec.okPrefix 2 (Env.script w) = true ->
        List.filter (Env.matchesCriteria (User.email u) (Some (Product.id product)))
                    (Env.cartStore w) = existing :: rest ->
        Env.cartStore (Async.exec (Shop.handleAddToCart (Some u) product) w)
        = List.map (fun c =>
                      if Nat.eqb (CartItem.id c) (CartItem.id existing)
                      then CartItem.mk (CartItem.id c) (CartItem.product_id c)
                                       (CartItem.quantity existing + 1)
                                       (CartItem.user_email c)
                      else c)
                   (Env.cartStore w)).
Proof.
  split.
  { intros w settles Hempty. rewrite two_clicks_guest. split; [reflexivity|].
    now apply add_guest_twice. }
  split; [apply add_stored_twice|].
  split.
  { intros u w settles Hwf Hnone Hok. split; intros Hin.
    - destruct (two_clicks_serial product u w settles Hwf Hnone Hok Hin) as [Hall Hstore].
      split; [exact Hall|]. unfold Env.linesOf in *. rewrite Hstore.
      rewrite List.filter_app, Hnone. simpl.
      unfold Env.matchesCriteria; simpl. now rewrite String.eqb_refl.
    - destruct (two_clicks_overlap product u w settles Hnone Hok Hin) as [Hall Hstore].
      split; [exact Hall|]. unfold Env.linesOf in *. rewrite Hstore.
      rewrite List.filter_app, Hnone. simpl.
      unfold Env.matchesCriteria; simpl. now rewrite String.eqb_refl. }
  split; [intros w; now rewrite add_guest|].
  split; [intros cart Hno; now apply add_guest_new|].
  split; [intros before g after; apply add_guest_existing|].
  split.
  - intros u w Hok Hnone. now rewrite add_stored_new.
  - intros u w existing rest Hok Hsome.
    now rewrite (add_stored_existing product u w existing rest Hok Hsome).
Qed.

Lemma add_to_cart_twice_witness :
  Env.readCart
    (ShopTasks.world
       (ShopTasks.twoClicks None Sample.scarf [] (Cart.world Sample.freshGuestState)))
  = [Sample.guestScarf 2]
  /\ Env.linesOf "ann@example.com"
       (ShopTasks.world
          (ShopTasks.twoClicks (Some Sample.ann) Sample.scarf [0; 0; 1; 1]%nat Sample.annWorld))
     = [CartItem.mk 1 "p2" 2 "ann@example.com"]
  /\ Env.linesOf "ann@example.com"
       (ShopTasks.world
          (ShopTasks.twoClicks (Some Sample.ann) Sample.scarf [0; 1; 0; 1]%nat Sample.annWorld))
     = [CartItem.mk 1 "p2" 1 "ann@example.com"; CartItem.mk 2 "p2" 1 "ann@example.com"].
Proof.
  assert (Hwf : Env.store_wf Sample.annWorld).
  { split; simpl.
    - constructor; [apply not_elem_of_nil | constructor].
    - constructor; [simpl; lia | constructor]. }
  pose proof (add_to_cart_twice Sample.scarf) as [Hguest [_ [Hsigned _]]].
  split; [|split].
  - exact (proj2 (Hguest (Cart.world Sample.freshGuestState) [] eq_refl)).
  - apply (Hsigned Sample.ann Sample.annWorld [0; 0; 1; 1]%nat Hwf eq_refl eq_refl).
    simpl. now left.
  - apply (Hsigned Sample.ann Sample.annWorld [0; 1; 0; 1]%nat Hwf eq_refl eq_refl).
    simpl. now left.
Defined.

(** C5 as the spec states it fails for a signed-in user: both calls look
    the product up before either has created its line, and each creates
    one. *)
Lemma add_twice_two_lines : ~ Spec.addTwiceOneLine.
Proof.
  intros H.
  assert (Hwf : Env.store_wf Sample.annWorld).
  { split; simpl.
    - constructor; [apply not_elem_of_nil | constructor].
    - constructor; [simpl; lia | constructor]. }
  specialize (H (Some Sample.ann) Sample.scarf Sample.annWorld [0; 1; 0; 1]%nat
                eq_refl Hwf eq_refl eq_refl).
  vm_compute in H. discriminate H.
Qed.

(** ** Maps built from entries *)
Section NewMap.
Context {V : Type}.

Lemma fold_insert_lookup (entries : list (string * V)) (m : gmap string V)
    (k : string) (v : V) :
  fold_left (fun m kv => <[fst kv := snd kv]> m) entries m !! k = Some v ->
  In (k, v) entries \/ m !! k = Some v.
Proof.
  revert m. induction entries as [|[k0 v0] entries IH]; intros m H; simpl in *.
  - now right.
  - apply IH in H as [H|H]; [left; now right|].
    destruct (decide (k0 = k)) as [->|Hne].
    + rewrite lookup_insert_eq in H. injection H as ->. left. now left.
    + rewrite lookup_insert_ne in H by assumption. now right.
Qed.

Lemma fold_insert_none (entries : list (string * V)) (m : gmap string V) (k : string) :
  fold_left (fun m kv => <[fst kv := snd kv]> m) entries m !! k = None ->
  (forall v, ~ In (k, v) entries) /\ m !! k = None.
Proof.
  revert m. induction entries as [|[k0 v0] entries IH]; intros m H; simpl in *.
  - split; [intros v []|assumption].
  - apply IH in H as [Hrest H].
    destruct (decide (k0 = k)) as [->|Hne].
    + rewrite lookup_insert_eq in H. discriminate.
    + rewrite lookup_insert_ne in H by assumption. split; [|assumption].
      intros v [E|Hin]; [congruence|]. now apply (Hrest v).
Qed.

Lemma newMap_Some (entries : list (string * V)) (k : string) (v : V) :
  Js.newMap entries !! k = Some v -> In (k, v) entries.
Proof.
  intros H. apply fold_insert_lookup in H as [H|H]; [assumption|].
  rewrite lookup_empty in H. discriminate.
Qed.

Lemma newMap_None (entries : list (string * V)) (k : string) :
  Js.newMap entries !! k = None -> forall v, ~ In (k, v) entries.
Proof. intros H. now apply fold_insert_none in H as [H _]. Qed.
End NewMap.

Section DbCartMap.
Variables (email : string) (w : Env.World).

Lemma dbCartMap_Some (productId : string) (r : CartItem.t) :
  Cart.dbCartMapOf (Env.linesOf email w) !! productId = Some r ->
  In r (Env.cartStore w)
  /\ CartItem.user_email r = email
  /\ CartItem.product_id r = productId.
Proof.
  intros H. apply newMap_Some, in_map_iff in H as (c & E & Hin).
  injection E as <- ->. apply filter_In in Hin as [Hin Hm].
  unfold Env.matchesCriteria in Hm. rewrite andb_true_r in Hm.
  apply String.eqb_eq in Hm. auto.
Qed.

Lemma dbCartMap_None (productId : string) (r : CartItem.t) :
  Cart.dbCartMapOf (Env.linesOf email w) !! productId = None ->
  In r (Env.cartStore w) ->
  CartItem.user_email r = email ->
  CartItem.product_id r <> productId.
Proof.
  intros H Hin He Hp. apply (newMap_None _ _ H r), in_map_iff.
  exists r. split; [now rewrite Hp|].
  apply filter_In. split; [assumption|].
  unfold Env.matchesCriteria. now rewrite He, String.eqb_refl.
Qed.
End DbCartMap.

(** ** Lines of the store under their identifiers *)
Section StoreLines.

Lemma find_setQuantity (i j : nat) (q : Z) (store : list CartItem.t) :
  List.find (Env.hasId i) (List.map (Env.setQuantity j q) store)
  = Env.setQuantity j q <$> List.find (Env.hasId i) store.
Proof.
  induction store as [|c store IH]; simpl; [reflexivity|].
  replace (Env.hasId i (Env.setQuantity j q c)) with (Env.hasId i c)
    by (unfold Env.setQuantity; now destruct (Env.hasId j c)).
  destruct (Env.hasId i c); [reflexivity | exact IH].
Qed.

Lemma find_app_l {A} (p : A -> bool) (l l' : list A) (x : A) :
  List.find p l = Some x -> List.find p (l ++ l') = Some x.
Proof.
  induction l as [|y l IH]; simpl; [discriminate|].
  destruct (p y); [trivial | exact IH].
Qed.

Lemma find_hasId (i : nat) (store : list CartItem.t) (c : CartItem.t) :
  List.find (Env.hasId i) store = Some c -> In c store /\ CartItem.id c = i.
Proof.
  intros H. apply find_some in H as [Hin Hid]. split; [assumption|].
  now apply Nat.eqb_eq in Hid.
Qed.

Lemma find_unique (store : list CartItem.t) (c : CartItem.t) :
  NoDup (List.map CartItem.id store) -> In c store ->
  List.find (Env.hasId (CartItem.id c)) store = Some c.
Proof.
  induction store as [|c0 store IH]; intros Hnd Hin; simpl in *; [contradiction|].
  apply NoDup_cons in Hnd as [Hnotin Hnd].
  unfold Env.hasId at 1. destruct (Nat.eqb_spec (CartItem.id c0) (CartItem.id c)) as [E|Hne].
  - destruct Hin as [->|Hin]; [reflexivity|].
    exfalso. apply Hnotin. rewrite E. apply list_elem_of_In, in_map. exact Hin.
  - destruct Hin as [->|Hin]; [congruence|]. now apply IH.
Qed.

Lemma store_id_inj (store : list CartItem.t) (c c' : CartItem.t) :
  NoDup (List.map CartItem.id store) -> In c store -> In c' store ->
  CartItem.id c = CartItem.id c' -> c = c'.
Proof.
  intros Hnd Hc Hc' E. pose proof (find_unique store c Hnd Hc) as H1.
  pose proof (find_unique store c' Hnd Hc') as H2. rewrite E in H1. congruence.
Qed.
End StoreLines.

(** ** The calls of a merge *)
Section MergeLines.
Variables (dbCartMap : gmap string CartItem.t) (userEmail : string).

Lemma remote_sameLocal {X} (op : Env.World -> option (X * Env.World)) (w : Env.World) :
  (forall w1 x w2, op w1 = Some (x, w2) -> Spec.sameLocal w1 w2) ->
  Spec.sameLocal w (snd (Env.remote op w)).
Proof.
  intros Hop. unfold Env.remote. destruct (Env.nextOutcome w).
  - destruct (op (Env.popScript w)) as [[x w2]|] eqn:E; simpl.
    + apply Hop in E. unfold Spec.sameLocal in *. st_simpl. exact E.
    + repeat split.
  - repeat split.
Qed.

Lemma mergeLine_sameLocal (localItem : GuestItem.t) (w : Env.World) :
  Spec.sameLocal w (snd (Cart.mergeLine dbCartMap userEmail localItem w)).
Proof.
  unfold Cart.mergeLine.
  destruct (dbCartMap !! GuestItem.product_id localItem) as [dbItem|].
  - apply remote_sameLocal. intros w1 x w2 H.
    destruct (find _ _); [|discriminate]. injection H as _ <-. repeat split.
  - apply remote_sameLocal. intros w1 x w2 H. injection H as _ <-. repeat split.
Qed.

Lemma settle_sameLocal (localCart : list GuestItem.t) (w : Env.World) :
  Spec.sameLocal w
    (snd (Async.settleAll (List.map (Cart.mergeLine dbCartMap userEmail) localCart) w)).
Proof.
  revert w. induction localCart as [|g gs IH]; intros w; simpl.
  - repeat split.
  - pose proof (mergeLine_sameLocal g w) as H1.
    destruct (Cart.mergeLine dbCartMap userEmail g w) as [r w1]. simpl in H1.
    pose proof (IH w1) as H2.
    destruct (Async.settleAll _ w1) as [rs w2]. simpl in *.
    unfold Spec.sameLocal in *. destruct H1 as (E1 & E2 & E3), H2 as (F1 & F2 & F3).
    repeat split; congruence.
Qed.
End MergeLines.

Section MergeLines2.
Variables (dbCartMap : gmap string CartItem.t) (userEmail : string).

Lemma mergeLine_outcome (g : GuestItem.t) (gs : list GuestItem.t) (w : Env.World) :
  Spec.targetsKnown dbCartMap (g :: gs) w ->
  Spec.isResolved (fst (Cart.mergeLine dbCartMap userEmail g w)) = Env.nextOutcome w
  /\ Env.script (snd (Cart.mergeLine dbCartMap userEmail g w)) = tl (Env.script w)
  /\ Spec.targetsKnown dbCartMap gs (snd (Cart.mergeLine dbCartMap userEmail g w)).
Proof.
  intros Hk. unfold Spec.targetsKnown in *. unfold Cart.mergeLine.
  destruct (dbCartMap !! GuestItem.product_id g) as [r|] eqn:E.
  - destruct (Hk g r (or_introl eq_refl) E) as [c Hc].
    destruct (Env.nextOutcome w) eqn:Hn.
    + rewrite (update_ok _ _ c) by assumption. st_simpl. repeat split.
      intros g' r' Hg' E'. destruct (Hk g' r' (or_intror Hg') E') as [c' Hc'].
      rewrite find_setQuantity, Hc'. simpl. eauto.
    + unfold Env.CartItem_update. rewrite remote_fail by assumption. st_simpl.
      repeat split. intros g' r' Hg' E'. apply (Hk g' r' (or_intror Hg') E').
  - destruct (Env.nextOutcome w) eqn:Hn.
    + rewrite create_ok by assumption. st_simpl. repeat split.
      intros g' r' Hg' E'. destruct (Hk g' r' (or_intror Hg') E') as [c' Hc'].
      exists c'. now apply find_app_l.
    + unfold Env.CartItem_create. rewrite remote_fail by assumption. st_simpl.
      repeat split. intros g' r' Hg' E'. apply (Hk g' r' (or_intror Hg') E').
Qed.

(** The combined promise resolves exactly when no call is scripted to fail. *)
Lemma settle_outcome (localCart : list GuestItem.t) (w : Env.World) :
  Spec.targetsKnown dbCartMap localCart w ->
  Spec.isResolved
    (fst (Async.settleAll (List.map (Cart.mergeLine dbCartMap userEmail) localCart) w))
  = Spec.okPrefix (length localCart) (Env.script w).
Proof.
  revert w. induction localCart as [|g gs IH]; intros w Hk; simpl; [reflexivity|].
  destruct (mergeLine_outcome g gs w Hk) as (Hr & Hs & Hk').
  destruct (Cart.mergeLine dbCartMap userEmail g w) as [r w1]. simpl in *.
  specialize (IH w1 Hk'). rewrite Hs in IH.
  destruct (Async.settleAll _ w1) as [rs w2]. simpl in *.
  rewrite <- IH. unfold Env.nextOutcome in Hr.
  replace (hd true (Env.script w)) with (Spec.isResolved r)
    by (rewrite Hr; now destruct (Env.script w)).
  destruct r, rs; reflexivity.
Qed.
End MergeLines2.
Ltac st_simpl_all :=
  cbn [fst snd Cart.world Cart.view
       Cart.cartItems Cart.products Cart.loading Cart.user Cart.updating Cart.isMerging
       Cart.onView Cart.onWorld Cart.read
       Env.getCart Env.setCart Env.removeCart Env.emit
       Env.set_anonymousCart Env.set_trace Env.set_script Env.set_cartStore
       Env.anonymousCart Env.session Env.cartStore Env.nextId Env.catalog Env.script
       Env.trace Env.readCart Env.popScript negb] in *.

Section MergeResult.
Variables (dbCartMap : gmap string CartItem.t) (userEmail : string).

Lemma settleAll_cons {S X} (c : S -> Res X * S) (cs : list (S -> Res X * S)) (s : S) :
  snd (Async.settleAll (c :: cs) s) = snd (Async.settleAll cs (snd (c s))).
Proof.
  simpl. destruct (c s) as [r s1]. simpl. now destruct (Async.settleAll cs s1).
Qed.

Lemma setQuantity_id (j : nat) (q : Z) (c : CartItem.t) :
  CartItem.id (Env.setQuantity j q c) = CartItem.id c.
Proof. unfold Env.setQuantity. now destruct (Env.hasId j c). Qed.

Lemma setQuantity_other (j : nat) (q : Z) (c : CartItem.t) :
  CartItem.id c <> j -> Env.setQuantity j q c = c.
Proof.
  intros H. unfold Env.setQuantity, Env.hasId.
  destruct (Nat.eqb_spec (CartItem.id c) j); [contradiction | reflexivity].
Qed.

Lemma setQuantity_same (q : Z) (c : CartItem.t) :
  Env.setQuantity (CartItem.id c) q c = CartItem.with_quantity q c.
Proof. unfold Env.setQuantity, Env.hasId. now rewrite Nat.eqb_refl. Qed.

Lemma lineMerged_mono (n n' : nat) store g :
  (n <= n')%nat ->
  Spec.lineMerged dbCartMap userEmail n' store g ->
  Spec.lineMerged dbCartMap userEmail n store g.
Proof.
  unfold Spec.lineMerged. intros Hle.
  destruct (dbCartMap !! GuestItem.product_id g); [trivial|].
  intros (i & Hi & Hf). exists i. split; [lia | assumption].
Qed.

Lemma merge_lines (localCart : list GuestItem.t) (w : Env.World) :
  (forall g r, In g localCart -> dbCartMap !! GuestItem.product_id g = Some r ->
     List.find (Env.hasId (CartItem.id r)) (Env.cartStore w) = Some r) ->
  Forall (fun c => (CartItem.id c < Env.nextId w)%nat) (Env.cartStore w) ->
  (forall g g' r r', In g localCart -> In g' localCart ->
     dbCartMap !! GuestItem.product_id g = Some r ->
     dbCartMap !! GuestItem.product_id g' = Some r' ->
     CartItem.id r = CartItem.id r' ->
     GuestItem.product_id g = GuestItem.product_id g') ->
  NoDup (List.map GuestItem.product_id localCart) ->
  Spec.okPrefix (length localCart) (Env.script w) = true ->
  let w' := snd (Async.settleAll
                   (List.map (Cart.mergeLine dbCartMap userEmail) localCart) w) in
  Forall (fun c => (CartItem.id c < Env.nextId w')%nat) (Env.cartStore w')
  /\ (Env.nextId w <= Env.nextId w')%nat
  /\ (forall i c,
        List.find (Env.hasId i) (Env.cartStore w) = Some c ->
        (forall g r, In g localCart -> dbCartMap !! GuestItem.product_id g = Some r ->
           CartItem.id r <> i) ->
        List.find (Env.hasId i) (Env.cartStore w') = Some c)
  /\ (forall g, In g localCart ->
        Spec.lineMerged dbCartMap userEmail (Env.nextId w) (Env.cartStore w') g).
Proof.
  revert w. induction localCart as [|g gs IH]; intros w Hfound Hlt Hinj Hnd Hok.
  - simpl. split; [assumption|]. split; [lia|]. split; [auto|]. intros g [].
  - apply okPrefix_S in Hok as [Hn Hok]. apply NoDup_cons in Hnd as [Hnotin Hnd].
    assert (Hne : forall g', In g' gs ->
              GuestItem.product_id g' <> GuestItem.product_id g).
    { intros g' Hg' E. apply Hnotin. rewrite <- E.
      apply list_elem_of_In, in_map. exact Hg'. }
    cbv zeta. rewrite List.map_cons, settleAll_cons.
    pose proof (eq_refl (Cart.mergeLine dbCartMap userEmail g w)) as Hm.
    unfold Cart.mergeLine at 2 in Hm.
    destruct (dbCartMap !! GuestItem.product_id g) as [r|] eqn:E.
    + pose proof (Hfound g r (or_introl eq_refl) E) as Hr.
      assert (Hother : forall g' r', In g' gs ->
                dbCartMap !! GuestItem.product_id g' = Some r' ->
                CartItem.id r' <> CartItem.id r).
      { intros g' r' Hg' E' Heq. apply (Hne g' Hg').
        apply (Hinj g' g r' r); auto; [now right | now left]. }
      rewrite (update_ok _ _ r) in Hm by assumption. rewrite Hm. clear Hm. st_simpl.
      match goal with |- context [Async.settleAll _ ?w0] => set (w1 := w0) end.
      destruct (IH w1) as (Hlt' & Hle & Hframe & Hres); subst w1; st_simpl.
      * intros g' r' Hg' E'. rewrite find_setQuantity.
        rewrite (Hfound g' r' (or_intror Hg') E'). simpl.
        f_equal. apply setQuantity_other. eapply Hother; eassumption.
      * apply Forall_forall. intros c Hc. apply list_elem_of_In, in_map_iff in Hc
          as (c0 & <- & Hc0). rewrite setQuantity_id.
        rewrite List.Forall_forall in Hlt. now apply Hlt.
      * intros g1 g2 r1 r2 H1 H2. apply Hinj; now right.
      * assumption.
      * assumption.
      * st_simpl_all. split; [exact Hlt'|]. split; [exact Hle|]. split.
        -- intros i c Hc Hno. apply Hframe.
           ++ rewrite find_setQuantity, Hc. simpl. f_equal.
              apply setQuantity_other. apply find_hasId in Hc as [_ ->].
              intros Heq. apply (Hno g r (or_introl eq_refl) E). now symmetry.
           ++ intros g' r' Hg'. apply Hno. now right.
        -- intros g' [<-|Hg'].
           ++ unfold Spec.lineMerged. rewrite E. apply Hframe.
              ** rewrite find_setQuantity, Hr. simpl. f_equal. apply setQuantity_same.
              ** exact Hother.
           ++ now apply Hres.
    + rewrite create_ok in Hm by assumption. rewrite Hm. clear Hm. st_simpl.
      match goal with |- context [Async.settleAll _ ?w0] => set (w1 := w0) end.
      assert (Hknown : forall g' r', In g' gs ->
                dbCartMap !! GuestItem.product_id g' = Some r' ->
                CartItem.id r' <> Env.nextId w).
      { intros g' r' Hg' E'. pose proof (Hfound g' r' (or_intror Hg') E') as Hf.
        apply find_hasId in Hf as [Hin _]. rewrite List.Forall_forall in Hlt.
        specialize (Hlt r' Hin). simpl in Hlt. lia. }
      destruct (IH w1) as (Hlt' & Hle & Hframe & Hres); subst w1; st_simpl.
      * intros g' r' Hg' E'. apply find_app_l. apply (Hfound g' r'); auto. now right.
      * apply List.Forall_app. split.
        -- eapply List.Forall_impl; [|exact Hlt]. simpl. intros c Hc. lia.
        -- constructor; [simpl; lia | constructor].
      * intros g1 g2 r1 r2 H1 H2. apply Hinj; now right.
      * assumption.
      * assumption.
      * st_simpl_all. split; [exact Hlt'|]. split; [lia|]. split.
        -- intros i c Hc Hno. apply Hframe.
           ++ now apply find_app_l.
           ++ intros g' r' Hg'. apply Hno. now right.
        -- intros g' [<-|Hg'].
           ++ unfold Spec.lineMerged. rewrite E. exists (Env.nextId w).
              split; [lia|]. apply Hframe; [|exact Hknown].
              now apply find_fresh.
           ++ apply (lineMerged_mono _ (S (Env.nextId w))); [lia|]. now apply Hres.
Qed.
End MergeResult.
Ltac run_step_in H :=
  rewrite ?run_bind, ?run_tryCatch, ?run_tryFinally, ?run_act, ?run_await, ?run_ret in H.

Ltac unfold_cart_in H :=
  unfold Cart.reloadAndNotify, Cart.loadCartItems, Cart.toast, Cart.consoleError,
    Cart.dispatchCartUpdated, Cart.setCartItems, Cart.setProducts, Cart.setLoading,
    Cart.setUser, Cart.setUpdating, Cart.setIsMerging in H.

(** ** Running mergeCarts *)
Section MergeRun.
Variables (localCart : list GuestItem.t) (userEmail : string).

Lemma settleAll_onWorld {X} (calls : list (Env.World -> Res X * Env.World))
    (s : Cart.State) :
  Async.settleAll (List.map Cart.onWorld calls) s
  = (fst (Async.settleAll calls (Cart.world s)),
     Cart.mkState (snd (Async.settleAll calls (Cart.world s))) (Cart.view s)).
Proof.
  revert s. induction calls as [|c cs IH]; intros [w v]; [reflexivity|].
  cbn [Async.settleAll List.map]. unfold Cart.onWorld at 1. st_simpl.
  destruct (c w) as [r w1]. rewrite IH. st_simpl.
  now destruct (Async.settleAll cs w1).
Qed.

Lemma filter_fail (email : string) (productId : option string) (w : Env.World) :
  Env.nextOutcome w = false ->
  Env.CartItem_filter email productId w = (Rejected, Env.popScript w).
Proof. intros H. unfold Env.CartItem_filter. now rewrite remote_fail. Qed.

Lemma mergeOutcome_sameLocal (w : Env.World) :
  Spec.sameLocal w (snd (Spec.mergeOutcome localCart userEmail w)).
Proof.
  unfold Spec.mergeOutcome. destruct (Env.nextOutcome w).
  - destruct (settle_sameLocal (Cart.dbCartMapOf (Env.linesOf userEmail w)) userEmail
                localCart (Env.popScript w)) as (E1 & E2 & E3).
    repeat split; assumption.
  - repeat split.
Qed.

Lemma onWorld_eq {X} (f : Env.World -> X * Env.World) (s : Cart.State) :
  Cart.onWorld f s
  = (fst (f (Cart.world s)), Cart.mkState (snd (f (Cart.world s))) (Cart.view s)).
Proof. unfold Cart.onWorld. now destruct (f (Cart.world s)). Qed.

Lemma mergeCarts_exec (s s' : Cart.State) (res : Res unit) :
  let w1 := Env.set_trace (Env.trace (Cart.world s) ++ [Env.SetIsMerging true])
                          (Cart.world s) in
  let out := Spec.mergeOutcome localCart userEmail w1 in
  Async.run (Cart.mergeCarts localCart userEmail) s = (res, s') ->
  res = Resolved tt
  /\ Env.cartStore (Cart.world s') = Env.cartStore (snd out)
  /\ Env.nextId (Cart.world s') = Env.nextId (snd out)
  /\ Cart.isMerging (Cart.view s') = false
  /\ Cart.user (Cart.view s') = Cart.user (Cart.view s)
  /\ Cart.cartItems (Cart.view s') = Cart.cartItems (Cart.view s)
  /\ (if Spec.isResolved (fst out)
      then Env.anonymousCart (Cart.world s') = None
           /\ Env.trace (Cart.world s')
              = Env.trace (Cart.world s)
                ++ [Env.SetIsMerging true; Env.Toast "Cart Updated" false;
                    Env.SetIsMerging false; Env.CartUpdated]
      else Env.anonymousCart (Cart.world s') = Env.anonymousCart (Cart.world s)
           /\ Env.trace (Cart.world s')
              = Env.trace (Cart.world s)
                ++ [Env.SetIsMerging true; Env.ConsoleError "Error merging carts:";
                    Env.Toast "Error merging carts" true;
                    Env.SetIsMerging false; Env.CartUpdated]).
Proof.
  intros w1 out Hrun.
  pose proof (mergeOutcome_sameLocal w1) as (Hcart & Htrace & _).
  fold out in Hcart, Htrace.
  unfold Cart.mergeCarts, Async.promiseAll in Hrun. unfold_cart_in Hrun.
  rewrite run_bind, run_bind, !run_act in Hrun. st_simpl_all. fold w1 in Hrun.
  rewrite run_tryFinally in Hrun.
  match type of Hrun with
  | context [Async.run (Async.tryCatch ?p ?h) ?s0] =>
      destruct (Async.run (Async.tryCatch p h) s0) as [r1 s1] eqn:Hbody
  end.
  repeat (run_step_in Hrun; st_simpl_all). injection Hrun as <- <-. st_simpl.
  rewrite run_tryCatch, run_bind, run_await, onWorld_eq in Hbody. st_simpl_all.
  subst out. unfold Spec.mergeOutcome in *.
  change (Env.linesOf userEmail w1) with (Env.linesOf userEmail (Cart.world s)) in *.
  destruct (Env.nextOutcome w1) eqn:Hn.
  - rewrite filter_ok in Hbody by assumption. st_simpl_all.
    change (Env.cartStore w1) with (Env.cartStore (Cart.world s)) in Hbody.
    fold (Env.linesOf userEmail (Cart.world s)) in Hbody.
    rewrite run_bind, run_await, settleAll_onWorld in Hbody. st_simpl_all.
    destruct (Async.settleAll _ (Env.popScript w1)) as [[xs|] w2]; st_simpl_all.
    + repeat (run_step_in Hbody; st_simpl_all). injection Hbody as <- <-. st_simpl.
      rewrite Htrace. subst w1. st_simpl. rewrite <- !app_assoc. simpl. auto 10.
    + repeat (run_step_in Hbody; st_simpl_all). injection Hbody as <- <-. st_simpl.
      rewrite Htrace, Hcart. subst w1. st_simpl. rewrite <- !app_assoc. simpl. auto 10.
  - rewrite filter_fail in Hbody by assumption. st_simpl_all.
    repeat (run_step_in Hbody; st_simpl_all). injection Hbody as <- <-.
    subst w1. st_simpl. rewrite <- !app_assoc. simpl. auto 10.
Qed.
End MergeRun.

Section MergeOutcome.
Variables (localCart : list GuestItem.t) (userEmail : string).

Lemma mergeOutcome_resolved (w : Env.World) :
  Spec.isResolved (fst (Spec.mergeOutcome localCart userEmail w))
  = Spec.okPrefix (S (length localCart)) (Env.script w).
Proof.
  unfold Spec.mergeOutcome. cbn [Spec.okPrefix].
  replace (hd true (Env.script w)) with (Env.nextOutcome w)
    by (unfold Env.nextOutcome; now destruct (Env.script w)).
  destruct (Env.nextOutcome w); [|reflexivity].
  rewrite settle_outcome; [reflexivity|].
  intros g r _ E. apply dbCartMap_Some in E as (Hin & _ & _).
  now apply find_member.
Qed.

(** The guest lines are merged when every call succeeds. *)
Lemma mergeOutcome_lines (w : Env.World) :
  Env.store_wf w ->
  NoDup (List.map GuestItem.product_id localCart) ->
  Spec.okPrefix (S (length localCart)) (Env.script w) = true ->
  forall g, In g localCart ->
    Spec.lineMerged (Cart.dbCartMapOf (Env.linesOf userEmail w)) userEmail (Env.nextId w)
      (Env.cartStore (snd (Spec.mergeOutcome localCart userEmail w))) g.
Proof.
  intros [Hids Hlt] Hnd Hok. apply okPrefix_S in Hok as [Hn Hok].
  unfold Spec.mergeOutcome. rewrite Hn.
  apply (merge_lines (Cart.dbCartMapOf (Env.linesOf userEmail w)) userEmail localCart
           (Env.popScript w)); st_simpl; try assumption.
  - intros g r _ E. apply dbCartMap_Some in E as (Hin & _ & _).
    now apply find_unique.
  - intros g g' r r' _ _ E E' Hid.
    apply dbCartMap_Some in E as (Hin & _ & Hp), E' as (Hin' & _ & Hp').
    rewrite <- Hp, <- Hp'. f_equal. now apply (store_id_inj (Env.cartStore w)).
Qed.
End MergeOutcome.

(** The spec's own example of a merge: two guest scarves merged into three
    remote ones give five; merged into an empty remote cart they give a new
    line of two; the guest cart is gone afterwards. *)
Example merge_into_existing :
  let s' := Async.exec (Cart.mergeCarts [Sample.guestScarf 2] "ann@example.com")
              (Sample.mergeState [Sample.annScarf 3] []) in
  Env.cartStore (Cart.world s') = [Sample.annScarf 5]
  /\ Env.anonymousCart (Cart.world s') = None.
Proof. vm_compute. split; reflexivity. Qed.

Example merge_into_empty :
  let s' := Async.exec (Cart.mergeCarts [Sample.guestScarf 2] "ann@example.com")
              (Sample.mergeState [] []) in
  Env.cartStore (Cart.world s') = [Sample.annScarf 2]
  /\ Env.anonymousCart (Cart.world s') = None.
Proof. vm_compute. split; reflexivity. Qed.

(** C1: the merge is additive.  When the store's identifiers are unique,
    the guest cart has one entry per product and the calls of the merge
    succeed, then for every guest line: the remote line of the same product
    and email, if there is one (and only one), is still there under its
    identifier, with its product and owner, and its quantity is its former
    quantity plus the guest quantity; if there is none, the store holds a
    new line, under an identifier it did not have, for that product and
    email, whose quantity is exactly the guest quantity. *)
Theorem merge_additive (localCart : list GuestItem.t) (userEmail : string)
    (s : Cart.State) :
  Env.store_wf (Cart.world s) ->
  NoDup (List.map GuestItem.product_id localCart) ->
  Spec.okPrefix (S (length localCart)) (Env.script (Cart.world s)) = true ->
  let store := Env.cartStore (Cart.world s) in
  let store' := Env.cartStore (Cart.world (Async.exec (Cart.mergeCarts localCart userEmail) s)) in
  forall g, In g localCart ->
    (forall r,
        In r store -> CartItem.user_email r = userEmail ->
        CartItem.product_id r = GuestItem.product_id g ->
        (forall r', In r' store -> CartItem.user_email r' = userEmail ->
                    CartItem.product_id r' = GuestItem.product_id g -> r' = r) ->
        exists c,
          List.find (Env.hasId (CartItem.id r)) store' = Some c
          /\ CartItem.quantity c = CartItem.quantity r + GuestItem.quantity g
          /\ CartItem.id c = CartItem.id r
          /\ CartItem.product_id c = GuestItem.product_id g
          /\ CartItem.user_email c = userEmail)
    /\ ((forall r, In r store -> CartItem.user_email r = userEmail ->
                   CartItem.product_id r <> GuestItem.product_id g) ->
        exists c,
          In c store'
          /\ (forall r, In r store -> CartItem.id r <> CartItem.id c)
          /\ CartItem.quantity c = GuestItem.quantity g
          /\ CartItem.product_id c = GuestItem.product_id g
          /\ CartItem.user_email c = userEmail).
Proof.
  intros Hwf Hnd Hok store store' g Hg.
  set (w1 := Env.set_trace (Env.trace (Cart.world s) ++ [Env.SetIsMerging true])
               (Cart.world s)).
  assert (Hm : Spec.lineMerged (Cart.dbCartMapOf (Env.linesOf userEmail (Cart.world s)))
                 userEmail (Env.nextId (Cart.world s)) store' g).
  { subst store'. unfold Async.exec.
    destruct (Async.run (Cart.mergeCarts localCart userEmail) s) as [res s'] eqn:Hrun.
    apply mergeCarts_exec in Hrun as (_ & Hstore & _). st_simpl. rewrite Hstore.
    apply (mergeOutcome_lines localCart userEmail w1); assumption. }
  unfold Spec.lineMerged in Hm.
  destruct (Cart.dbCartMapOf (Env.linesOf userEmail (Cart.world s))
              !! GuestItem.product_id g) as [r0|] eqn:E.
  - pose proof (dbCartMap_Some _ _ _ _ E) as (Hin0 & He0 & Hp0). split.
    + intros r Hin He Hp Huniq. rewrite <- (Huniq r0 Hin0 He0 Hp0).
      pose proof (find_hasId _ _ _ Hm) as [_ Hid].
      eexists. split; [exact Hm|].
      destruct r0 as [i0 p0 q0 e0]. simpl in *. auto.
    + intros Hnone. exfalso. apply (Hnone r0 Hin0 He0 Hp0).
  - split.
    + intros r Hin He Hp _. exfalso. now apply (dbCartMap_None _ _ _ r E).
    + intros _. destruct Hm as (i & Hi & Hfind).
      pose proof (find_hasId _ _ _ Hfind) as [Hin _].
      eexists. split; [exact Hin|]. simpl. split; [|auto].
      intros r Hr. destruct Hwf as [_ Hlt]. rewrite List.Forall_forall in Hlt.
      specialize (Hlt r Hr). fold store in Hr. lia.
Qed.

Lemma merge_additive_witness :
  CartItem.quantity
  <$> List.find (Env.hasId 0)
        (Env.cartStore (Cart.world
           (Async.exec (Cart.mergeCarts [Sample.guestScarf 2] "ann@example.com")
              (Sample.mergeState [Sample.annScarf 3] []))))
  = Some 5.
Proof.
  assert (Hwf : Env.store_wf (Cart.world (Sample.mergeState [Sample.annScarf 3] []))).
  { split; simpl.
    - constructor; [apply not_elem_of_nil | constructor].
    - constructor; [simpl; lia | constructor]. }
  assert (Hnd : NoDup (List.map GuestItem.product_id [Sample.guestScarf 2])).
  { simpl. constructor; [apply not_elem_of_nil | constructor]. }
  destruct (proj1 (merge_additive [Sample.guestScarf 2] "ann@example.com"
                     (Sample.mergeState [Sample.annScarf 3] []) Hwf Hnd eq_refl
                     (Sample.guestScarf 2) (or_introl eq_refl))
              (Sample.annScarf 3) (or_introl eq_refl) eq_refl eq_refl)
    as (c & Hfind & Hq & _).
  { simpl. intros r' [<-|[]] _ _. reflexivity. }
  change (CartItem.id (Sample.annScarf 3)) with 0%nat in Hfind.
  rewrite Hfind. simpl. now rewrite Hq.
Defined.

(** A merge always completes, between the two calls of [setIsMerging]. *)
Lemma mergeCarts_brackets (localCart : list GuestItem.t) (userEmail : string)
    (s : Cart.State) :
  fst (Async.run (Cart.mergeCarts localCart userEmail) s) = Resolved tt
  /\ Cart.isMerging (Cart.view (Async.exec (Cart.mergeCarts localCart userEmail) s)) = false
  /\ exists mid,
       Env.trace (Cart.world (Async.exec (Cart.mergeCarts localCart userEmail) s))
       = Env.trace (Cart.world s) ++ [Env.SetIsMerging true] ++ mid
           ++ [Env.SetIsMerging false; Env.CartUpdated].
Proof.
  unfold Async.exec.
  destruct (Async.run (Cart.mergeCarts localCart userEmail) s) as [res s'] eqn:Hrun.
  apply mergeCarts_exec in Hrun as (-> & _ & _ & Hm & _ & _ & Hout). st_simpl.
  split; [reflexivity|]. split; [assumption|].
  destruct (Spec.isResolved _); destruct Hout as [_ Htrace]; rewrite Htrace.
  - now exists [Env.Toast "Cart Updated" false].
  - now exists [Env.ConsoleError "Error merging carts:";
                Env.Toast "Error merging carts" true].
Qed.

(** C2, as the code has it: [mergeCarts] always completes, with
    [isMerging] back to false and one "cart changed" notification as its
    last effect.  The guest cart is removed from local storage exactly when
    the fetch of the remote lines and every per-line call succeeded; when
    one of them failed the guest cart stays as it was and the failure is
    reported once, by one console error and one destructive toast. *)
Theorem merge_completion (localCart : list GuestItem.t) (userEmail : string)
    (s : Cart.State) :
  let ok := Spec.okPrefix (S (length localCart)) (Env.script (Cart.world s)) in
  let s' := Async.exec (Cart.mergeCarts localCart userEmail) s in
  fst (Async.run (Cart.mergeCarts localCart userEmail) s) = Resolved tt
  /\ Cart.isMerging (Cart.view s') = false
  /\ Env.trace (Cart.world s')
     = Env.trace (Cart.world s)
       ++ [Env.SetIsMerging true]
       ++ (if ok then [Env.Toast "Cart Updated" false]
           else [Env.ConsoleError "Error merging carts:";
                 Env.Toast "Error merging carts" true])
       ++ [Env.SetIsMerging false; Env.CartUpdated]
  /\ Env.anonymousCart (Cart.world s')
     = if ok then None else Env.anonymousCart (Cart.world s).
Proof.
  intros ok s'. subst s'. unfold Async.exec.
  destruct (Async.run (Cart.mergeCarts localCart userEmail) s) as [res s'] eqn:Hrun.
  apply mergeCarts_exec in Hrun as (-> & _ & _ & Hm & _ & _ & Hout).
  rewrite mergeOutcome_resolved in Hout. st_simpl_all. fold ok in Hout.
  destruct ok; destruct Hout as [Hcart Htrace]; auto.
Qed.

(** C2 fails as stated: when the call for a guest line is rejected, the
    merge completes and the guest cart is still in local storage. *)
Lemma merge_failure_keeps_guest_cart :
  ~ (Env.anonymousCart
       (Cart.world
          (Async.exec (Cart.mergeCarts [Sample.guestScarf 2] "ann@example.com")
             (Sample.mergeState [Sample.annScarf 3] [true; false]))) = None
     /\ In Env.CartUpdated
          (Env.trace
             (Cart.world
                (Async.exec (Cart.mergeCarts [Sample.guestScarf 2] "ann@example.com")
                   (Sample.mergeState [Sample.annScarf 3] [true; false]))))).
Proof. vm_compute. intros [H _]. discriminate H. Qed.
(** ** loadUser and its tasks *)
Section LoadUser.

Lemma me_ok (w : Env.World) (u : User.t) :
  Env.nextOutcome w = true -> Env.session w = Some u ->
  Env.User_me w = (Resolved u, Env.popScript w).
Proof.
  intros Hn Hs. unfold Env.User_me. rewrite remote_ok by assumption.
  st_simpl. now rewrite Hs.
Qed.

Lemma me_rejected (w : Env.World) :
  Env.nextOutcome w = false \/ Env.session w = None ->
  Env.User_me w = (Rejected, Env.popScript w).
Proof.
  intros H. unfold Env.User_me, Env.remote.
  destruct (Env.nextOutcome w); [|reflexivity].
  destruct H as [H|H]; [discriminate|]. st_simpl. now rewrite H.
Qed.

Lemma schedule_reachable (acts : list Tasks.Action) (y : Tasks.Sys) :
  rtc Tasks.step y (Tasks.schedule acts y).
Proof.
  revert y. induction acts as [|a acts IH]; intros y; simpl.
  - apply rtc_refl.
  - eapply rtc_l; [apply Tasks.step_perform | apply IH].
Qed.
End LoadUser.

(** C3, as the code has it: [loadUser] goes on to [mergeCarts] exactly when
    [User.me()] resolves to a user with an email and the guest cart is not
    empty, with the guest cart it has just read; whatever [isMerging] was
    before, the merge then sets it to true at its start and to false at its
    end, followed by the notification.  Otherwise [loadUser] touches
    neither store nor guest cart and emits nothing. *)
Theorem loadUser_merge_guard (w : Env.World) (v : Cart.View) :
  let s := Cart.mkState w v in
  let s' := Async.exec Cart.loadUser s in
  if Spec.mergeDue w then
    exists u,
      Env.session w = Some u
      /\ Env.readCart w <> []
      /\ Js.truthy (User.email u) = true
      /\ s' = Async.exec (Cart.mergeCarts (Env.readCart w) (User.email u)) (Spec.afterMe u s)
      /\ Cart.isMerging (Cart.view s') = false
      /\ exists mid,
           Env.trace (Cart.world s')
           = Env.trace w ++ [Env.SetIsMerging true] ++ mid
               ++ [Env.SetIsMerging false; Env.CartUpdated]
  else
    Cart.world s' = Env.popScript w
    /\ Cart.isMerging (Cart.view s') = Cart.isMerging v.
Proof.
  intros s s'. subst s s'. unfold Spec.mergeDue, Async.exec, Cart.loadUser.
  rewrite run_tryCatch, run_bind, run_await, onWorld_eq. st_simpl.
  destruct (Env.nextOutcome w) eqn:Hn; cbn [andb].
  - destruct (Env.session w) as [u|] eqn:Hs.
    + rewrite (me_ok w u) by assumption. st_simpl. unfold Cart.setUser.
      rewrite run_bind, run_act. st_simpl. rewrite run_bind, run_act. st_simpl.
      change (Env.readCart (Env.popScript w)) with (Env.readCart w).
      destruct ((0 <? length (Env.readCart w))%nat && Js.truthy (User.email u)) eqn:Hg.
      * apply andb_true_iff in Hg as [Hlen Htr]. exists u.
        split; [reflexivity|]. split.
        { intros E. rewrite E in Hlen. discriminate. }
        split; [assumption|].
        unfold Spec.afterMe. st_simpl.
        match goal with |- context [Async.run (Cart.mergeCarts ?l ?e) ?s0] =>
          pose proof (mergeCarts_brackets l e s0) as (Hres & Hm & mid & Htrace);
          destruct (Async.run (Cart.mergeCarts l e) s0) as [res s1] eqn:Hrun
        end.
        unfold Async.exec in *. rewrite Hrun in *. simpl in Hres. subst res. st_simpl_all.
        split; [reflexivity|]. split; [assumption|]. exists mid. exact Htrace.
      * rewrite run_ret. st_simpl. auto.
    + rewrite me_rejected by now right. st_simpl. unfold Cart.setUser.
      rewrite run_act. st_simpl. auto.
  - rewrite me_rejected by now left. st_simpl. unfold Cart.setUser.
    rewrite run_act. st_simpl. auto.
Qed.

(** When the effect fires twice, both tasks merge: the three remote scarves
    end as seven, not five, and the merge is announced twice. *)
Example double_merge_adds_twice :
  Env.cartStore
    (Cart.world (Tasks.st (Tasks.schedule Sample.doubleMerge
       (Tasks.mkSys (Sample.mergeState [Sample.annScarf 3] []) []))))
  = [Sample.annScarf 7]
  /\ Env.trace
       (Cart.world (Tasks.st (Tasks.schedule Sample.doubleMerge
          (Tasks.mkSys (Sample.mergeState [Sample.annScarf 3] []) []))))
     = [Env.SetIsMerging true; Env.SetIsMerging true;
        Env.Toast "Cart Updated" false; Env.SetIsMerging false; Env.CartUpdated;
        Env.Toast "Cart Updated" false; Env.SetIsMerging false; Env.CartUpdated]
  /\ List.map Tasks.finished
       (Tasks.tasks (Tasks.schedule Sample.doubleMerge
          (Tasks.mkSys (Sample.mergeState [Sample.annScarf 3] []) [])))
     = [true; true].
Proof. vm_compute. repeat split; reflexivity. Qed.

(** C3 fails as stated: nothing checks [isMerging] before [mergeCarts] is
    called, and a second [loadUser] task starts a merge while the first one
    is still in progress. *)
Lemma merge_not_guarded : ~ Spec.mergeGuarded.
Proof.
  intros Hguard.
  specialize (Hguard (Sample.mergeState [Sample.annScarf 3] [])
                (Tasks.schedule Sample.doubleMount
                   (Tasks.mkSys (Sample.mergeState [Sample.annScarf 3] []) []))
                eq_refl (schedule_reachable _ _)).
  vm_compute in Hguard. discriminate Hguard.
Qed.

(** ** The guest cart keeps one entry per product, continued *)
Section GuestCartInvariant.

Lemma findIndex_None (pid : string) (cart : list GuestItem.t) :
  Js.findIndex (Shop.sameProduct pid) cart = None ->
  forall g, In g cart -> GuestItem.product_id g <> pid.
Proof.
  induction cart as [|g0 cart IH]; simpl; [intros _ g []|].
  unfold Shop.sameProduct at 1.
  destruct (String.eqb_spec (GuestItem.product_id g0) pid) as [|Hne]; [discriminate|].
  destruct (Js.findIndex (Shop.sameProduct pid) cart); [discriminate|].
  intros _ g [<-|Hg]; [assumption | now apply IH].
Qed.

Lemma alter_increment_ids (i : nat) (cart : list GuestItem.t) :
  List.map GuestItem.product_id (alter Shop.increment i cart)
  = List.map GuestItem.product_id cart.
Proof.
  revert i. induction cart as [|g cart IH]; intros [|i]; simpl; try reflexivity.
  f_equal. apply IH.
Qed.

Lemma addToGuestCart_NoDup (product : Product.t) (cart : list GuestItem.t) :
  NoDup (List.map GuestItem.product_id cart) ->
  NoDup (List.map GuestItem.product_id (Shop.addToGuestCart product cart)).
Proof.
  intros Hnd. unfold Shop.addToGuestCart.
  destruct (Js.findIndex (Shop.sameProduct (Product.id product)) cart) as [i|] eqn:E.
  - now rewrite alter_increment_ids.
  - rewrite List.map_app. apply NoDup_app. split; [assumption|]. split.
    + intros pid Hin Hin'. apply list_elem_of_In in Hin, Hin'.
      simpl in Hin'. destruct Hin' as [<-|[]].
      apply in_map_iff in Hin as (g & Hg & Hin).
      now apply (findIndex_None _ _ E g).
    + simpl. constructor; [apply not_elem_of_nil | constructor].
Qed.

Lemma setGuestQuantity_NoDup (pid : string) (q : Z) (cart : list GuestItem.t) :
  NoDup (List.map GuestItem.product_id cart) ->
  NoDup (List.map GuestItem.product_id (Cart.setGuestQuantity pid q cart)).
Proof. now rewrite setGuestQuantity_ids. Qed.

Lemma removeGuestItem_NoDup (pid : string) (cart : list GuestItem.t) :
  NoDup (List.map GuestItem.product_id cart) ->
  NoDup (List.map GuestItem.product_id (Cart.removeGuestItem pid cart)).
Proof.
  unfold Cart.removeGuestItem. induction cart as [|g cart IH]; simpl; [trivial|].
  intros Hnd. apply NoDup_cons in Hnd as [Hnotin Hnd].
  destruct (negb (String.eqb (GuestItem.product_id g) pid)); simpl; [|now apply IH].
  apply NoDup_cons. split; [|now apply IH].
  intros Hin. apply Hnotin. apply list_elem_of_In in Hin. apply list_elem_of_In.
  apply in_map_iff in Hin as (g' & Hg' & Hin). apply in_map_iff.
  exists g'. split; [assumption|]. now apply filter_In in Hin as [Hin _].
Qed.
End GuestCartInvariant.

(** * Further properties *)

(** ** What the catalog shows *)
Lemma truthy_false (s : string) : Js.truthy s = false <-> s = "".
Proof.
  unfold Js.truthy. rewrite negb_false_iff. apply String.eqb_eq.
Qed.

Lemma inList_In (xs : list string) (x : string) : Shop.inList xs x = true <-> In x xs.
Proof.
  unfold Shop.inList. rewrite existsb_exists. split.
  - intros (y & Hy & E). apply String.eqb_eq in E. now subst.
  - intros H. exists x. split; [assumption | apply String.eqb_refl].
Qed.

Lemma nonempty_false {A} (l : list A) : (0 <? length l)%nat = false <-> l = [].
Proof.
  destruct l; split; intros H; try reflexivity; discriminate.
Qed.

Section Visible.
Variable localeCompare : string -> string -> Z.

Lemma applyFilters_perm (products : list Product.t) (term : string) (f : Shop.Filters)
    (sortBy : string) :
  Permutation (Shop.applyFilters localeCompare products term f sortBy)
              (List.filter (Spec.keeps term f) products).
Proof. rewrite applyFilters_pipeline, pipeline_stages. apply sort_perm. Qed.

Lemma applyFilters_In (products : list Product.t) (term : string) (f : Shop.Filters)
    (sortBy : string) (p : Product.t) :
  In p (Shop.applyFilters localeCompare products term f sortBy)
  <-> In p products /\ Spec.keeps term f p = true.
Proof.
  rewrite <- filter_In. split; apply Permutation_in;
    [|symmetry]; apply applyFilters_perm.
Qed.

End Visible.

Lemma keeps_plain (term : string) (f : Shop.Filters) (p : Product.t) :
  Spec.keeps term f p = true
  <-> (term = "" \/ Shop.matchesSearch term p = true)
      /\ (Shop.categories f = [] \/ In (Product.category p) (Shop.categories f))
      /\ (Shop.brands f = [] \/
          exists b, Product.brand p = Some b /\ In b (Shop.brands f))
      /\ (forall lo hi, Shop.priceRange f = Some (lo, hi) ->
            (lo <= Product.price p)%Q /\ (Product.price p <= hi)%Q)
      /\ (Shop.inStock f = true -> 0 < Product.stock p).
Proof.
  unfold Spec.keeps. rewrite !andb_true_iff, !orb_true_iff, !negb_true_iff.
  rewrite truthy_false, !nonempty_false.
  unfold Shop.matchesCategory, Shop.matchesBrand, Shop.hasStock.
  rewrite inList_In, Z.ltb_lt.
  assert (Hbrand : match Product.brand p with
                   | Some b => Shop.inList (Shop.brands f) b
                   | None => false
                   end = true
                   <-> exists b, Product.brand p = Some b /\ In b (Shop.brands f)).
  { destruct (Product.brand p) as [b|].
    - rewrite inList_In. split; [eauto|]. now intros (b' & [= <-] & Hb).
    - split; [discriminate|]. now intros (b' & [=] & _). }
  assert (Hrange : match Shop.priceRange f with
                   | Some r => Shop.inRange r p
                   | None => true
                   end = true
                   <-> forall lo hi, Shop.priceRange f = Some (lo, hi) ->
                         (lo <= Product.price p)%Q /\ (Product.price p <= hi)%Q).
  { destruct (Shop.priceRange f) as [[lo hi]|].
    - unfold Shop.inRange; simpl. rewrite andb_true_iff, !Qle_bool_iff. split.
      + intros H lo' hi' [= <- <-]. exact H.
      + intros H. now apply H.
    - split; [discriminate | reflexivity]. }
  assert (Hstock : Shop.inStock f = false \/ 0 < Product.stock p
                   <-> (Shop.inStock f = true -> 0 < Product.stock p)).
  { destruct (Shop.inStock f); split; auto; intros [H|H]; auto; discriminate. }
  rewrite Hbrand, Hrange, Hstock. tauto.
Qed.

(** X1: the list the shop shows holds exactly the products of the catalog
    that pass every filter, each as often as the catalog holds it: the
    search term is empty or matches; no category is selected or the
    product's category is; no brand is selected or the product has a brand
    and it is selected; the price lies within the range, ends included; and
    with "in stock only" the stock is positive.  So the list is never
    longer than the catalog and an empty catalog gives an empty list. *)
Theorem visible_products (localeCompare : string -> string -> Z)
    (products : list Product.t) (term : string) (f : Shop.Filters) (sortBy : string) :
  Permutation (Shop.applyFilters localeCompare products term f sortBy)
              (List.filter (Spec.keeps term f) products)
  /\ (forall p,
        In p (Shop.applyFilters localeCompare products term f sortBy)
        <-> In p products
            /\ (term = "" \/ Shop.matchesSearch term p = true)
            /\ (Shop.categories f = [] \/ In (Product.category p) (Shop.categories f))
            /\ (Shop.brands f = [] \/
                exists b, Product.brand p = Some b /\ In b (Shop.brands f))
            /\ (forall lo hi, Shop.priceRange f = Some (lo, hi) ->
                  (lo <= Product.price p)%Q /\ (Product.price p <= hi)%Q)
            /\ (Shop.inStock f = true -> 0 < Product.stock p))
  /\ (length (Shop.applyFilters localeCompare products term f sortBy)
      <= length products)%nat
  /\ (products = [] -> Shop.applyFilters localeCompare products term f sortBy = []).
Proof.
  pose proof (applyFilters_perm localeCompare products term f sortBy) as Hperm.
  split; [exact Hperm|]. split; [|split].
  - intros p. split.
    + intros Hin. apply (Permutation_in _ Hperm), filter_In in Hin as [Hin Hk].
      split; [assumption|]. now apply keeps_plain.
    + intros [Hin Hk]. apply (Permutation_in _ (Permutation_sym Hperm)).
      apply filter_In. split; [assumption|]. now apply keeps_plain.
  - rewrite (Permutation_length Hperm). apply List.filter_length_le.
  - intros ->. apply Permutation_nil. now symmetry.
Qed.

Lemma visible_products_witness :
  Shop.applyFilters Sample.codeUnitCompare [] "coat" Sample.accessoriesUnder2000 "rating" = [].
Proof.
  apply (visible_products Sample.codeUnitCompare [] "coat" Sample.accessoriesUnder2000
           "rating").
  reflexivity.
Defined.

(** ** The order of the list *)
Section Ordering.
Context {A : Type} (cmp : A -> A -> Q).


(** The comparator never puts [a] after [b] and [b] after [a]. *)
Hypothesis cmp_antisym :
  forall a b, Js.positive (cmp a b) = true -> Js.positive (cmp b a) = false.

Lemma insert_adjacent (a : A) (l : list A) :
  Sorted (fun x y => Js.positive (cmp x y) = false) l ->
  Sorted (fun x y => Js.positive (cmp x y) = false) (Js.insert cmp a l).
Proof.
  induction 1 as [|b l Hs IH Hhd]; simpl.
  - repeat constructor.
  - destruct (Js.positive (cmp a b)) eqn:Hpos.
    + constructor; [exact IH|].
      destruct Hhd as [|c l' Hbc]; simpl.
      * constructor. now apply cmp_antisym.
      * destruct (Js.positive (cmp a c)); constructor;
          [assumption | now apply cmp_antisym].
    + constructor; [now constructor|]. now constructor.
Qed.

Lemma sort_adjacent (l : list A) :
  Sorted (fun x y => Js.positive (cmp x y) = false) (Js.sort cmp l).
Proof.
  induction l as [|a l IH]; simpl; [constructor | now apply insert_adjacent].
Qed.

Lemma sort_fixed (l : list A) :
  Sorted (fun x y => Js.positive (cmp x y) = false) l -> Js.sort cmp l = l.
Proof.
  induction 1 as [|a l Hs IH Hhd]; simpl; [reflexivity|].
  rewrite IH. destruct Hhd as [|b l' Hab]; simpl; [reflexivity|]. now rewrite Hab.
Qed.

Lemma sort_idempotent (l : list A) : Js.sort cmp (Js.sort cmp l) = Js.sort cmp l.
Proof. apply sort_fixed, sort_adjacent. Qed.
End Ordering.

Section CompareFacts.
Variable localeCompare : string -> string -> Z.

Lemma positive_true (q : Q) : Js.positive q = true <-> (0 < q)%Q.
Proof.
  unfold Js.positive. rewrite negb_true_iff. split.
  - intros H. destruct (Qlt_le_dec 0 q) as [|Hle]; [assumption|].
    apply Qle_bool_iff in Hle. congruence.
  - intros H. destruct (Qle_bool q 0) eqn:E; [|reflexivity].
    apply Qle_bool_iff in E. lra.
Qed.

Lemma inject_Z_pos (z : Z) : (0 < inject_Z z)%Q <-> 0 < z.
Proof. rewrite (Zlt_Qlt 0 z). reflexivity. Qed.

Hypothesis localeCompare_antisym :
  forall a b, 0 < localeCompare a b -> localeCompare b a <= 0.

Lemma compare_antisym (sortBy : string) (a b : Product.t) :
  Js.positive (Shop.compareProducts localeCompare sortBy a b) = true ->
  Js.positive (Shop.compareProducts localeCompare sortBy b a) = false.
Proof.
  rewrite positive_true. intros H. apply positive_false. revert H.
  unfold Shop.compareProducts.
  repeat match goal with
         | |- context [if ?c then _ else _] => destruct c
         end; try (intros; lra).
  - rewrite inject_Z_pos. intros H. change 0%Q with (inject_Z 0).
    rewrite <- Zle_Qle. lia.
  - rewrite inject_Z_pos. intros H. change 0%Q with (inject_Z 0).
    rewrite <- Zle_Qle. now apply localeCompare_antisym.
Qed.
End CompareFacts.


(** X3: filtering and sorting the shown list again, with the same search
    term, filters and sort key, gives the shown list back.  For the name
    key this needs [localeCompare] never to order two names both ways. *)
Theorem applyFilters_idempotent (localeCompare : string -> string -> Z)
    (localeCompare_antisym :
       forall a b, 0 < localeCompare a b -> localeCompare b a <= 0)
    (products : list Product.t) (term : string) (f : Shop.Filters) (sortBy : string) :
  Shop.applyFilters localeCompare
    (Shop.applyFilters localeCompare products term f sortBy) term f sortBy
  = Shop.applyFilters localeCompare products term f sortBy.
Proof.
  rewrite (applyFilters_pipeline term f localeCompare
             (Shop.applyFilters localeCompare products term f sortBy)).
  rewrite pipeline_stages.
  assert (Hall : List.filter (Spec.keeps term f)
                   (Shop.applyFilters localeCompare products term f sortBy)
                 = Shop.applyFilters localeCompare products term f sortBy).
  { apply forallb_filter_id. apply forallb_forall. intros p Hp.
    apply (Permutation_in _ (applyFilters_perm localeCompare products term f sortBy))
      in Hp.
    now apply filter_In in Hp. }
  rewrite Hall, applyFilters_pipeline. unfold Shop.sortProducts.
  apply sort_idempotent. intros a b. now apply compare_antisym.
Qed.

Lemma codeUnitCompare_antisym (a b : string) :
  0 < Sample.codeUnitCompare a b -> Sample.codeUnitCompare b a <= 0.
Proof.
  unfold Sample.codeUnitCompare. rewrite (String.compare_antisym a b).
  destruct (String.compare b a); simpl; lia.
Qed.

Lemma applyFilters_idempotent_witness :
  Shop.applyFilters Sample.codeUnitCompare
    (Shop.applyFilters Sample.codeUnitCompare Sample.catalog "" Shop.initialFilters "name")
    "" Shop.initialFilters "name"
  = Shop.applyFilters Sample.codeUnitCompare Sample.catalog "" Shop.initialFilters "name".
Proof.
  apply (applyFilters_idempotent Sample.codeUnitCompare codeUnitCompare_antisym).
Defined.

(** X4: [clearFilters] empties the search term and restores the initial
    filters while keeping the sort key; doing it twice changes nothing
    more.  Afterwards the shop shows exactly the products priced from 0 to
    1000, whatever their category, brand and stock. *)
Theorem clearFilters_shows_default_range (localeCompare : string -> string -> Z)
    (products : list Product.t) (v : Shop.ViewState) :
  Shop.searchTerm (Shop.clearFilters v) = ""
  /\ Shop.filters (Shop.clearFilters v) = Shop.initialFilters
  /\ Shop.sortBy (Shop.clearFilters v) = Shop.sortBy v
  /\ Shop.clearFilters (Shop.clearFilters v) = Shop.clearFilters v
  /\ (forall p,
        In p (Shop.visible localeCompare products (Shop.clearFilters v))
        <-> In p products
            /\ (0 <= Product.price p)%Q /\ (Product.price p <= 1000)%Q).
Proof.
  repeat split; try reflexivity.
  - now apply applyFilters_In in H as [H _].
  - apply applyFilters_In in H as [_ Hk].
    apply keeps_plain in Hk as (_ & _ & _ & Hr & _).
    destruct (Hr 0%Q 1000%Q eq_refl) as [Hlo Hhi]. exact Hlo.
  - apply applyFilters_In in H as [_ Hk].
    apply keeps_plain in Hk as (_ & _ & _ & Hr & _).
    destruct (Hr 0%Q 1000%Q eq_refl) as [Hlo Hhi]. exact Hhi.
  - intros (Hin & Hlo & Hhi). apply applyFilters_In. split; [assumption|].
    apply keeps_plain. simpl.
    repeat split; auto; try discriminate; injection H as <- <-; assumption.
Qed.

(** X5: once the products are loaded, the shop shows its "No products
    found" panel exactly when no product of the catalog passes the
    filters, an empty catalog included; otherwise it shows the cards of the
    filtered and sorted list.  While loading it shows skeletons, whatever
    the filters. *)
Theorem no_products_panel (localeCompare : string -> string -> Z)
    (page : Shop.Page) (v : Shop.ViewState) :
  (Shop.loading page = true ->
     Shop.screen (Shop.loading page)
       (Shop.visible localeCompare (Shop.products page) v) = Shop.Skeletons)
  /\ (Shop.loading page = false ->
        (Shop.screen (Shop.loading page)
           (Shop.visible localeCompare (Shop.products page) v) = Shop.NoProductsFound
         <-> forall p, In p (Shop.products page) ->
               Spec.keeps (Shop.searchTerm v) (Shop.filters v) p = false))
  /\ (Shop.loading page = false ->
        Shop.screen (Shop.loading page)
          (Shop.visible localeCompare (Shop.products page) v) <> Shop.NoProductsFound ->
        Shop.screen (Shop.loading page)
          (Shop.visible localeCompare (Shop.products page) v)
        = Shop.ProductGrid (Shop.visible localeCompare (Shop.products page) v)).
Proof.
  unfold Shop.screen, Shop.visible.
  pose proof (applyFilters_perm localeCompare (Shop.products page) (Shop.searchTerm v)
                (Shop.filters v) (Shop.sortBy v)) as Hperm.
  split; [intros ->; reflexivity|]. split.
  - intros ->. rewrite <- filter_nil.
    destruct (Shop.applyFilters _ _ _ _ _) as [|p l] eqn:E; simpl.
    + split; [intros _|reflexivity]. apply Permutation_nil. assumption.
    + split; [discriminate|]. intros Hnil. rewrite Hnil in Hperm.
      apply Permutation_sym, Permutation_nil in Hperm. discriminate.
  - intros -> Hne. destruct (Shop.applyFilters _ _ _ _ _) as [|p l]; simpl in *;
      [contradiction | reflexivity].
Qed.

Lemma no_products_panel_witness :
  Shop.screen (Shop.loading (Shop.mkPage [] false None))
    (Shop.visible Sample.codeUnitCompare (Shop.products (Shop.mkPage [] false None))
       Shop.initialView)
  = Shop.NoProductsFound.
Proof.
  apply (no_products_panel Sample.codeUnitCompare (Shop.mkPage [] false None)
           Shop.initialView).
  - reflexivity.
  - intros p [].
Defined.

(** ** Adding to the cart, continued *)
Section AddOutcome.
Variable product : Product.t.

Lemma okPrefix_false_2 (w : Env.World) :
  Spec.okPrefix 2 (Env.script w) = false ->
  Env.nextOutcome w = false
  \/ (Env.nextOutcome w = true /\ Env.nextOutcome (Env.popScript w) = false).
Proof.
  unfold Env.nextOutcome, Env.popScript. simpl.
  destruct (Env.script w) as [|[] [|[] rest]]; simpl; intros H; try discriminate; auto.
Qed.

Lemma add_stored_failed (u : User.t) (w : Env.World) :
  Spec.okPrefix 2 (Env.script w) = false ->
  let w' := Async.exec (Shop.handleAddToCart (Some u) product) w in
  Env.cartStore w' = Env.cartStore w
  /\ Env.nextId w' = Env.nextId w
  /\ Env.anonymousCart w' = Env.anonymousCart w
  /\ Env.trace w' = Env.trace w ++ [Env.Toast "Error" true; Env.CartUpdated].
Proof.
  intros Hbad. apply okPrefix_false_2 in Hbad as [H1|[H1 H2]];
    unfold Async.exec, Shop.handleAddToCart; run_all.
  - rewrite filter_fail by assumption. run_all. rewrite <- app_assoc. auto.
  - rewrite filter_ok by assumption.
    destruct (List.filter _ (Env.cartStore w)) as [|existing rest]; run_all.
    + unfold Env.CartItem_create. rewrite remote_fail by assumption. run_all.
      rewrite <- app_assoc. auto.
    + unfold Env.CartItem_update. rewrite remote_fail by assumption. run_all.
      rewrite <- app_assoc. auto.
Qed.

Lemma add_stored_ok (u : User.t) (w : Env.World) :
  Spec.okPrefix 2 (Env.script w) = true ->
  let w' := Async.exec (Shop.handleAddToCart (Some u) product) w in
  Env.anonymousCart w' = Env.anonymousCart w
  /\ Env.trace w' = Env.trace w ++ [Env.Toast "Added to cart" false; Env.CartUpdated].
Proof.
  intros Hok.
  destruct (List.filter (Env.matchesCriteria (User.email u) (Some (Product.id product)))
              (Env.cartStore w)) as [|existing rest] eqn:E; cbv zeta.
  - rewrite (add_stored_new product u w Hok E). st_simpl. auto.
  - rewrite (add_stored_existing product u w existing rest Hok E). st_simpl. auto.
Qed.
End AddOutcome.

(** X6: for a signed-in user [handleAddToCart] always ends with one toast
    followed by the "cart changed" notification and never touches the
    guest cart.  When the lookup or the write that follows it is rejected,
    the toast is the destructive "Error" one and the remote store is left
    exactly as it was; when both succeed the toast is "Added to cart". *)
Theorem add_to_cart_outcome (product : Product.t) (u : User.t) (w : Env.World) :
  let w' := Async.exec (Shop.handleAddToCart (Some u) product) w in
  Env.anonymousCart w' = Env.anonymousCart w
  /\ (if Spec.okPrefix 2 (Env.script w)
      then Env.trace w'
           = Env.trace w ++ [Env.Toast "Added to cart" false; Env.CartUpdated]
      else Env.trace w' = Env.trace w ++ [Env.Toast "Error" true; Env.CartUpdated]
           /\ Env.cartStore w' = Env.cartStore w
           /\ Env.nextId w' = Env.nextId w).
Proof.
  cbv zeta. destruct (Spec.okPrefix 2 (Env.script w)) eqn:Hok.
  - now apply add_stored_ok.
  - destruct (add_stored_failed product u w Hok) as (Hs & Hn & Ha & Ht). auto.
Qed.

Section GuestTotals.

Lemma guestTotal_app (l l' : list GuestItem.t) :
  Spec.guestTotal (l ++ l') = Spec.guestTotal l + Spec.guestTotal l'.
Proof.
  unfold Spec.guestTotal. induction l as [|g l IH]; simpl; [reflexivity|].
  rewrite IH. lia.
Qed.

Lemma findIndex_Some (pid : string) (cart : list GuestItem.t) (i : nat) :
  Js.findIndex (Shop.sameProduct pid) cart = Some i ->
  exists before g after,
    cart = before ++ g :: after
    /\ length before = i
    /\ GuestItem.product_id g = pid
    /\ forall g', In g' before -> GuestItem.product_id g' <> pid.
Proof.
  revert i. induction cart as [|g0 cart IH]; simpl; intros i H; [discriminate|].
  unfold Shop.sameProduct at 1 in H.
  destruct (String.eqb_spec (GuestItem.product_id g0) pid) as [E|Hne].
  - injection H as <-. exists [], g0, cart. repeat split; auto.
  - destruct (Js.findIndex (Shop.sameProduct pid) cart) as [j|]; [|discriminate].
    injection H as <-. destruct (IH j eq_refl) as (before & g & after & -> & Hl & Hg & Hno).
    exists (g0 :: before), g, after. repeat split; simpl; auto.
    intros g' [<-|Hg']; auto.
Qed.

(** The two shapes of the read-modify-write of a guest. *)
Lemma addToGuestCart_cases (product : Product.t) (cart : list GuestItem.t) :
  (exists before g after,
      cart = before ++ g :: after
      /\ GuestItem.product_id g = Product.id product
      /\ (forall g', In g' before -> GuestItem.product_id g' <> Product.id product)
      /\ Shop.addToGuestCart product cart = before ++ Shop.increment g :: after)
  \/ ((forall g, In g cart -> GuestItem.product_id g <> Product.id product)
      /\ Shop.addToGuestCart product cart = cart ++ [Shop.snapshot product]).
Proof.
  destruct (Js.findIndex (Shop.sameProduct (Product.id product)) cart) as [i|] eqn:E.
  - left. apply findIndex_Some in E as (before & g & after & -> & _ & Hg & Hno).
    exists before, g, after. repeat split; auto. now apply add_guest_existing.
  - right. pose proof (findIndex_None _ _ E) as Hno. split; [assumption|].
    now apply add_guest_new.
Qed.
End GuestTotals.

(** X7: for a guest [handleAddToCart] makes no remote call and leaves the
    remote store alone; the guest cart gains exactly one item (the sum of
    its quantities grows by 1); the entries of other products are kept as
    they are; and a cart with one entry per product and quantities of at
    least 1 stays such a cart. *)
Theorem add_to_guest_cart_invariants (product : Product.t) (w : Env.World) :
  let w' := Async.exec (Shop.handleAddToCart None product) w in
  Env.cartStore w' = Env.cartStore w
  /\ Env.script w' = Env.script w
  /\ Env.trace w' = Env.trace w ++ [Env.Toast "Added to cart" false; Env.CartUpdated]
  /\ Spec.guestTotal (Env.readCart w') = Spec.guestTotal (Env.readCart w) + 1
  /\ (forall g, GuestItem.product_id g <> Product.id product ->
        (In g (Env.readCart w') <-> In g (Env.readCart w)))
  /\ (NoDup (List.map GuestItem.product_id (Env.readCart w)) ->
      NoDup (List.map GuestItem.product_id (Env.readCart w')))
  /\ (Spec.positiveQuantities (Env.readCart w) ->
      Spec.positiveQuantities (Env.readCart w')).
Proof.
  cbv zeta. rewrite add_guest. st_simpl.
  split; [reflexivity|]. split; [reflexivity|]. split; [reflexivity|].
  destruct (addToGuestCart_cases product (Env.readCart w))
    as [(before & g & after & Hc & Hg & Hno & ->)|[Hno ->]].
  - rewrite Hc. split; [|split; [|split]].
    + rewrite !guestTotal_app. unfold Spec.guestTotal. simpl. lia.
    + intros g' Hg'. rewrite !in_app_iff. simpl.
      assert (Shop.increment g = g' <-> g = g'); [|tauto].
      split; intros <-; exfalso; apply Hg'; assumption.
    + intros Hnd. rewrite <- Hc in Hnd.
      replace (before ++ Shop.increment g :: after)
        with (Shop.addToGuestCart product (Env.readCart w))
        by (rewrite Hc; now apply add_guest_existing).
      now apply addToGuestCart_NoDup.
    + unfold Spec.positiveQuantities. rewrite !List.Forall_app.
      intros [Hb Ha]. split; [assumption|]. inversion Ha; subst.
      constructor; [simpl; lia | assumption].
  - split; [|split; [|split]].
    + rewrite guestTotal_app. unfold Spec.guestTotal. simpl. lia.
    + intros g' Hg'. rewrite in_app_iff. simpl. split; [|tauto].
      intros [H|[<-|[]]]; [assumption|]. now contradiction Hg'.
    + intros Hnd.
      replace (Env.readCart w ++ [Shop.snapshot product])
        with (Shop.addToGuestCart product (Env.readCart w))
        by now apply add_guest_new.
      now apply addToGuestCart_NoDup.
    + unfold Spec.positiveQuantities. rewrite List.Forall_app.
      intros H. split; [assumption|]. constructor; [simpl; lia | constructor].
Qed.

Lemma add_to_guest_cart_invariants_witness :
  NoDup (List.map GuestItem.product_id
           (Env.readCart (Async.exec (Shop.handleAddToCart None Sample.scarf)
                            Sample.guestWorld))).
Proof.
  apply (add_to_guest_cart_invariants Sample.scarf Sample.guestWorld).
  simpl. constructor; [apply not_elem_of_nil | constructor].
Defined.

(** ** Quantities in the remote store *)
Section StoreTotals.

Lemma storeTotal_app (l l' : list CartItem.t) :
  Spec.storeTotal (l ++ l') = Spec.storeTotal l + Spec.storeTotal l'.
Proof.
  unfold Spec.storeTotal. induction l as [|c l IH]; simpl; [reflexivity|].
  rewrite IH. lia.
Qed.

Lemma matches_setQuantity (email : string) (pid : option string) (i : nat) (q : Z)
    (c : CartItem.t) :
  Env.matchesCriteria email pid (Env.setQuantity i q c) = Env.matchesCriteria email pid c.
Proof. unfold Env.setQuantity. now destruct (Env.hasId i c). Qed.

Lemma setQuantity_absent (i : nat) (q : Z) (store : list CartItem.t) :
  (forall x, In x store -> CartItem.id x <> i) ->
  List.map (Env.setQuantity i q) store = store.
Proof.
  induction store as [|c store IH]; intros H; simpl; [reflexivity|].
  rewrite setQuantity_other by (apply H; now left).
  f_equal. apply IH. intros x Hx. apply H. now right.
Qed.

(** Setting the quantity of the line [c] moves the total of the lines that
    match by the difference, when identifiers are unique. *)
Lemma total_setQuantity (email : string) (pid : option string) (q : Z) (c : CartItem.t)
    (store : list CartItem.t) :
  NoDup (List.map CartItem.id store) -> In c store ->
  Spec.storeTotal
    (List.filter (Env.matchesCriteria email pid)
       (List.map (Env.setQuantity (CartItem.id c) q) store))
  = Spec.storeTotal (List.filter (Env.matchesCriteria email pid) store)
    + (if Env.matchesCriteria email pid c then q - CartItem.quantity c else 0).
Proof.
  induction store as [|c0 store IH]; intros Hnd Hin; [contradiction|].
  apply NoDup_cons in Hnd as [Hnotin Hnd]. cbn [List.map List.filter].
  rewrite matches_setQuantity.
  assert (Hids : forall x, In x store -> CartItem.id x <> CartItem.id c0).
  { intros x Hx E. apply Hnotin. rewrite <- E. apply list_elem_of_In, in_map. exact Hx. }
  destruct Hin as [->|Hin].
  - rewrite setQuantity_absent by exact Hids. rewrite setQuantity_same.
    destruct (Env.matchesCriteria email pid c); [|lia].
    unfold Spec.storeTotal. simpl. lia.
  - rewrite setQuantity_other by (intros E; now apply (Hids c Hin)).
    specialize (IH Hnd Hin).
    destruct (Env.matchesCriteria email pid c0); [|exact IH].
    unfold Spec.storeTotal in *. simpl. rewrite IH. lia.
Qed.

(** ... and leaves the lines of another email as they are. *)
Lemma linesOf_setQuantity_other (email : string) (q : Z) (c : CartItem.t)
    (store : list CartItem.t) :
  NoDup (List.map CartItem.id store) -> In c store ->
  CartItem.user_email c <> email ->
  List.filter (Env.matchesCriteria email None)
    (List.map (Env.setQuantity (CartItem.id c) q) store)
  = List.filter (Env.matchesCriteria email None) store.
Proof.
  intros Hnd Hin Hne. induction store as [|c0 store IH]; [reflexivity|].
  cbn [List.map List.filter]. rewrite matches_setQuantity.
  assert (Htail : List.filter (Env.matchesCriteria email None)
                    (List.map (Env.setQuantity (CartItem.id c) q) store)
                  = List.filter (Env.matchesCriteria email None) store).
  { apply NoDup_cons in Hnd as [Hnotin Hnd']. destruct Hin as [->|Hin'].
    - rewrite setQuantity_absent; [reflexivity|]. intros x Hx E. apply Hnotin.
      rewrite <- E. apply list_elem_of_In, in_map. exact Hx.
    - now apply IH. }
  rewrite Htail. destruct (Env.matchesCriteria email None c0) eqn:Hm; [|reflexivity].
  f_equal. apply setQuantity_other. intros E.
  assert (c0 = c) as ->.
  { apply (store_id_inj (c0 :: store)); auto. now left. }
  unfold Env.matchesCriteria in Hm. rewrite andb_true_r in Hm.
  apply String.eqb_eq in Hm. contradiction.
Qed.

Lemma in_setQuantity_other (i : nat) (q : Z) (c : CartItem.t) (store : list CartItem.t) :
  In c store -> CartItem.id c <> i -> In c (List.map (Env.setQuantity i q) store).
Proof.
  intros Hin Hne. apply in_map_iff. exists c. split; [|assumption].
  now apply setQuantity_other.
Qed.
End StoreTotals.

Section AddFrame.
Variables (product : Product.t) (u : User.t) (w : Env.World).
Hypothesis Hwf : Env.store_wf w.

Lemma existing_matches (existing : CartItem.t) (rest : list CartItem.t) :
  List.filter (Env.matchesCriteria (User.email u) (Some (Product.id product)))
              (Env.cartStore w) = existing :: rest ->
  In existing (Env.cartStore w)
  /\ CartItem.user_email existing = User.email u
  /\ CartItem.product_id existing = Product.id product.
Proof.
  intros E. assert (Hin : In existing (existing :: rest)) by now left.
  rewrite <- E in Hin. apply filter_In in Hin as [Hin Hm].
  unfold Env.matchesCriteria in Hm. apply andb_true_iff in Hm as [He Hp].
  apply String.eqb_eq in He, Hp. auto.
Qed.

Lemma add_stored_keeps_others (c : CartItem.t) :
  In c (Env.cartStore w) ->
  CartItem.user_email c <> User.email u \/ CartItem.product_id c <> Product.id product ->
  In c (Env.cartStore (Async.exec (Shop.handleAddToCart (Some u) product) w)).
Proof.
  intros Hin Hother. destruct Hwf as [Hnd _].
  destruct (Spec.okPrefix 2 (Env.script w)) eqn:Hok.
  - destruct (List.filter (Env.matchesCriteria (User.email u) (Some (Product.id product)))
                (Env.cartStore w)) as [|existing rest] eqn:E.
    + rewrite (add_stored_new product u w Hok E). st_simpl. apply in_app_iff. now left.
    + rewrite (add_stored_existing product u w existing rest Hok E). st_simpl.
      destruct (existing_matches existing rest E) as (Hex & He & Hp).
      apply in_setQuantity_other; [assumption|]. intros Hid.
      assert (c = existing) as -> by now apply (store_id_inj (Env.cartStore w)).
      tauto.
  - destruct (add_stored_failed product u w Hok) as (-> & _). assumption.
Qed.

Lemma add_stored_other_users (email : string) :
  email <> User.email u ->
  Env.linesOf email (Async.exec (Shop.handleAddToCart (Some u) product) w)
  = Env.linesOf email w.
Proof.
  intros Hne. destruct Hwf as [Hnd _]. unfold Env.linesOf.
  destruct (Spec.okPrefix 2 (Env.script w)) eqn:Hok.
  - destruct (List.filter (Env.matchesCriteria (User.email u) (Some (Product.id product)))
                (Env.cartStore w)) as [|existing rest] eqn:E.
    + rewrite (add_stored_new product u w Hok E). st_simpl.
      rewrite List.filter_app. simpl. unfold Env.matchesCriteria at 2. simpl.
      destruct (String.eqb_spec (User.email u) email); [congruence|].
      simpl. apply app_nil_r.
    + rewrite (add_stored_existing product u w existing rest Hok E). st_simpl.
      destruct (existing_matches existing rest E) as (Hex & He & Hp).
      apply linesOf_setQuantity_other; auto. congruence.
  - now destruct (add_stored_failed product u w Hok) as (-> & _).
Qed.

Lemma add_stored_total :
  Spec.okPrefix 2 (Env.script w) = true ->
  Spec.storeTotal
    (Env.linesOf (User.email u) (Async.exec (Shop.handleAddToCart (Some u) product) w))
  = Spec.storeTotal (Env.linesOf (User.email u) w) + 1.
Proof.
  intros Hok. destruct Hwf as [Hnd _]. unfold Env.linesOf.
  destruct (List.filter (Env.matchesCriteria (User.email u) (Some (Product.id product)))
              (Env.cartStore w)) as [|existing rest] eqn:E.
  - rewrite (add_stored_new product u w Hok E). st_simpl.
    rewrite List.filter_app, storeTotal_app. simpl.
    unfold Env.matchesCriteria at 2. simpl. rewrite String.eqb_refl. reflexivity.
  - rewrite (add_stored_existing product u w existing rest Hok E). st_simpl.
    destruct (existing_matches existing rest E) as (Hex & He & Hp).
    rewrite total_setQuantity by assumption.
    unfold Env.matchesCriteria at 2. rewrite He, String.eqb_refl. simpl. lia.
Qed.
End AddFrame.

(** X8: for a signed-in user, when the identifiers of the store are
    unique, [handleAddToCart] never changes a line of another product or of
    another user, whatever the outcome of its calls: the cart of every
    other email is the same list afterwards.  When its two calls succeed,
    the user's own cart holds exactly one item more. *)
Theorem add_to_cart_frame (product : Product.t) (u : User.t) (w : Env.World) :
  Env.store_wf w ->
  let w' := Async.exec (Shop.handleAddToCart (Some u) product) w in
  (forall c, In c (Env.cartStore w) ->
     CartItem.user_email c <> User.email u \/ CartItem.product_id c <> Product.id product ->
     In c (Env.cartStore w'))
  /\ (forall email, email <> User.email u -> Env.linesOf email w' = Env.linesOf email w)
  /\ (Spec.okPrefix 2 (Env.script w) = true ->
      Spec.storeTotal (Env.linesOf (User.email u) w')
      = Spec.storeTotal (Env.linesOf (User.email u) w) + 1).
Proof.
  intros Hwf. cbv zeta. split; [|split].
  - now apply add_stored_keeps_others.
  - now apply add_stored_other_users.
  - now apply add_stored_total.
Qed.

Lemma add_to_cart_frame_witness :
  Env.linesOf "bob@example.com"
    (Async.exec (Shop.handleAddToCart (Some Sample.ann) Sample.scarf) Sample.annWorld)
  = Env.linesOf "bob@example.com" Sample.annWorld.
Proof.
  refine (proj1 (proj2 (add_to_cart_frame Sample.scarf Sample.ann Sample.annWorld _))
            "bob@example.com" _).
  - split; simpl.
    + constructor; [apply not_elem_of_nil | constructor].
    + constructor; [simpl; lia | constructor].
  - discriminate.
Defined.

(** ** Loading the shop *)

Ltac shop_simpl :=
  cbn [fst snd Shop.world Shop.page Shop.products Shop.loading Shop.user
       Shop.onWorld Shop.onPage Env.emit
       Env.set_anonymousCart Env.set_trace Env.set_script Env.set_cartStore
       Env.anonymousCart Env.session Env.cartStore Env.nextId Env.catalog Env.script
       Env.trace Env.popScript].

Lemma shop_onWorld_eq {X} (f : Env.World -> X * Env.World) (s : Shop.PageState) :
  Shop.onWorld f s
  = (fst (f (Shop.world s)), Shop.mkPageState (snd (f (Shop.world s))) (Shop.page s)).
Proof. unfold Shop.onWorld. now destruct (f (Shop.world s)). Qed.

(** X9: [loadProducts] never throws and always ends with [loading] false.
    When [Product.list()] resolves, the page holds the catalog and no toast
    is shown; when it is rejected, the page keeps the products it had and
    one destructive "Error" toast is shown.  The signed-in user is not
    touched either way. *)
Theorem loadProducts_outcome (s : Shop.PageState) :
  let s' := Async.exec Shop.loadProducts s in
  fst (Async.run Shop.loadProducts s) = Resolved tt
  /\ Shop.loading (Shop.page s') = false
  /\ Shop.user (Shop.page s') = Shop.user (Shop.page s)
  /\ (if Env.nextOutcome (Shop.world s)
      then Shop.products (Shop.page s') = Env.catalog (Shop.world s)
           /\ Env.trace (Shop.world s') = Env.trace (Shop.world s)
      else Shop.products (Shop.page s') = Shop.products (Shop.page s)
           /\ Env.trace (Shop.world s')
              = Env.trace (Shop.world s) ++ [Env.Toast "Error" true]).
Proof.
  cbv zeta. unfold Async.exec, Shop.loadProducts, Shop.setLoading, Shop.setProducts.
  rewrite run_bind, run_act. shop_simpl.
  rewrite run_tryFinally, run_tryCatch, run_bind, run_await, shop_onWorld_eq. shop_simpl.
  unfold Env.Product_list.
  destruct (Env.nextOutcome (Shop.world s)) eqn:Hn.
  - rewrite remote_ok by assumption. shop_simpl.
    repeat (rewrite ?run_act; shop_simpl). auto.
  - rewrite remote_fail by assumption. shop_simpl.
    repeat (rewrite ?run_act; shop_simpl). auto.
Qed.

(** X10: [loadUser] of the shop page never throws and shows nothing.  When
    [User.me()] resolves the page records the user; when it is rejected
    (nobody is signed in) the page keeps the user it had, and the products
    and the loading flag are not touched. *)
Theorem shop_loadUser_outcome (s : Shop.PageState) :
  let s' := Async.exec Shop.loadUser s in
  fst (Async.run Shop.loadUser s) = Resolved tt
  /\ Env.trace (Shop.world s') = Env.trace (Shop.world s)
  /\ Shop.products (Shop.page s') = Shop.products (Shop.page s)
  /\ Shop.loading (Shop.page s') = Shop.loading (Shop.page s)
  /\ Shop.user (Shop.page s')
     = (if Env.nextOutcome (Shop.world s)
        then match Env.session (Shop.world s) with
             | Some u => Some u
             | None => Shop.user (Shop.page s)
             end
        else Shop.user (Shop.page s)).
Proof.
  cbv zeta. unfold Async.exec, Shop.loadUser, Shop.setUser.
  rewrite run_tryCatch, run_bind, run_await, shop_onWorld_eq.
  destruct (Env.nextOutcome (Shop.world s)) eqn:Hn.
  - destruct (Env.session (Shop.world s)) as [u|] eqn:Hs.
    + rewrite (me_ok _ u) by assumption. shop_simpl. rewrite run_act. shop_simpl. auto.
    + rewrite me_rejected by now right. shop_simpl. rewrite run_ret. shop_simpl. auto.
  - rewrite me_rejected by now left. shop_simpl. rewrite run_ret. shop_simpl. auto.
Qed.

(** ** Loading the cart *)
Section LoadCart.
Variable s : Cart.State.

Lemma load_guest :
  Cart.hasEmail (Cart.user (Cart.view s)) = false ->
  Async.run Cart.loadCartItems s
  = (Resolved tt,
     Cart.mkState (Cart.world s)
       (Spec.viewAfterLoad s (List.map Cart.GuestLine (Env.readCart (Cart.world s)))
                      (Cart.guestProductMap (Env.readCart (Cart.world s))))).
Proof.
  intros Hu. unfold_cart. run_all. rewrite Hu. st_simpl. run_all.
  reflexivity.
Qed.

Lemma load_fetch_failed :
  Cart.hasEmail (Cart.user (Cart.view s)) = true ->
  Env.nextOutcome (Cart.world s) = false ->
  Async.run Cart.loadCartItems s
  = (Resolved tt,
     Cart.mkState
       (Env.set_trace (Env.trace (Cart.world s)
                       ++ [Env.ConsoleError "Failed to load cart items:";
                           Env.Toast "Error" true])
                      (Env.popScript (Cart.world s)))
       (Spec.viewAfterLoad s (Cart.cartItems (Cart.view s)) (Cart.products (Cart.view s)))).
Proof.
  intros Hu Hn. unfold_cart. run_all. rewrite Hu. st_simpl.
  run_all. rewrite onWorld_eq, filter_fail by assumption. st_simpl. run_all.
  rewrite <- app_assoc. reflexivity.
Qed.

Variable u : User.t.
Hypothesis Huser : Cart.user (Cart.view s) = Some u.
Hypothesis Hemail : Js.truthy (User.email u) = true.

Lemma hasEmail_user : Cart.hasEmail (Cart.user (Cart.view s)) = true.
Proof. now rewrite Huser. Qed.

Lemma load_stored :
  Env.nextOutcome (Cart.world s) = true ->
  let w := Cart.world s in
  let items := Env.linesOf (User.email u) w in
  let productIds := Js.unique (List.map CartItem.product_id items) in
  Async.run Cart.loadCartItems s
  = (Resolved tt,
     if (0 <? length productIds)%nat then
       if Env.nextOutcome (Env.popScript w) then
         Cart.mkState (Env.popScript (Env.popScript w))
           (Spec.viewAfterLoad s (List.map Cart.StoredLine items)
              (Cart.productMapOf
                 (List.filter (fun p => existsb (String.eqb (Product.id p)) productIds)
                              (Env.catalog w))))
       else
         Cart.mkState
           (Env.set_trace (Env.trace w
                           ++ [Env.ConsoleError "Failed to load cart items:";
                               Env.Toast "Error" true])
                          (Env.popScript (Env.popScript w)))
           (Spec.viewAfterLoad s (List.map Cart.StoredLine items)
                               (Cart.products (Cart.view s)))
     else
       Cart.mkState (Env.popScript w)
         (Spec.viewAfterLoad s (List.map Cart.StoredLine items) (Cart.productMapOf []))).
Proof.
  intros Hn w items productIds. unfold_cart. run_all.
  rewrite hasEmail_user, Huser. st_simpl. run_all.
  rewrite onWorld_eq, filter_ok by assumption. st_simpl. run_all.
  fold w. fold (Env.linesOf (User.email u) w). fold items. fold productIds.
  destruct (0 <? length productIds)%nat; run_all.
  - rewrite onWorld_eq. unfold Env.Product_filter. fold w.
    destruct (Env.nextOutcome (Env.popScript w)) eqn:Hn2.
    + rewrite remote_ok by assumption. st_simpl. run_all. reflexivity.
    + rewrite remote_fail by assumption. st_simpl. run_all.
      rewrite <- app_assoc. reflexivity.
  - reflexivity.
Qed.
End LoadCart.

Section LoadCartFacts.

Lemma hasEmail_true (o : option User.t) :
  Cart.hasEmail o = true -> exists u, o = Some u /\ Js.truthy (User.email u) = true.
Proof. destruct o as [u|]; simpl; [eauto | discriminate]. Qed.

Lemma unique_fold_In (l seen : list string) (x : string) :
  In x (fold_left (fun seen x => if existsb (String.eqb x) seen then seen else seen ++ [x])
                  l seen)
  <-> In x seen \/ In x l.
Proof.
  revert seen. induction l as [|y l IH]; intros seen; simpl; [tauto|].
  rewrite IH. destruct (existsb (String.eqb y) seen) eqn:E.
  - apply existsb_exists in E as (z & Hz & Ez). apply String.eqb_eq in Ez. subst z.
    split; [tauto|]. intros [H|[<-|H]]; auto.
  - rewrite in_app_iff. simpl. tauto.
Qed.

Lemma unique_In (l : list string) (x : string) : In x (Js.unique l) <-> In x l.
Proof. unfold Js.unique. rewrite unique_fold_In. simpl. tauto. Qed.

Lemma unique_nonempty (l : list string) : l <> [] -> (0 <? length (Js.unique l))%nat = true.
Proof.
  intros Hne. destruct l as [|x l]; [contradiction|].
  destruct (Js.unique (x :: l)) as [|y ys] eqn:E; [|reflexivity].
  assert (Hin : In x (Js.unique (x :: l))) by (apply unique_In; now left).
  rewrite E in Hin. contradiction.
Qed.

Lemma unique_empty (l : list string) :
  (0 <? length (Js.unique l))%nat = false -> l = [].
Proof.
  intros H. destruct l as [|x l]; [reflexivity|].
  rewrite unique_nonempty in H by discriminate. discriminate.
Qed.

Lemma keys_functional {V} (entries : list (string * V)) (k : string) (v v' : V) :
  NoDup (List.map fst entries) -> In (k, v) entries -> In (k, v') entries -> v = v'.
Proof.
  induction entries as [|[k0 v0] entries IH]; simpl; intros Hnd H H'; [contradiction|].
  apply NoDup_cons in Hnd as [Hnotin Hnd].
  assert (Hk : forall x, In (k0, x) entries -> False).
  { intros x Hx. apply Hnotin. apply list_elem_of_In.
    change k0 with (fst (k0, x)). now apply in_map. }
  destruct H as [E|H], H' as [E'|H'].
  - congruence.
  - exfalso. injection E as -> ->. now apply (Hk v').
  - exfalso. injection E' as -> ->. now apply (Hk v).
  - now apply IH.
Qed.

Lemma newMap_In {V} (entries : list (string * V)) (k : string) (v : V) :
  NoDup (List.map fst entries) -> In (k, v) entries -> Js.newMap entries !! k = Some v.
Proof.
  intros Hnd Hin. destruct (Js.newMap entries !! k) as [v'|] eqn:E.
  - apply newMap_Some in E. f_equal. now apply (keys_functional entries k).
  - exfalso. now apply (newMap_None _ _ E v).
Qed.

Lemma newMap_key {V} (entries : list (string * V)) (k : string) (v : V) :
  In (k, v) entries -> exists v', Js.newMap entries !! k = Some v' /\ In (k, v') entries.
Proof.
  intros Hin. destruct (Js.newMap entries !! k) as [v'|] eqn:E.
  - exists v'. split; [reflexivity|]. now apply newMap_Some.
  - exfalso. now apply (newMap_None _ _ E v).
Qed.

Lemma resolved_guest (m : gmap string Cart.ProductInfo) (cart : list GuestItem.t) :
  (forall g, In g cart -> m !! GuestItem.product_id g = Some (Cart.ofGuest g)) ->
  Spec.resolved m (List.map Cart.GuestLine cart)
  = List.map (fun g => (Cart.GuestLine g, Cart.ofGuest g)) cart.
Proof.
  unfold Spec.resolved. induction cart as [|g cart IH]; intros H; [reflexivity|].
  cbn [List.map omap list_omap].
  rewrite (proj2 (productOf_Some m (Cart.GuestLine g) (Cart.ofGuest g))
             (H g (or_introl eq_refl))).
  cbn [fmap option_fmap option_map]. f_equal. apply IH. intros g' Hg'. apply H. now right.
Qed.

Lemma guestProductMap_own (cart : list GuestItem.t) (g : GuestItem.t) :
  NoDup (List.map GuestItem.product_id cart) -> In g cart ->
  Cart.guestProductMap cart !! GuestItem.product_id g = Some (Cart.ofGuest g).
Proof.
  intros Hnd Hin. unfold Cart.guestProductMap. apply newMap_In.
  - rewrite List.map_map. simpl. exact Hnd.
  - apply in_map_iff. exists g. auto.
Qed.
End LoadCartFacts.

(** X11: [loadCartItems] only reads.  For every state and every outcome of
    its calls it completes without throwing, leaves the remote store, the
    catalog, the session and the guest cart as they were, ends with
    [loading] false and does not touch [user], [updating] or [isMerging]. *)
Theorem loadCartItems_read_only (s : Cart.State) :
  let s' := Async.exec Cart.loadCartItems s in
  fst (Async.run Cart.loadCartItems s) = Resolved tt
  /\ Env.cartStore (Cart.world s') = Env.cartStore (Cart.world s)
  /\ Env.nextId (Cart.world s') = Env.nextId (Cart.world s)
  /\ Env.catalog (Cart.world s') = Env.catalog (Cart.world s)
  /\ Env.session (Cart.world s') = Env.session (Cart.world s)
  /\ Env.anonymousCart (Cart.world s') = Env.anonymousCart (Cart.world s)
  /\ Cart.loading (Cart.view s') = false
  /\ Cart.user (Cart.view s') = Cart.user (Cart.view s)
  /\ Cart.updating (Cart.view s') = Cart.updating (Cart.view s)
  /\ Cart.isMerging (Cart.view s') = Cart.isMerging (Cart.view s).
Proof.
  cbv zeta. unfold Async.exec.
  destruct (Cart.hasEmail (Cart.user (Cart.view s))) eqn:Hh.
  - destruct (hasEmail_true _ Hh) as (u & Hu & Ht).
    destruct (Env.nextOutcome (Cart.world s)) eqn:Hn.
    + rewrite (load_stored s u Hu Ht Hn).
      cbv zeta.
      repeat match goal with
             | |- context [if ?c then _ else _] => destruct c
             end;
        unfold Spec.viewAfterLoad; st_simpl; repeat split; reflexivity.
    + rewrite (load_fetch_failed s Hh Hn). unfold Spec.viewAfterLoad. st_simpl.
      repeat split; reflexivity.
  - rewrite (load_guest s Hh). unfold Spec.viewAfterLoad. st_simpl.
    repeat split; reflexivity.
Qed.

Lemma guest_fold (m : gmap string Cart.ProductInfo) (cart : list GuestItem.t)
    (acc : Js.number) :
  (forall g, In g cart -> m !! GuestItem.product_id g = Some (Cart.ofGuest g)) ->
  fold_left (fun total item => Js.plus total (Cart.lineAmount m item))
            (List.map Cart.GuestLine cart) acc
  = fold_left Js.plus
      (List.map (fun g => Js.times (Js.ofQ (GuestItem.price g))
                                   (Js.ofZ (GuestItem.quantity g))) cart) acc.
Proof.
  revert acc. induction cart as [|g cart IH]; intros acc H; [reflexivity|].
  cbn [List.map fold_left].
  assert (E : Cart.lineAmount m (Cart.GuestLine g)
              = Js.times (Js.ofQ (GuestItem.price g)) (Js.ofZ (GuestItem.quantity g))).
  { unfold Cart.lineAmount. cbn [Cart.product_id].
    rewrite (proj2 (lookupProduct_own m _ _) (H g (or_introl eq_refl))). reflexivity. }
  rewrite E. apply IH. intros g' Hg'. apply H. now right.
Qed.

(** X12: for a guest [loadCartItems] shows the guest cart of local storage,
    line for line and in order, and changes nothing outside the view.
    Every line resolves to a stored product, so no line is hidden; with one
    entry per product each line resolves to its own snapshot and the
    subtotal is the sum, from 0 and in the order of the guest cart, of the
    snapshot price times the quantity, in doubles. *)
Theorem guest_cart_loads (s : Cart.State) :
  Cart.hasEmail (Cart.user (Cart.view s)) = false ->
  let cart := Env.readCart (Cart.world s) in
  let s' := Async.exec Cart.loadCartItems s in
  Cart.world s' = Cart.world s
  /\ Cart.cartItems (Cart.view s') = List.map Cart.GuestLine cart
  /\ (forall g, In g cart ->
        exists info,
          Cart.lookupProduct (Cart.products (Cart.view s')) (GuestItem.product_id g)
          = Js.Own info
          /\ Cart.id info = GuestItem.product_id g)
  /\ (NoDup (List.map GuestItem.product_id cart) ->
      (forall g, In g cart ->
         Cart.lookupProduct (Cart.products (Cart.view s')) (GuestItem.product_id g)
         = Js.Own (Cart.ofGuest g))
      /\ Cart.getSubtotal (Cart.view s')
         = Js.sum (List.map (fun g => Js.times (Js.ofQ (GuestItem.price g))
                                               (Js.ofZ (GuestItem.quantity g))) cart)).
Proof.
  intros Hh cart s'. subst s'. unfold Async.exec. rewrite (load_guest s Hh). st_simpl.
  fold cart. split; [reflexivity|]. split; [reflexivity|]. split.
  - intros g Hg. unfold Spec.viewAfterLoad. st_simpl. unfold Cart.guestProductMap.
    destruct (newMap_key
                (List.map (fun item => (GuestItem.product_id item, Cart.ofGuest item)) cart)
                (GuestItem.product_id g) (Cart.ofGuest g)) as (info & Hl & Hin).
    { apply in_map_iff. exists g. auto. }
    exists info. split; [now apply lookupProduct_own|].
    apply in_map_iff in Hin as (g' & [= E <-] & _). simpl. exact E.
  - intros Hnd.
    assert (Hown : forall g, In g cart ->
              Cart.guestProductMap cart !! GuestItem.product_id g = Some (Cart.ofGuest g))
      by (intros g Hg; now apply guestProductMap_own).
    split; [intros g Hg; now apply lookupProduct_own, Hown|].
    unfold Cart.getSubtotal, Js.sum, Spec.viewAfterLoad. st_simpl.
    now apply guest_fold.
Qed.

Lemma guest_cart_loads_witness :
  Cart.cartItems (Cart.view (Async.exec Cart.loadCartItems Sample.guestState))
  = List.map Cart.GuestLine (Env.readCart (Cart.world Sample.guestState))
  /\ Cart.getSubtotal (Cart.view (Async.exec Cart.loadCartItems Sample.guestState))
     = SpecFloat.S754_finite false 7035467042882847 (-46).
Proof.
  pose proof (guest_cart_loads Sample.guestState eq_refl) as (_ & Hlines & _ & Hsum).
  split; [exact Hlines|].
  destruct Hsum as [_ ->]; [|vm_compute; reflexivity].
  simpl. apply NoDup_cons. split; [apply not_elem_of_nil | apply NoDup_nil_2].
Defined.

Section StoredLoad.
Variables (s : Cart.State) (u : User.t).
Hypothesis Huser : Cart.user (Cart.view s) = Some u.
Hypothesis Hemail : Js.truthy (User.email u) = true.

(** The product map a successful load builds. *)
Lemma load_stored_ok :
  Spec.okPrefix 2 (Env.script (Cart.world s)) = true ->
  let items := Env.linesOf (User.email u) (Cart.world s) in
  exists w',
    Async.run Cart.loadCartItems s
    = (Resolved tt,
       Cart.mkState w'
         (Spec.viewAfterLoad s (List.map Cart.StoredLine items)
            (Cart.productMapOf
               (List.filter
                  (fun p => existsb (String.eqb (Product.id p))
                              (List.map CartItem.product_id items))
                  (Env.catalog (Cart.world s))))))
    /\ Env.cartStore w' = Env.cartStore (Cart.world s)
    /\ Env.trace w' = Env.trace (Cart.world s).
Proof.
  intros Hok items. apply okPrefix_S in Hok as [H1 Hok]. apply okPrefix_S in Hok as [H2 _].
  rewrite (load_stored s u Huser Hemail H1). cbv zeta. fold items.
  destruct (0 <? length (Js.unique (List.map CartItem.product_id items)))%nat eqn:Hlen.
  - rewrite H2. exists (Env.popScript (Env.popScript (Cart.world s))).
    split; [|split; reflexivity].
    rewrite (List.filter_ext
               (fun p => existsb (String.eqb (Product.id p))
                           (Js.unique (List.map CartItem.product_id items)))
               (fun p => existsb (String.eqb (Product.id p))
                           (List.map CartItem.product_id items))); [reflexivity|].
    intros p. apply eq_true_iff_eq. rewrite !existsb_exists.
    split; intros (x & Hx & E); exists x; (split; [|assumption]); now apply unique_In.
  - apply unique_empty in Hlen. exists (Env.popScript (Cart.world s)).
    split; [|split; reflexivity].
    rewrite Hlen. simpl.
    replace (List.filter (fun _ : Product.t => false) (Env.catalog (Cart.world s)))
      with (@nil Product.t); [reflexivity|].
    induction (Env.catalog (Cart.world s)) as [|p l IH]; simpl; auto.
Qed.
End StoredLoad.

(** X13: for a signed-in user whose calls succeed, [loadCartItems] shows
    the user's lines of the remote store, in store order, and does not
    change the store.  The reference of a line finds a stored product
    exactly when the catalog holds a product with that reference, and then
    a product of the catalog with that reference.  For a line whose product
    is gone (and no product named ["__proto__"] in the catalog) the
    reference finds nothing, unless it is the name of a member every object
    inherits: then it finds that member, which is no product. *)
Theorem stored_cart_loads (s : Cart.State) (u : User.t) :
  Cart.user (Cart.view s) = Some u ->
  Js.truthy (User.email u) = true ->
  Spec.okPrefix 2 (Env.script (Cart.world s)) = true ->
  let w := Cart.world s in
  let s' := Async.exec Cart.loadCartItems s in
  Cart.cartItems (Cart.view s') = List.map Cart.StoredLine (Env.linesOf (User.email u) w)
  /\ Env.cartStore (Cart.world s') = Env.cartStore w
  /\ Env.trace (Cart.world s') = Env.trace w
  /\ (forall c, In c (Env.linesOf (User.email u) w) ->
        (forall info,
            Cart.lookupProduct (Cart.products (Cart.view s')) (CartItem.product_id c)
            = Js.Own info ->
            exists p, In p (Env.catalog w)
                      /\ Product.id p = CartItem.product_id c
                      /\ info = Cart.ofProduct p)
        /\ ((exists p, In p (Env.catalog w) /\ Product.id p = CartItem.product_id c)
            <-> exists info,
                  Cart.lookupProduct (Cart.products (Cart.view s')) (CartItem.product_id c)
                  = Js.Own info)
        /\ ((forall p, In p (Env.catalog w) -> Product.id p <> CartItem.product_id c) ->
            (forall p, In p (Env.catalog w) -> Product.id p <> "__proto__") ->
            Cart.lookupProduct (Cart.products (Cart.view s')) (CartItem.product_id c)
            = if Js.inherited (CartItem.product_id c) then Js.Inherited true
              else Js.Absent)).
Proof.
  intros Hu He Hok w s'. subst s'. unfold Async.exec.
  destruct (load_stored_ok s u Hu He Hok) as (w' & -> & Hstore & Htrace).
  unfold Spec.viewAfterLoad. st_simpl. fold w in Hstore, Htrace |- *.
  split; [reflexivity|]. split; [assumption|]. split; [assumption|].
  intros c Hc.
  set (productList :=
         List.filter
           (fun p => existsb (String.eqb (Product.id p))
                       (List.map CartItem.product_id (Env.linesOf (User.email u) w)))
           (Env.catalog w)).
  assert (Hsome : forall k info,
            Cart.productMapOf productList !! k = Some info ->
            exists p, In p (Env.catalog w) /\ Product.id p = k /\ info = Cart.ofProduct p).
  { intros k info Hl. apply newMap_Some, in_map_iff in Hl as (p & [= Hid <-] & Hp).
    apply filter_In in Hp as [Hp _]. eauto. }
  assert (Hnone : forall k,
            (forall p, In p (Env.catalog w) -> Product.id p <> k) ->
            Cart.productMapOf productList !! k = None).
  { intros k Hk. destruct (Cart.productMapOf productList !! k) as [info|] eqn:E;
      [|reflexivity].
    destruct (Hsome k info E) as (p & Hp & Hid & _). now elim (Hk p Hp). }
  split; [|split].
  - intros info Hl. apply lookupProduct_own in Hl. now apply Hsome.
  - split.
    + intros (p & Hp & Hid). unfold Cart.productMapOf.
      destruct (newMap_key
                  (List.map (fun product => (Product.id product, Cart.ofProduct product))
                            productList)
                  (CartItem.product_id c) (Cart.ofProduct p)) as (info & Hl & _).
      { apply in_map_iff. exists p. split; [now rewrite Hid|].
        apply filter_In. split; [assumption|]. apply existsb_exists.
        exists (CartItem.product_id c). split; [now apply in_map|].
        rewrite Hid. apply String.eqb_refl. }
      exists info. now apply lookupProduct_own.
    + intros [info Hl]. apply lookupProduct_own in Hl.
      destruct (Hsome _ info Hl) as (p & Hp & Hid & _). eauto.
  - intros Hgone Hproto. unfold Cart.lookupProduct, Js.member.
    now rewrite (Hnone _ Hgone), (Hnone _ Hproto).
Qed.

Lemma stored_cart_loads_witness :
  let s' := Async.exec Cart.loadCartItems (Sample.annCartState []) in
  Cart.cartItems (Cart.view s')
  = List.map Cart.StoredLine
      (Env.linesOf (User.email Sample.ann) (Cart.world (Sample.annCartState [])))
  /\ Cart.lookupProduct (Cart.products (Cart.view s')) "gone" = Js.Absent
  /\ exists info, Cart.lookupProduct (Cart.products (Cart.view s')) "p2" = Js.Own info.
Proof.
  pose proof (stored_cart_loads (Sample.annCartState []) Sample.ann eq_refl eq_refl eq_refl)
    as (Hlines & _ & _ & Hfind).
  split; [exact Hlines|]. split.
  - apply (Hfind (CartItem.mk 1 "gone" 1 "ann@example.com")).
    + right. now left.
    + intros p [<-|[<-|[<-|[]]]]; discriminate.
    + intros p [<-|[<-|[<-|[]]]]; discriminate.
  - apply (Hfind (Sample.annScarf 3)); [now left|].
    exists Sample.scarf. split; [right; now left | reflexivity].
Defined.

(** X14: when a call of [loadCartItems] is rejected, the failure is logged
    and shown once, and the view keeps what it had at that point.  If the
    fetch of the lines fails, lines and products stay as they were; if the
    fetch of the products fails, the lines are already the new ones while
    the product map is still the old one. *)
Theorem loadCartItems_failures (s : Cart.State) (u : User.t) :
  Cart.user (Cart.view s) = Some u ->
  Js.truthy (User.email u) = true ->
  let w := Cart.world s in
  let s' := Async.exec Cart.loadCartItems s in
  let report := [Env.ConsoleError "Failed to load cart items:"; Env.Toast "Error" true] in
  (Env.nextOutcome w = false ->
     Cart.cartItems (Cart.view s') = Cart.cartItems (Cart.view s)
     /\ Cart.products (Cart.view s') = Cart.products (Cart.view s)
     /\ Env.trace (Cart.world s') = Env.trace w ++ report)
  /\ (Env.nextOutcome w = true ->
      Env.linesOf (User.email u) w <> [] ->
      Env.nextOutcome (Env.popScript w) = false ->
      Cart.cartItems (Cart.view s') = List.map Cart.StoredLine (Env.linesOf (User.email u) w)
      /\ Cart.products (Cart.view s') = Cart.products (Cart.view s)
      /\ Env.trace (Cart.world s') = Env.trace w ++ report).
Proof.
  intros Hu He w s' report. subst s'. unfold Async.exec. split.
  - intros Hn. rewrite (load_fetch_failed s) by (try assumption; now rewrite Hu).
    unfold Spec.viewAfterLoad. st_simpl. auto.
  - intros H1 Hne H2. rewrite (load_stored s u Hu He H1). cbv zeta. fold w.
    rewrite unique_nonempty, H2.
    + unfold Spec.viewAfterLoad. st_simpl. auto.
    + intros E. apply map_eq_nil in E. contradiction.
Qed.

Lemma loadCartItems_failures_witness :
  Cart.cartItems
    (Cart.view (Async.exec Cart.loadCartItems (Sample.annCartState [true; false])))
  = List.map Cart.StoredLine
      (Env.linesOf (User.email Sample.ann)
         (Cart.world (Sample.annCartState [true; false]))).
Proof.
  refine (proj1 (proj2 (loadCartItems_failures (Sample.annCartState [true; false])
                          Sample.ann _ _) _ _ _)).
  - reflexivity.
  - reflexivity.
  - reflexivity.
  - discriminate.
  - reflexivity.
Defined.

(** ** Changing and removing a line *)
Section Reload.
Variables (productId : string) (s0 : Cart.State).

(** The reload that ends [updateQuantity] and [removeItem]. *)
Lemma reload_frame :
  exists s' report,
    Async.run (Cart.reloadAndNotify productId) s0 = (Resolved tt, s')
    /\ Env.cartStore (Cart.world s') = Env.cartStore (Cart.world s0)
    /\ Env.nextId (Cart.world s') = Env.nextId (Cart.world s0)
    /\ Env.anonymousCart (Cart.world s') = Env.anonymousCart (Cart.world s0)
    /\ Env.trace (Cart.world s') = Env.trace (Cart.world s0) ++ report ++ [Env.CartUpdated]
    /\ (report = [] \/
        report = [Env.ConsoleError "Failed to load cart items:"; Env.Toast "Error" true])
    /\ Cart.updating (Cart.view s') = <[productId := false]> (Cart.updating (Cart.view s0))
    /\ Cart.user (Cart.view s') = Cart.user (Cart.view s0)
    /\ Cart.loading (Cart.view s') = false
    /\ Cart.isMerging (Cart.view s') = Cart.isMerging (Cart.view s0)
    /\ (Cart.hasEmail (Cart.user (Cart.view s0)) = false ->
        report = []
        /\ Cart.cartItems (Cart.view s')
           = List.map Cart.GuestLine (Env.readCart (Cart.world s0))
        /\ Cart.products (Cart.view s') = Cart.guestProductMap (Env.readCart (Cart.world s0)))
    /\ (forall u, Cart.user (Cart.view s0) = Some u -> Js.truthy (User.email u) = true ->
        Env.nextOutcome (Cart.world s0) = true ->
        Cart.cartItems (Cart.view s')
        = List.map Cart.StoredLine (Env.linesOf (User.email u) (Cart.world s0))).
Proof.
  unfold Cart.reloadAndNotify. rewrite run_bind.
  destruct (Cart.hasEmail (Cart.user (Cart.view s0))) eqn:Hh.
  - destruct (hasEmail_true _ Hh) as (u & Hu & Ht).
    destruct (Env.nextOutcome (Cart.world s0)) eqn:Hn.
    + rewrite (load_stored s0 u Hu Ht Hn). cbv zeta.
      unfold Cart.dispatchCartUpdated, Cart.setUpdating.
      repeat match goal with
             | |- context [if ?c then _ else _] => destruct c
             end; run_all; unfold Spec.viewAfterLoad; st_simpl.
      * eexists _, []. repeat split; try reflexivity; auto; try discriminate.
        intros u' Hu' _ _. rewrite Hu in Hu'. now injection Hu' as <-.
      * eexists _, [_; _]. repeat split; try reflexivity; auto; try discriminate.
        -- now rewrite <- !app_assoc.
        -- intros u' Hu' _ _. rewrite Hu in Hu'. now injection Hu' as <-.
      * eexists _, []. repeat split; try reflexivity; auto; try discriminate.
        intros u' Hu' _ _. rewrite Hu in Hu'. now injection Hu' as <-.
    + rewrite (load_fetch_failed s0 Hh Hn).
      unfold Cart.dispatchCartUpdated, Cart.setUpdating. run_all.
      unfold Spec.viewAfterLoad. st_simpl.
      eexists _, [_; _]. repeat split; try reflexivity; auto; try discriminate.
      now rewrite <- !app_assoc.
  - rewrite (load_guest s0 Hh).
    unfold Cart.dispatchCartUpdated, Cart.setUpdating. run_all.
    unfold Spec.viewAfterLoad. st_simpl.
    eexists _, []. repeat split; try reflexivity; auto.
    intros u Hu Ht. rewrite Hu in Hh. simpl in Hh. congruence.
Qed.
End Reload.

Section GuestEdits.
Variables (productId : string) (s : Cart.State).
Hypothesis Hguest : Cart.user (Cart.view s) = None.

Lemma update_guest_run (q : Z) :
  1 <= q ->
  let cart' := Cart.setGuestQuantity productId q (Env.readCart (Cart.world s)) in
  exists s',
    Async.run (Cart.updateQuantity productId q) s = (Resolved tt, s')
    /\ Env.anonymousCart (Cart.world s') = Some cart'
    /\ Env.cartStore (Cart.world s') = Env.cartStore (Cart.world s)
    /\ Env.nextId (Cart.world s') = Env.nextId (Cart.world s)
    /\ Env.trace (Cart.world s') = Env.trace (Cart.world s) ++ [Env.CartUpdated]
    /\ Cart.cartItems (Cart.view s') = List.map Cart.GuestLine cart'
    /\ Cart.products (Cart.view s') = Cart.guestProductMap cart'
    /\ Cart.updating (Cart.view s')
       = <[productId := false]> (<[productId := true]> (Cart.updating (Cart.view s)))
    /\ Cart.user (Cart.view s') = None.
Proof.
  intros Hq cart'. unfold Cart.updateQuantity.
  destruct (Z.ltb_spec q 1); [lia|].
  unfold Cart.setUpdating. run_all. rewrite Hguest. run_all.
  match goal with |- context [Async.run (Cart.reloadAndNotify _) ?s0] =>
    destruct (reload_frame productId s0)
      as (s' & report & Hrun & Hstore & Hid & Hcart & Htrace & _ & Hupd & Huser & _ & _
          & Hview & _) end.
  rewrite Hrun. exists s'. split; [reflexivity|].
  revert Hstore Hid Hcart Htrace Hupd Huser Hview. st_simpl.
  intros Hstore Hid Hcart Htrace Hupd Huser Hview.
  destruct (Hview eq_refl) as (-> & Hitems & Hprods).
  rewrite Hcart, Hstore, Hid, Htrace, Hupd, Huser, Hitems, Hprods.
  repeat split; reflexivity.
Qed.

Lemma remove_guest_run :
  let cart' := Cart.removeGuestItem productId (Env.readCart (Cart.world s)) in
  exists s',
    Async.run (Cart.removeItem productId) s = (Resolved tt, s')
    /\ Env.anonymousCart (Cart.world s') = Some cart'
    /\ Env.cartStore (Cart.world s') = Env.cartStore (Cart.world s)
    /\ Env.nextId (Cart.world s') = Env.nextId (Cart.world s)
    /\ Env.trace (Cart.world s')
       = Env.trace (Cart.world s) ++ [Env.Toast "Item removed" false; Env.CartUpdated]
    /\ Cart.cartItems (Cart.view s') = List.map Cart.GuestLine cart'
    /\ Cart.products (Cart.view s') = Cart.guestProductMap cart'
    /\ Cart.updating (Cart.view s')
       = <[productId := false]> (<[productId := true]> (Cart.updating (Cart.view s)))
    /\ Cart.user (Cart.view s') = None.
Proof.
  intros cart'. unfold Cart.removeItem.
  unfold Cart.setUpdating, Cart.toast. run_all. rewrite Hguest. run_all.
  match goal with |- context [Async.run (Cart.reloadAndNotify _) ?s0] =>
    destruct (reload_frame productId s0)
      as (s' & report & Hrun & Hstore & Hid & Hcart & Htrace & _ & Hupd & Huser & _ & _
          & Hview & _) end.
  rewrite Hrun. exists s'. split; [reflexivity|].
  revert Hstore Hid Hcart Htrace Hupd Huser Hview. st_simpl.
  intros Hstore Hid Hcart Htrace Hupd Huser Hview.
  destruct (Hview eq_refl) as (-> & Hitems & Hprods).
  rewrite Hcart, Hstore, Hid, Htrace, Hupd, Huser, Hitems, Hprods.
  rewrite <- app_assoc. repeat split; reflexivity.
Qed.
End GuestEdits.

Section GuestCartFacts.
Variable productId : string.

Lemma setGuestQuantity_In (q : Z) (cart : list GuestItem.t) (g : GuestItem.t) :
  In g (Cart.setGuestQuantity productId q cart) ->
  (GuestItem.product_id g = productId /\ GuestItem.quantity g = q)
  \/ (GuestItem.product_id g <> productId /\ In g cart).
Proof.
  unfold Cart.setGuestQuantity. rewrite in_map_iff. intros (g0 & E & Hin).
  destruct (String.eqb_spec (GuestItem.product_id g0) productId) as [Hp|Hp]; subst g.
  - left. now destruct g0.
  - right. auto.
Qed.

Lemma setGuestQuantity_other (q : Z) (cart : list GuestItem.t) (g : GuestItem.t) :
  GuestItem.product_id g <> productId ->
  In g cart -> In g (Cart.setGuestQuantity productId q cart).
Proof.
  intros Hne Hin. unfold Cart.setGuestQuantity. apply in_map_iff. exists g.
  split; [|exact Hin].
  now destruct (String.eqb_spec (GuestItem.product_id g) productId).
Qed.

Lemma setGuestQuantity_positive (q : Z) (cart : list GuestItem.t) :
  1 <= q -> Spec.positiveQuantities cart ->
  Spec.positiveQuantities (Cart.setGuestQuantity productId q cart).
Proof.
  intros Hq Hpos. unfold Spec.positiveQuantities in *.
  rewrite List.Forall_forall in *. intros g Hg.
  destruct (setGuestQuantity_In _ _ _ Hg) as [[_ ->]|[_ Hin]]; auto.
Qed.

(** Setting the quantity of the one entry of a product moves the number
    of items by the difference. *)
Lemma setGuestQuantity_total (q : Z) (cart : list GuestItem.t) (g : GuestItem.t) :
  NoDup (List.map GuestItem.product_id cart) ->
  In g cart -> GuestItem.product_id g = productId ->
  Spec.guestTotal (Cart.setGuestQuantity productId q cart)
  = Spec.guestTotal cart - GuestItem.quantity g + q.
Proof.
  unfold Spec.guestTotal. induction cart as [|g0 l IH]; intros Hnd Hin Hp; [destruct Hin|].
  simpl in Hnd. apply NoDup_cons in Hnd as [Hfresh Hnd].
  rewrite list_elem_of_In in Hfresh. simpl.
  destruct Hin as [->|Hin].
  - rewrite Hp, String.eqb_refl.
    fold (Cart.setGuestQuantity productId q l).
    rewrite setGuestQuantity_absent.
    + destruct g; simpl. lia.
    + intros g' Hg' E. apply Hfresh. rewrite Hp, <- E. now apply in_map.
  - destruct (String.eqb_spec (GuestItem.product_id g0) productId) as [E|_].
    + exfalso. apply Hfresh. rewrite E, <- Hp. now apply in_map.
    + simpl. fold (Cart.setGuestQuantity productId q l).
      specialize (IH Hnd Hin Hp). lia.
Qed.

Lemma removeGuestItem_In (cart : list GuestItem.t) (g : GuestItem.t) :
  In g (Cart.removeGuestItem productId cart)
  <-> In g cart /\ GuestItem.product_id g <> productId.
Proof.
  unfold Cart.removeGuestItem. rewrite filter_In.
  destruct (String.eqb_spec (GuestItem.product_id g) productId); simpl; split;
    intros [H1 H2]; split; auto; try discriminate.
Qed.

Lemma removeGuestItem_idem (cart : list GuestItem.t) :
  Cart.removeGuestItem productId (Cart.removeGuestItem productId cart)
  = Cart.removeGuestItem productId cart.
Proof.
  apply removeGuestItem_absent. intros g Hg. now apply removeGuestItem_In in Hg.
Qed.

Lemma removeGuestItem_total (cart : list GuestItem.t) :
  Spec.guestTotal cart
  = Spec.guestTotal (Cart.removeGuestItem productId cart)
    + Spec.guestTotal
        (List.filter (fun g => String.eqb (GuestItem.product_id g) productId) cart).
Proof.
  unfold Spec.guestTotal. induction cart as [|g l IH]; [reflexivity|]. simpl.
  destruct (String.eqb (GuestItem.product_id g) productId); simpl; lia.
Qed.

Lemma removeGuestItem_positive (cart : list GuestItem.t) :
  Spec.positiveQuantities cart ->
  Spec.positiveQuantities (Cart.removeGuestItem productId cart).
Proof.
  unfold Spec.positiveQuantities. rewrite !List.Forall_forall. intros H g Hg.
  apply H. now apply removeGuestItem_In in Hg.
Qed.
End GuestCartFacts.

(** X15: a guest who sets the quantity of a product to [q >= 1] gets a
    guest cart with the same products in the same order, in which the
    entries of that product hold [q] and every other entry is as it was;
    quantities stay at least 1, and with one entry per product the number of
    items moves by the difference between [q] and the old quantity.  The
    view is reloaded from the new guest cart, the "cart changed"
    notification is dispatched once and nothing else is shown, the remote
    store is not touched and the product's busy flag is down again. *)
Theorem update_guest_quantity (productId : string) (q : Z) (s : Cart.State) :
  1 <= q ->
  Cart.user (Cart.view s) = None ->
  let cart := Env.readCart (Cart.world s) in
  let s' := Async.exec (Cart.updateQuantity productId q) s in
  let cart' := Env.readCart (Cart.world s') in
  List.map GuestItem.product_id cart' = List.map GuestItem.product_id cart
  /\ (forall g, In g cart' -> GuestItem.product_id g = productId -> GuestItem.quantity g = q)
  /\ (forall g, GuestItem.product_id g <> productId -> (In g cart' <-> In g cart))
  /\ (Spec.positiveQuantities cart -> Spec.positiveQuantities cart')
  /\ (forall g, NoDup (List.map GuestItem.product_id cart) ->
        In g cart -> GuestItem.product_id g = productId ->
        Spec.guestTotal cart' = Spec.guestTotal cart - GuestItem.quantity g + q)
  /\ Cart.cartItems (Cart.view s') = List.map Cart.GuestLine cart'
  /\ Env.trace (Cart.world s') = Env.trace (Cart.world s) ++ [Env.CartUpdated]
  /\ Env.cartStore (Cart.world s') = Env.cartStore (Cart.world s)
  /\ Cart.isUpdating (Cart.view s') productId = false.
Proof.
  intros Hq Hu cart s' cart'.
  destruct (update_guest_run productId s Hu q Hq)
    as (s1 & Hrun & Hcart & Hstore & _ & Htrace & Hitems & _ & Hupd & _).
  assert (Es : s' = s1) by (unfold s', Async.exec; now rewrite Hrun).
  assert (Ec : cart' = Cart.setGuestQuantity productId q cart).
  { unfold cart', Env.readCart at 1. now rewrite Es, Hcart. }
  rewrite Ec, Es. repeat split.
  - apply setGuestQuantity_ids.
  - intros g Hg Hp. destruct (setGuestQuantity_In _ _ _ _ Hg) as [[_ E]|[Hne _]];
      [exact E | contradiction].
  - intros Hg. destruct (setGuestQuantity_In _ _ _ _ Hg) as [[E _]|[_ Hin]];
      [contradiction | exact Hin].
  - now apply setGuestQuantity_other.
  - now apply setGuestQuantity_positive.
  - intros g Hnd Hin Hp. now apply setGuestQuantity_total.
  - exact Hitems.
  - exact Htrace.
  - exact Hstore.
  - unfold Cart.isUpdating, Js.truthyMember. now rewrite Hupd, lookup_insert_eq.
Qed.

Lemma update_guest_quantity_witness :
  Spec.guestTotal
    (Env.readCart (Cart.world (Async.exec (Cart.updateQuantity "p2" 5) Sample.guestState)))
  = 5.
Proof.
  refine (proj1 (proj2 (proj2 (proj2 (proj2
            (update_guest_quantity "p2" 5 Sample.guestState _ _)))))
            (Sample.guestScarf 2) _ _ _).
  - lia.
  - reflexivity.
  - simpl. constructor; [apply not_elem_of_nil | constructor].
  - now left.
  - reflexivity.
Defined.

(** X16: a guest who removes a product gets a guest cart that holds
    exactly the entries of the other products, as they were: no entry of
    the product is left, the number of items drops by the quantities
    removed, and one entry per product and quantities of at least 1 are
    kept.  The view is reloaded from the new guest cart, so no line of the
    product is shown; "Item removed" is shown and then the "cart changed"
    notification is dispatched; the remote store is not touched, the busy
    flag is down again, and removing the product once more leaves the
    guest cart as it is. *)
Theorem remove_guest_item (productId : string) (s : Cart.State) :
  Cart.user (Cart.view s) = None ->
  let cart := Env.readCart (Cart.world s) in
  let s' := Async.exec (Cart.removeItem productId) s in
  let cart' := Env.readCart (Cart.world s') in
  (forall g, In g cart' <-> In g cart /\ GuestItem.product_id g <> productId)
  /\ Spec.guestTotal cart
     = Spec.guestTotal cart'
       + Spec.guestTotal
           (List.filter (fun g => String.eqb (GuestItem.product_id g) productId) cart)
  /\ (NoDup (List.map GuestItem.product_id cart) ->
      NoDup (List.map GuestItem.product_id cart'))
  /\ (Spec.positiveQuantities cart -> Spec.positiveQuantities cart')
  /\ Cart.cartItems (Cart.view s') = List.map Cart.GuestLine cart'
  /\ (forall l, In l (Cart.cartItems (Cart.view s')) -> Cart.product_id l <> productId)
  /\ Env.trace (Cart.world s')
     = Env.trace (Cart.world s) ++ [Env.Toast "Item removed" false; Env.CartUpdated]
  /\ Env.cartStore (Cart.world s') = Env.cartStore (Cart.world s)
  /\ Cart.isUpdating (Cart.view s') productId = false
  /\ Env.readCart (Cart.world (Async.exec (Cart.removeItem productId) s')) = cart'.
Proof.
  intros Hu cart s' cart'.
  destruct (remove_guest_run productId s Hu)
    as (s1 & Hrun & Hcart & Hstore & _ & Htrace & Hitems & _ & Hupd & Hu1).
  assert (Es : s' = s1) by (unfold s', Async.exec; now rewrite Hrun).
  assert (Ec : cart' = Cart.removeGuestItem productId cart).
  { unfold cart', Env.readCart at 1. now rewrite Es, Hcart. }
  destruct (remove_guest_run productId s1 Hu1) as (s2 & Hrun2 & Hcart2 & _).
  rewrite Ec, Es.
  split; [intros g; apply removeGuestItem_In|].
  split; [apply removeGuestItem_total|].
  split; [apply removeGuestItem_NoDup|].
  split; [apply removeGuestItem_positive|].
  split; [exact Hitems|].
  split.
  { intros l Hl. rewrite Hitems in Hl. apply in_map_iff in Hl as (g & <- & Hg).
    now apply removeGuestItem_In in Hg. }
  split; [exact Htrace|].
  split; [exact Hstore|].
  split.
  { unfold Cart.isUpdating, Js.truthyMember. now rewrite Hupd, lookup_insert_eq. }
  unfold Async.exec. rewrite Hrun2. unfold Env.readCart at 1. simpl.
  rewrite Hcart2. unfold Env.readCart at 1. rewrite Hcart.
  apply removeGuestItem_idem.
Qed.

Lemma remove_guest_item_witness :
  Env.readCart (Cart.world (Async.exec (Cart.removeItem "p2") Sample.guestState)) = [].
Proof.
  set (s' := Async.exec (Cart.removeItem "p2") Sample.guestState).
  pose proof (remove_guest_item "p2" Sample.guestState eq_refl) as (Hin & _).
  fold s' in Hin. destruct (Env.readCart (Cart.world s')) as [|g l]; [reflexivity|].
  exfalso. destruct (proj1 (Hin g) (or_introl eq_refl)) as [[<-|[]] Hne].
  now apply Hne.
Defined.

Section StoreWrites.
Variables (i : nat) (w : Env.World).

Lemma existsb_find {A} (p : A -> bool) (l : list A) :
  existsb p l = match List.find p l with Some _ => true | None => false end.
Proof. induction l as [|x l IH]; simpl; [reflexivity|]. now destruct (p x). Qed.

Lemma update_accepted (q : Z) :
  Spec.accepted i w = true ->
  exists c,
    Env.CartItem_update i q w
    = (Resolved c,
       Env.set_cartStore (List.map (Env.setQuantity i q) (Env.cartStore w))
         (Env.nextId w) (Env.popScript w)).
Proof.
  unfold Spec.accepted. rewrite andb_true_iff, existsb_find. intros [Hn Hf].
  destruct (List.find (Env.hasId i) (Env.cartStore w)) as [c|] eqn:E; [|discriminate].
  eexists. exact (update_ok i q c w Hn E).
Qed.

Lemma update_refused (q : Z) :
  Spec.accepted i w = false -> Env.CartItem_update i q w = (Rejected, Env.popScript w).
Proof.
  unfold Spec.accepted, Env.CartItem_update, Env.remote. rewrite existsb_find.
  destruct (Env.nextOutcome w); [|reflexivity]. st_simpl.
  now destruct (List.find (Env.hasId i) (Env.cartStore w)).
Qed.

Lemma delete_accepted :
  Spec.accepted i w = true ->
  Env.CartItem_delete i w
  = (Resolved tt,
     Env.set_cartStore (List.filter (fun c => negb (Env.hasId i c)) (Env.cartStore w))
       (Env.nextId w) (Env.popScript w)).
Proof.
  unfold Spec.accepted, Env.CartItem_delete, Env.remote. rewrite existsb_find.
  destruct (Env.nextOutcome w); [|discriminate]. st_simpl.
  now destruct (List.find (Env.hasId i) (Env.cartStore w)).
Qed.

Lemma delete_refused :
  Spec.accepted i w = false -> Env.CartItem_delete i w = (Rejected, Env.popScript w).
Proof.
  unfold Spec.accepted, Env.CartItem_delete, Env.remote. rewrite existsb_find.
  destruct (Env.nextOutcome w); [|reflexivity]. st_simpl.
  now destruct (List.find (Env.hasId i) (Env.cartStore w)).
Qed.
End StoreWrites.

Section StoredEdits.
Variables (productId : string) (s : Cart.State) (u : User.t) (c : CartItem.t).
Hypothesis Huser : Cart.user (Cart.view s) = Some u.
Hypothesis Hfind :
  List.find (Cart.isProduct productId) (Cart.cartItems (Cart.view s))
  = Some (Cart.StoredLine c).

Lemma update_stored_run (q : Z) :
  1 <= q ->
  let w := Cart.world s in
  let ok := Spec.accepted (CartItem.id c) w in
  exists s' rep,
    Async.run (Cart.updateQuantity productId q) s = (Resolved tt, s')
    /\ Env.cartStore (Cart.world s')
       = (if ok then List.map (Env.setQuantity (CartItem.id c) q) (Env.cartStore w)
          else Env.cartStore w)
    /\ Env.nextId (Cart.world s') = Env.nextId w
    /\ Env.anonymousCart (Cart.world s') = Env.anonymousCart w
    /\ Env.trace (Cart.world s')
       = Env.trace w
         ++ (if ok then [] else Spec.report "Failed to update quantity in DB:")
         ++ rep ++ [Env.CartUpdated]
    /\ (rep = [] \/ rep = Spec.report "Failed to load cart items:")
    /\ Cart.updating (Cart.view s')
       = <[productId := false]> (<[productId := true]> (Cart.updating (Cart.view s)))
    /\ Cart.user (Cart.view s') = Some u
    /\ (Js.truthy (User.email u) = true ->
        Env.nextOutcome (Env.popScript w) = true ->
        Cart.cartItems (Cart.view s')
        = List.map Cart.StoredLine (Env.linesOf (User.email u) (Cart.world s'))).
Proof.
  intros Hq w ok. unfold Cart.updateQuantity.
  destruct (Z.ltb_spec q 1); [lia|].
  unfold Cart.setUpdating, Cart.consoleError, Cart.toast.
  run_all. rewrite Huser. run_all. rewrite Hfind. run_all.
  rewrite onWorld_eq. cbn [Cart.updateLine]. st_simpl. fold w.
  destruct (Spec.accepted (CartItem.id c) w) eqn:Hok; subst ok.
  - destruct (update_accepted (CartItem.id c) w q Hok) as (c' & ->). st_simpl. run_all.
    match goal with |- context [Async.run (Cart.reloadAndNotify _) ?s0] =>
      destruct (reload_frame productId s0)
        as (s' & rep & Hrun & Hstore & Hid & Hcart & Htrace & Hrep & Hupd & Hu' & _ & _
            & _ & Hview) end.
    rewrite Hrun. exists s', rep. split; [reflexivity|].
    revert Hstore Hid Hcart Htrace Hupd Hu' Hview. st_simpl.
    intros Hstore Hid Hcart Htrace Hupd Hu' Hview.
    rewrite Hstore, Hid, Hcart, Htrace, Hupd, Hu'.
    repeat split; try reflexivity; auto.
    intros Ht Hn. rewrite (Hview u eq_refl Ht Hn).
    unfold Env.linesOf. st_simpl. now rewrite Hstore.
  - rewrite (update_refused (CartItem.id c) w q Hok). st_simpl. run_all.
    match goal with |- context [Async.run (Cart.reloadAndNotify _) ?s0] =>
      destruct (reload_frame productId s0)
        as (s' & rep & Hrun & Hstore & Hid & Hcart & Htrace & Hrep & Hupd & Hu' & _ & _
            & _ & Hview) end.
    rewrite Hrun. exists s', rep. split; [reflexivity|].
    revert Hstore Hid Hcart Htrace Hupd Hu' Hview. st_simpl.
    intros Hstore Hid Hcart Htrace Hupd Hu' Hview.
    rewrite Hstore, Hid, Hcart, Htrace, Hupd, Hu'.
    repeat split; try reflexivity; auto.
    + unfold Spec.report. now rewrite <- !app_assoc.
    + intros Ht Hn. rewrite (Hview u eq_refl Ht Hn).
      unfold Env.linesOf. st_simpl. now rewrite Hstore.
Qed.

Lemma remove_stored_run :
  let w := Cart.world s in
  let ok := Spec.accepted (CartItem.id c) w in
  exists s' rep,
    Async.run (Cart.removeItem productId) s = (Resolved tt, s')
    /\ Env.cartStore (Cart.world s')
       = (if ok then List.filter (fun x => negb (Env.hasId (CartItem.id c) x)) (Env.cartStore w)
          else Env.cartStore w)
    /\ Env.nextId (Cart.world s') = Env.nextId w
    /\ Env.anonymousCart (Cart.world s') = Env.anonymousCart w
    /\ Env.trace (Cart.world s')
       = Env.trace w
         ++ (if ok then [Env.Toast "Item removed" false]
             else Spec.report "Failed to remove item from DB:")
         ++ rep ++ [Env.CartUpdated]
    /\ (rep = [] \/ rep = Spec.report "Failed to load cart items:")
    /\ Cart.updating (Cart.view s')
       = <[productId := false]> (<[productId := true]> (Cart.updating (Cart.view s)))
    /\ Cart.user (Cart.view s') = Some u
    /\ (Js.truthy (User.email u) = true ->
        Env.nextOutcome (Env.popScript w) = true ->
        Cart.cartItems (Cart.view s')
        = List.map Cart.StoredLine (Env.linesOf (User.email u) (Cart.world s'))).
Proof.
  intros w ok. unfold Cart.removeItem.
  unfold Cart.setUpdating, Cart.consoleError, Cart.toast.
  run_all. rewrite Huser. run_all. rewrite Hfind. run_all.
  rewrite onWorld_eq. cbn [Cart.deleteLine]. st_simpl. fold w.
  destruct (Spec.accepted (CartItem.id c) w) eqn:Hok; subst ok.
  - rewrite (delete_accepted (CartItem.id c) w Hok). st_simpl. run_all.
    match goal with |- context [Async.run (Cart.reloadAndNotify _) ?s0] =>
      destruct (reload_frame productId s0)
        as (s' & rep & Hrun & Hstore & Hid & Hcart & Htrace & Hrep & Hupd & Hu' & _ & _
            & _ & Hview) end.
    rewrite Hrun. exists s', rep. split; [reflexivity|].
    revert Hstore Hid Hcart Htrace Hupd Hu' Hview. st_simpl.
    intros Hstore Hid Hcart Htrace Hupd Hu' Hview.
    rewrite Hstore, Hid, Hcart, Htrace, Hupd, Hu'.
    repeat split; try reflexivity; auto.
    + now rewrite <- !app_assoc.
    + intros Ht Hn. rewrite (Hview u eq_refl Ht Hn).
      unfold Env.linesOf. st_simpl. now rewrite Hstore.
  - rewrite (delete_refused (CartItem.id c) w Hok). st_simpl. run_all.
    match goal with |- context [Async.run (Cart.reloadAndNotify _) ?s0] =>
      destruct (reload_frame productId s0)
        as (s' & rep & Hrun & Hstore & Hid & Hcart & Htrace & Hrep & Hupd & Hu' & _ & _
            & _ & Hview) end.
    rewrite Hrun. exists s', rep. split; [reflexivity|].
    revert Hstore Hid Hcart Htrace Hupd Hu' Hview. st_simpl.
    intros Hstore Hid Hcart Htrace Hupd Hu' Hview.
    rewrite Hstore, Hid, Hcart, Htrace, Hupd, Hu'.
    repeat split; try reflexivity; auto.
    + unfold Spec.report. now rewrite <- !app_assoc.
    + intros Ht Hn. rewrite (Hview u eq_refl Ht Hn).
      unfold Env.linesOf. st_simpl. now rewrite Hstore.
Qed.
End StoredEdits.

Section StoredEditFacts.
Variables (i : nat) (store : list CartItem.t).

Lemma setQuantity_In_other (q : Z) (x : CartItem.t) :
  CartItem.id x <> i ->
  In x (List.map (Env.setQuantity i q) store) -> In x store.
Proof.
  intros Hne Hin. apply in_map_iff in Hin as (x0 & E & Hin).
  assert (Hx0 : CartItem.id x0 <> i) by (rewrite <- E, setQuantity_id in Hne; exact Hne).
  rewrite setQuantity_other in E by assumption. now subst x0.
Qed.

Lemma setQuantity_In_same (q : Z) (x : CartItem.t) :
  CartItem.id x = i ->
  In x (List.map (Env.setQuantity i q) store) -> CartItem.quantity x = q.
Proof.
  intros Hid Hin. apply in_map_iff in Hin as (x0 & E & Hin).
  assert (Hx0 : CartItem.id x0 = i) by (rewrite <- E, setQuantity_id in Hid; exact Hid).
  rewrite <- Hx0, setQuantity_same in E. subst x. now destruct x0.
Qed.

Lemma setQuantity_ids (q : Z) :
  List.map CartItem.id (List.map (Env.setQuantity i q) store) = List.map CartItem.id store.
Proof.
  rewrite List.map_map. apply List.map_ext. intros x. apply setQuantity_id.
Qed.

Lemma dropId_In (x : CartItem.t) :
  In x (List.filter (fun c => negb (Env.hasId i c)) store)
  <-> In x store /\ CartItem.id x <> i.
Proof.
  rewrite filter_In. unfold Env.hasId.
  destruct (Nat.eqb_spec (CartItem.id x) i); simpl; split; intros [H1 H2]; split; auto;
    try discriminate.
Qed.

Lemma In_accepted (w : Env.World) (c : CartItem.t) :
  In c (Env.cartStore w) -> Spec.accepted (CartItem.id c) w = Env.nextOutcome w.
Proof.
  intros Hin. unfold Spec.accepted.
  replace (existsb (Env.hasId (CartItem.id c)) (Env.cartStore w)) with true;
    [apply andb_true_r|].
  symmetry. apply existsb_exists. exists c. split; [exact Hin|].
  unfold Env.hasId. apply Nat.eqb_refl.
Qed.
End StoredEditFacts.

(** X17: a signed-in user sets the quantity of a shown line to [q >= 1].
    Whatever the outcome, the handler completes, no line is added to or
    dropped from the remote store, every other line is as it was, the guest
    cart is not touched, the "cart changed" notification comes last and the
    busy flag is down again.  When the store accepts the write, the line
    holds [q] and no update error is shown; when it refuses (the call fails
    or the line is gone), the store is as it was and the failure is
    logged and shown once, before the reload.  With unique identifiers and a
    line that is in the store, an accepted write moves the number of
    items of the line's owner by [q] minus the old quantity. *)
Theorem update_stored_quantity (productId : string) (q : Z) (s : Cart.State)
    (u : User.t) (c : CartItem.t) :
  1 <= q ->
  Cart.user (Cart.view s) = Some u ->
  List.find (Cart.isProduct productId) (Cart.cartItems (Cart.view s))
  = Some (Cart.StoredLine c) ->
  let w := Cart.world s in
  let s' := Async.exec (Cart.updateQuantity productId q) s in
  let store' := Env.cartStore (Cart.world s') in
  exists rep,
    (rep = [] \/ rep = Spec.report "Failed to load cart items:")
    /\ fst (Async.run (Cart.updateQuantity productId q) s) = Resolved tt
    /\ Env.anonymousCart (Cart.world s') = Env.anonymousCart w
    /\ List.map CartItem.id store' = List.map CartItem.id (Env.cartStore w)
    /\ (forall x, CartItem.id x <> CartItem.id c -> (In x store' <-> In x (Env.cartStore w)))
    /\ (if Spec.accepted (CartItem.id c) w
        then (forall x, In x store' -> CartItem.id x = CartItem.id c ->
                CartItem.quantity x = q)
             /\ Env.trace (Cart.world s') = Env.trace w ++ rep ++ [Env.CartUpdated]
        else store' = Env.cartStore w
             /\ Env.trace (Cart.world s')
                = Env.trace w ++ Spec.report "Failed to update quantity in DB:"
                  ++ rep ++ [Env.CartUpdated])
    /\ (NoDup (List.map CartItem.id (Env.cartStore w)) -> In c (Env.cartStore w) ->
        Env.nextOutcome w = true ->
        Spec.storeTotal (Env.linesOf (CartItem.user_email c) (Cart.world s'))
        = Spec.storeTotal (Env.linesOf (CartItem.user_email c) w) + (q - CartItem.quantity c))
    /\ (Js.truthy (User.email u) = true -> Env.nextOutcome (Env.popScript w) = true ->
        Cart.cartItems (Cart.view s')
        = List.map Cart.StoredLine (Env.linesOf (User.email u) (Cart.world s')))
    /\ Cart.isUpdating (Cart.view s') productId = false.
Proof.
  intros Hq Hu Hfind w s' store'.
  destruct (update_stored_run productId s u c Hu Hfind q Hq)
    as (s1 & rep & Hrun & Hstore & _ & Hcart & Htrace & Hrep & Hupd & _ & Hview).
  fold w in Hstore, Hcart, Htrace, Hview.
  assert (Es : s' = s1) by (unfold s', Async.exec; now rewrite Hrun).
  unfold store'. rewrite Hrun, Es. clear Es. exists rep.
  split; [exact Hrep|]. split; [reflexivity|]. split; [exact Hcart|].
  split; [|split; [|split; [|split; [|split]]]].
  - rewrite Hstore. destruct (Spec.accepted (CartItem.id c) w); [|reflexivity].
    apply setQuantity_ids.
  - intros x Hx. rewrite Hstore.
    destruct (Spec.accepted (CartItem.id c) w); [|tauto]. split.
    + now apply setQuantity_In_other.
    + intros Hin. now apply in_setQuantity_other.
  - rewrite Hstore, Htrace. destruct (Spec.accepted (CartItem.id c) w).
    + split; [|reflexivity]. intros x Hin Hid. eapply setQuantity_In_same; eauto.
    + split; reflexivity.
  - intros Hnd Hin Hn. unfold Env.linesOf. rewrite Hstore.
    rewrite (In_accepted w c Hin), Hn.
    rewrite total_setQuantity by assumption.
    unfold Env.matchesCriteria. rewrite String.eqb_refl. simpl. lia.
  - exact Hview.
  - unfold Cart.isUpdating, Js.truthyMember. now rewrite Hupd, lookup_insert_eq.
Qed.

Lemma update_stored_quantity_witness :
  Spec.storeTotal
    (Env.linesOf "ann@example.com"
       (Cart.world (Async.exec (Cart.updateQuantity "p2" 5) (Sample.annShownState []))))
  = 4 + (5 - 3).
Proof.
  destruct (update_stored_quantity "p2" 5 (Sample.annShownState []) Sample.ann
              (Sample.annScarf 3) ltac:(lia) eq_refl eq_refl)
    as (rep & _ & _ & _ & _ & _ & _ & Htotal & _).
  apply Htotal.
  - simpl. repeat (apply NoDup_cons; split;
                   [intros H; apply list_elem_of_In in H; simpl in H; intuition discriminate|]).
    apply NoDup_nil_2.
  - now left.
  - reflexivity.
Defined.

(** X18: a signed-in user removes a shown line.  Whatever the outcome, the
    handler completes, every other line of the remote store is as it was,
    the guest cart is not touched, the "cart changed" notification comes
    last and the busy flag is down again.  When the store accepts the
    delete, no line with that identifier is left and "Item removed" is
    shown; when it refuses (the call fails or the line is already gone), the
    store is as it was and the failure is logged and shown once.  After a
    successful reload the view shows the user's lines of the new store. *)
Theorem remove_stored_item (productId : string) (s : Cart.State)
    (u : User.t) (c : CartItem.t) :
  Cart.user (Cart.view s) = Some u ->
  List.find (Cart.isProduct productId) (Cart.cartItems (Cart.view s))
  = Some (Cart.StoredLine c) ->
  let w := Cart.world s in
  let s' := Async.exec (Cart.removeItem productId) s in
  let store' := Env.cartStore (Cart.world s') in
  exists rep,
    (rep = [] \/ rep = Spec.report "Failed to load cart items:")
    /\ fst (Async.run (Cart.removeItem productId) s) = Resolved tt
    /\ Env.anonymousCart (Cart.world s') = Env.anonymousCart w
    /\ (forall x, CartItem.id x <> CartItem.id c -> (In x store' <-> In x (Env.cartStore w)))
    /\ (if Spec.accepted (CartItem.id c) w
        then (forall x, In x store' -> CartItem.id x <> CartItem.id c)
             /\ Env.trace (Cart.world s')
                = Env.trace w ++ [Env.Toast "Item removed" false] ++ rep ++ [Env.CartUpdated]
        else store' = Env.cartStore w
             /\ Env.trace (Cart.world s')
                = Env.trace w ++ Spec.report "Failed to remove item from DB:"
                  ++ rep ++ [Env.CartUpdated])
    /\ (Js.truthy (User.email u) = true -> Env.nextOutcome (Env.popScript w) = true ->
        Cart.cartItems (Cart.view s')
        = List.map Cart.StoredLine (Env.linesOf (User.email u) (Cart.world s')))
    /\ Cart.isUpdating (Cart.view s') productId = false.
Proof.
  intros Hu Hfind w s' store'.
  destruct (remove_stored_run productId s u c Hu Hfind)
    as (s1 & rep & Hrun & Hstore & _ & Hcart & Htrace & Hrep & Hupd & _ & Hview).
  fold w in Hstore, Hcart, Htrace, Hview.
  assert (Es : s' = s1) by (unfold s', Async.exec; now rewrite Hrun).
  unfold store'. rewrite Hrun, Es. clear Es. exists rep.
  split; [exact Hrep|]. split; [reflexivity|]. split; [exact Hcart|].
  split; [|split; [|split]].
  - intros x Hx. rewrite Hstore.
    destruct (Spec.accepted (CartItem.id c) w); [|tauto].
    rewrite dropId_In. tauto.
  - rewrite Hstore, Htrace. destruct (Spec.accepted (CartItem.id c) w).
    + split; [|reflexivity]. intros x Hin. now apply dropId_In in Hin.
    + split; reflexivity.
  - exact Hview.
  - unfold Cart.isUpdating, Js.truthyMember. now rewrite Hupd, lookup_insert_eq.
Qed.

Lemma remove_stored_item_witness :
  Cart.cartItems (Cart.view (Async.exec (Cart.removeItem "p2") (Sample.annShownState [])))
  = List.map Cart.StoredLine
      (Env.linesOf "ann@example.com"
         (Cart.world (Async.exec (Cart.removeItem "p2") (Sample.annShownState [])))).
Proof.
  destruct (remove_stored_item "p2" (Sample.annShownState []) Sample.ann
              (Sample.annScarf 3) eq_refl eq_refl)
    as (rep & _ & _ & _ & _ & _ & Hview & _).
  apply Hview; reflexivity.
Defined.

Section Settles.
Variables (productId : string) (s : Cart.State).

Ltac settle_reload :=
  match goal with |- context [Async.run (Cart.reloadAndNotify _) ?s0] =>
    let s' := fresh "s'" in
    let rep := fresh "rep" in
    let Hrun := fresh "Hrun" in
    let Hupd := fresh "Hupd" in
    let Hu' := fresh "Hu'" in
    let Hm := fresh "Hm" in
    destruct (reload_frame productId s0)
      as (s' & rep & Hrun & _ & _ & _ & _ & _ & Hupd & Hu' & _ & Hm & _);
    rewrite Hrun; exists s'; split; [reflexivity|];
    revert Hupd Hu' Hm; st_simpl; intros Hupd Hu' Hm;
    rewrite Hupd, Hu', Hm; auto
  end.

Lemma updateQuantity_settles (q : Z) :
  1 <= q ->
  exists s',
    Async.run (Cart.updateQuantity productId q) s = (Resolved tt, s')
    /\ Cart.updating (Cart.view s')
       = <[productId := false]> (<[productId := true]> (Cart.updating (Cart.view s)))
    /\ Cart.user (Cart.view s') = Cart.user (Cart.view s)
    /\ Cart.isMerging (Cart.view s') = Cart.isMerging (Cart.view s).
Proof.
  intros Hq. unfold Cart.updateQuantity.
  destruct (Z.ltb_spec q 1); [lia|].
  unfold Cart.setUpdating, Cart.consoleError, Cart.toast. run_all.
  destruct (Cart.user (Cart.view s)) as [u|] eqn:Hu; run_all.
  - destruct (List.find (Cart.isProduct productId) (Cart.cartItems (Cart.view s)))
      as [line|]; run_all.
    + rewrite onWorld_eq. st_simpl.
      destruct (Cart.updateLine line q (Cart.world s)) as [[x|] w1]; st_simpl; run_all;
        settle_reload.
    + eexists. split; [reflexivity|]. st_simpl. auto.
  - settle_reload.
Qed.

Lemma removeItem_settles :
  exists s',
    Async.run (Cart.removeItem productId) s = (Resolved tt, s')
    /\ Cart.updating (Cart.view s')
       = <[productId := false]> (<[productId := true]> (Cart.updating (Cart.view s)))
    /\ Cart.user (Cart.view s') = Cart.user (Cart.view s)
    /\ Cart.isMerging (Cart.view s') = Cart.isMerging (Cart.view s).
Proof.
  unfold Cart.removeItem.
  unfold Cart.setUpdating, Cart.consoleError, Cart.toast. run_all.
  destruct (Cart.user (Cart.view s)) as [u|] eqn:Hu; run_all.
  - destruct (List.find (Cart.isProduct productId) (Cart.cartItems (Cart.view s)))
      as [line|]; run_all.
    + rewrite onWorld_eq. st_simpl.
      destruct (Cart.deleteLine line (Cart.world s)) as [[x|] w1]; st_simpl; run_all;
        settle_reload.
    + eexists. split; [reflexivity|]. st_simpl. auto.
  - settle_reload.
Qed.
End Settles.

(** X19: [updateQuantity] and [removeItem] never throw and never leave a
    product busy: for every state, every product and every outcome of the
    remote calls they complete, the busy flag of the product they were
    called for is down at the end (for [updateQuantity] with a quantity
    below 1 the flags are not touched at all), the busy flag of every
    other product is what it was, and [user] and [isMerging] are not
    changed.  So the minus, plus and remove buttons of a card cannot stay
    disabled because of a failed call. *)
Theorem busy_flag_released (productId : string) (q : Z) (s : Cart.State) :
  let s1 := Async.exec (Cart.updateQuantity productId q) s in
  let s2 := Async.exec (Cart.removeItem productId) s in
  fst (Async.run (Cart.updateQuantity productId q) s) = Resolved tt
  /\ fst (Async.run (Cart.removeItem productId) s) = Resolved tt
  /\ Cart.isUpdating (Cart.view s1) productId
     = (if q <? 1 then Cart.isUpdating (Cart.view s) productId else false)
  /\ Cart.isUpdating (Cart.view s2) productId = false
  /\ (forall p, p <> productId ->
        Cart.isUpdating (Cart.view s1) p = Cart.isUpdating (Cart.view s) p
        /\ Cart.isUpdating (Cart.view s2) p = Cart.isUpdating (Cart.view s) p)
  /\ Cart.user (Cart.view s1) = Cart.user (Cart.view s)
  /\ Cart.user (Cart.view s2) = Cart.user (Cart.view s)
  /\ Cart.isMerging (Cart.view s1) = Cart.isMerging (Cart.view s)
  /\ Cart.isMerging (Cart.view s2) = Cart.isMerging (Cart.view s).
Proof.
  intros s1 s2.
  destruct (removeItem_settles productId s) as (r2 & Hrun2 & Hupd2 & Hu2 & Hm2).
  assert (E2 : s2 = r2) by (unfold s2, Async.exec; now rewrite Hrun2).
  assert (H1 : exists r1,
             Async.run (Cart.updateQuantity productId q) s = (Resolved tt, r1)
             /\ Cart.updating (Cart.view r1)
                = (if q <? 1 then Cart.updating (Cart.view s)
                   else <[productId := false]>
                          (<[productId := true]> (Cart.updating (Cart.view s))))
             /\ Cart.user (Cart.view r1) = Cart.user (Cart.view s)
             /\ Cart.isMerging (Cart.view r1) = Cart.isMerging (Cart.view s)).
  { destruct (Z.ltb_spec q 1) as [Hlt|Hge].
    - exists s. rewrite updateQuantity_underflow by assumption. auto.
    - apply updateQuantity_settles. lia. }
  destruct H1 as (r1 & Hrun1 & Hupd1 & Hu1 & Hm1).
  assert (E1 : s1 = r1) by (unfold s1, Async.exec; now rewrite Hrun1).
  rewrite Hrun1, Hrun2, E1, E2. unfold Cart.isUpdating, Js.truthyMember. rewrite Hupd1, Hupd2.
  split; [reflexivity|]. split; [reflexivity|].
  split; [destruct (q <? 1); [reflexivity | now rewrite lookup_insert_eq]|].
  split; [now rewrite lookup_insert_eq|].
  split; [|auto].
  intros p Hp. split.
  - destruct (q <? 1); [reflexivity|]. now rewrite !lookup_insert_ne by congruence.
  - now rewrite !lookup_insert_ne by congruence.
Qed.

(** ** What a merge leaves alone *)
Section MergeFrame.
Variables (dbCartMap : gmap string CartItem.t) (userEmail other : string).
Hypothesis Hother : other <> userEmail.

Lemma linesOf_In (email : string) (w : Env.World) (c : CartItem.t) :
  In c (Env.linesOf email w) <-> In c (Env.cartStore w) /\ CartItem.user_email c = email.
Proof.
  unfold Env.linesOf, Env.matchesCriteria. rewrite filter_In, andb_true_r.
  now rewrite String.eqb_eq.
Qed.

Lemma filter_setQuantity_skip (email : string) (i : nat) (q : Z) (store : list CartItem.t) :
  (forall c, In c (List.filter (Env.matchesCriteria email None) store) -> CartItem.id c <> i) ->
  List.filter (Env.matchesCriteria email None) (List.map (Env.setQuantity i q) store)
  = List.filter (Env.matchesCriteria email None) store.
Proof.
  induction store as [|c store IH]; intros H; simpl; [reflexivity|].
  rewrite matches_setQuantity. simpl in H.
  destruct (Env.matchesCriteria email None c) eqn:E.
  - rewrite setQuantity_other by (apply H; now left).
    f_equal. apply IH. intros x Hx. apply H. now right.
  - apply IH. exact H.
Qed.

Lemma mergeLine_frame (g : GuestItem.t) (w : Env.World) :
  (forall r, dbCartMap !! GuestItem.product_id g = Some r ->
     forall c, In c (Env.linesOf other w) -> CartItem.id c <> CartItem.id r) ->
  Env.linesOf other (snd (Cart.mergeLine dbCartMap userEmail g w)) = Env.linesOf other w.
Proof.
  intros H. unfold Cart.mergeLine.
  destruct (dbCartMap !! GuestItem.product_id g) as [r|].
  - unfold Env.CartItem_update, Env.remote.
    destruct (Env.nextOutcome w); [|reflexivity]. st_simpl.
    destruct (List.find _ _); [|reflexivity]. unfold Env.linesOf. st_simpl.
    apply filter_setQuantity_skip. exact (H r eq_refl).
  - unfold Env.CartItem_create, Env.remote.
    destruct (Env.nextOutcome w); [|reflexivity]. unfold Env.linesOf. st_simpl.
    rewrite List.filter_app. simpl. unfold Env.matchesCriteria at 2. simpl.
    destruct (String.eqb_spec userEmail other) as [E|_]; [now elim Hother|].
    apply app_nil_r.
Qed.

Lemma settle_frame (localCart : list GuestItem.t) (w : Env.World) :
  (forall g r, In g localCart -> dbCartMap !! GuestItem.product_id g = Some r ->
     forall c, In c (Env.linesOf other w) -> CartItem.id c <> CartItem.id r) ->
  Env.linesOf other
    (snd (Async.settleAll (List.map (Cart.mergeLine dbCartMap userEmail) localCart) w))
  = Env.linesOf other w.
Proof.
  revert w. induction localCart as [|g gs IH]; intros w H; [reflexivity|].
  rewrite List.map_cons, settleAll_cons.
  pose proof (mergeLine_frame g w (fun r E => H g r (or_introl eq_refl) E)) as H1.
  rewrite IH, H1; [reflexivity|].
  intros g' r Hg' E. rewrite H1. apply (H g' r); [now right | exact E].
Qed.
End MergeFrame.

(** The identifier, product and owner of a line. *)
Section MergeKeys.
Variables (dbCartMap : gmap string CartItem.t) (userEmail : string).

Let key (c : CartItem.t) : nat * string * string :=
  (CartItem.id c, CartItem.product_id c, CartItem.user_email c).

Lemma key_setQuantity (i : nat) (q : Z) (store : list CartItem.t) :
  List.map key (List.map (Env.setQuantity i q) store) = List.map key store.
Proof.
  rewrite List.map_map. apply List.map_ext. intros c. unfold Env.setQuantity.
  destruct (Env.hasId i c); [now destruct c | reflexivity].
Qed.

Lemma mergeLine_keys (g : GuestItem.t) (w : Env.World) :
  exists added,
    List.map key (Env.cartStore (snd (Cart.mergeLine dbCartMap userEmail g w)))
    = List.map key (Env.cartStore w) ++ added
    /\ Forall (fun k => k.2 = userEmail /\ k.1.2 = GuestItem.product_id g) added.
Proof.
  unfold Cart.mergeLine.
  destruct (dbCartMap !! GuestItem.product_id g) as [r|].
  - exists []. rewrite app_nil_r. split; [|constructor].
    unfold Env.CartItem_update, Env.remote.
    destruct (Env.nextOutcome w); [|reflexivity]. st_simpl.
    destruct (List.find _ _); [|reflexivity]. st_simpl. apply key_setQuantity.
  - unfold Env.CartItem_create, Env.remote.
    destruct (Env.nextOutcome w).
    + eexists [_]. st_simpl. rewrite List.map_app. split; [reflexivity|].
      constructor; [split; reflexivity | constructor].
    + exists []. rewrite app_nil_r. split; [reflexivity | constructor].
Qed.

Lemma settle_keys (localCart : list GuestItem.t) (w : Env.World) :
  exists added,
    List.map key
      (Env.cartStore
         (snd (Async.settleAll (List.map (Cart.mergeLine dbCartMap userEmail) localCart) w)))
    = List.map key (Env.cartStore w) ++ added
    /\ Forall (fun k => k.2 = userEmail
                        /\ exists g, In g localCart /\ k.1.2 = GuestItem.product_id g) added.
Proof.
  revert w. induction localCart as [|g gs IH]; intros w.
  - exists []. rewrite app_nil_r. split; [reflexivity | constructor].
  - rewrite List.map_cons, settleAll_cons.
    destruct (mergeLine_keys g w) as (a1 & E1 & F1).
    destruct (IH (snd (Cart.mergeLine dbCartMap userEmail g w))) as (a2 & E2 & F2).
    exists (a1 ++ a2). rewrite E2, E1, <- app_assoc. split; [reflexivity|].
    apply List.Forall_app. split.
    + eapply List.Forall_impl; [|exact F1]. intros k [Hk Hp]. split; [exact Hk|].
      exists g. split; [now left | exact Hp].
    + eapply List.Forall_impl; [|exact F2]. intros k (Hk & g' & Hg' & Hp).
      split; [exact Hk|]. exists g'. split; [now right | exact Hp].
Qed.
End MergeKeys.

(** X20: whatever the outcome of its calls, [mergeCarts] never deletes or
    reorders a line of the remote store and never changes the product or
    the owner of one: the old lines keep their place, identifier, product
    and owner, and every line added behind them belongs to the merging user
    and is for a product of the guest cart.  With unique identifiers the
    cart of every other user is the same list afterwards.  The catalog, the
    session and the lines and user of the view are not touched. *)
Theorem merge_frame (localCart : list GuestItem.t) (userEmail : string) (s : Cart.State) :
  NoDup (List.map CartItem.id (Env.cartStore (Cart.world s))) ->
  let s' := Async.exec (Cart.mergeCarts localCart userEmail) s in
  let key := fun c => (CartItem.id c, CartItem.product_id c, CartItem.user_email c) in
  (forall email, email <> userEmail ->
     Env.linesOf email (Cart.world s') = Env.linesOf email (Cart.world s))
  /\ (exists added,
        List.map key (Env.cartStore (Cart.world s'))
        = List.map key (Env.cartStore (Cart.world s)) ++ added
        /\ Forall (fun k => k.2 = userEmail
                            /\ exists g, In g localCart /\ k.1.2 = GuestItem.product_id g)
                  added)
  /\ Cart.user (Cart.view s') = Cart.user (Cart.view s)
  /\ Cart.cartItems (Cart.view s') = Cart.cartItems (Cart.view s).
Proof.
  intros Hnd s' key. unfold s', Async.exec.
  destruct (Async.run (Cart.mergeCarts localCart userEmail) s) as [res s1] eqn:Hrun.
  apply mergeCarts_exec in Hrun as (_ & Hstore & _ & _ & Hu & Hitems & _). st_simpl.
  set (w1 := Env.set_trace (Env.trace (Cart.world s) ++ [Env.SetIsMerging true])
                           (Cart.world s)) in Hstore.
  split; [|split; [|split; assumption]].
  - intros email Hne. unfold Env.linesOf at 1. rewrite Hstore.
    fold (Env.linesOf email (snd (Spec.mergeOutcome localCart userEmail w1))).
    unfold Spec.mergeOutcome. destruct (Env.nextOutcome w1); [|reflexivity].
    rewrite settle_frame; [reflexivity | exact Hne |].
    intros g r _ E c Hc Hid.
    apply dbCartMap_Some in E as (Hr & Hmail & _).
    apply linesOf_In in Hc as [Hc Hmail'].
    assert (c = r) by (apply (store_id_inj (Env.cartStore (Cart.world s))); assumption).
    subst c. congruence.
  - rewrite Hstore. unfold Spec.mergeOutcome. destruct (Env.nextOutcome w1).
    + apply (settle_keys (Cart.dbCartMapOf (Env.linesOf userEmail w1)) userEmail
               localCart (Env.popScript w1)).
    + exists []. rewrite app_nil_r. split; [reflexivity | constructor].
Qed.

Lemma merge_frame_witness :
  Env.linesOf "bob@example.com"
    (Cart.world (Async.exec (Cart.mergeCarts [Sample.guestScarf 2] "ann@example.com")
                   (Cart.mkState Sample.annWorld Cart.initialView)))
  = Env.linesOf "bob@example.com" Sample.annWorld.
Proof.
  refine (proj1 (merge_frame [Sample.guestScarf 2] "ann@example.com"
                   (Cart.mkState Sample.annWorld Cart.initialView) _)
            "bob@example.com" _).
  - simpl. apply NoDup_cons. split; [apply not_elem_of_nil | apply NoDup_nil_2].
  - discriminate.
Defined.

(** ** A successful merge moves the guest items into the user's cart *)
Section MergeTotal.
Variables (dbCartMap : gmap string CartItem.t) (userEmail : string).

Lemma NoDup_fresh_id (store : list CartItem.t) (c : CartItem.t) :
  NoDup (List.map CartItem.id store) ->
  Forall (fun x => (CartItem.id x < CartItem.id c)%nat) store ->
  NoDup (List.map CartItem.id (store ++ [c])).
Proof.
  intros Hnd Hlt. rewrite List.map_app. apply NoDup_app. split; [exact Hnd|]. split.
  - intros i Hi Hc. apply list_elem_of_In in Hi, Hc. simpl in Hc.
    destruct Hc as [<-|[]]. apply in_map_iff in Hi as (x & E & Hx).
    rewrite List.Forall_forall in Hlt. specialize (Hlt x Hx). lia.
  - simpl. apply NoDup_cons. split; [apply not_elem_of_nil | apply NoDup_nil_2].
Qed.

Lemma settle_total (localCart : list GuestItem.t) (w : Env.World) :
  NoDup (List.map CartItem.id (Env.cartStore w)) ->
  Forall (fun c => (CartItem.id c < Env.nextId w)%nat) (Env.cartStore w) ->
  (forall g r, In g localCart -> dbCartMap !! GuestItem.product_id g = Some r ->
     List.find (Env.hasId (CartItem.id r)) (Env.cartStore w) = Some r
     /\ CartItem.user_email r = userEmail) ->
  (forall g g' r r', In g localCart -> In g' localCart ->
     dbCartMap !! GuestItem.product_id g = Some r ->
     dbCartMap !! GuestItem.product_id g' = Some r' ->
     CartItem.id r = CartItem.id r' ->
     GuestItem.product_id g = GuestItem.product_id g') ->
  NoDup (List.map GuestItem.product_id localCart) ->
  Spec.okPrefix (length localCart) (Env.script w) = true ->
  Spec.storeTotal
    (Env.linesOf userEmail
       (snd (Async.settleAll (List.map (Cart.mergeLine dbCartMap userEmail) localCart) w)))
  = Spec.storeTotal (Env.linesOf userEmail w) + Spec.guestTotal localCart.
Proof.
  revert w. induction localCart as [|g gs IH]; intros w Hids Hlt Hfound Hinj Hnd Hok.
  - simpl. unfold Spec.guestTotal. simpl. lia.
  - apply okPrefix_S in Hok as [Hn Hok]. apply NoDup_cons in Hnd as [Hnotin Hnd].
    assert (Hne : forall g', In g' gs ->
              GuestItem.product_id g' <> GuestItem.product_id g).
    { intros g' Hg' E. apply Hnotin. rewrite <- E.
      apply list_elem_of_In, in_map. exact Hg'. }
    rewrite List.map_cons, settleAll_cons.
    change (Spec.guestTotal (g :: gs)) with (GuestItem.quantity g + Spec.guestTotal gs).
    pose proof (eq_refl (Cart.mergeLine dbCartMap userEmail g w)) as Hm.
    unfold Cart.mergeLine at 2 in Hm.
    destruct (dbCartMap !! GuestItem.product_id g) as [r|] eqn:E.
    + destruct (Hfound g r (or_introl eq_refl) E) as [Hr Hmail].
      assert (Hother : forall g' r', In g' gs ->
                dbCartMap !! GuestItem.product_id g' = Some r' ->
                CartItem.id r' <> CartItem.id r).
      { intros g' r' Hg' E' Heq. apply (Hne g' Hg').
        apply (Hinj g' g r' r); auto; [now right | now left]. }
      rewrite (update_ok _ _ r) in Hm by assumption. rewrite Hm. clear Hm. st_simpl.
      rewrite IH; st_simpl.
      * unfold Env.linesOf. st_simpl.
        rewrite total_setQuantity by (try assumption; now apply find_hasId in Hr).
        unfold Env.matchesCriteria. rewrite Hmail, String.eqb_refl. simpl. lia.
      * now rewrite setQuantity_ids.
      * apply Forall_forall. intros c Hc. apply list_elem_of_In, in_map_iff in Hc
          as (c0 & <- & Hc0). rewrite setQuantity_id.
        rewrite List.Forall_forall in Hlt. now apply Hlt.
      * intros g' r' Hg' E'. destruct (Hfound g' r' (or_intror Hg') E') as [Hf Hm'].
        split; [|exact Hm']. rewrite find_setQuantity, Hf. simpl.
        f_equal. apply setQuantity_other. eapply Hother; eassumption.
      * intros g1 g2 r1 r2 H1 H2. apply Hinj; now right.
      * assumption.
      * assumption.
    + rewrite create_ok in Hm by assumption. rewrite Hm. clear Hm. st_simpl.
      rewrite IH; st_simpl.
      * unfold Env.linesOf. st_simpl. rewrite List.filter_app, storeTotal_app. simpl.
        unfold Env.matchesCriteria at 2. simpl. rewrite String.eqb_refl. simpl.
        unfold Spec.storeTotal at 2. simpl. lia.
      * apply NoDup_fresh_id; assumption.
      * apply List.Forall_app. split.
        -- eapply List.Forall_impl; [|exact Hlt]. simpl. intros c Hc. lia.
        -- constructor; [simpl; lia | constructor].
      * intros g' r' Hg' E'. destruct (Hfound g' r' (or_intror Hg') E') as [Hf Hm'].
        split; [|exact Hm']. now apply find_app_l.
      * intros g1 g2 r1 r2 H1 H2. apply Hinj; now right.
      * assumption.
      * assumption.
Qed.
End MergeTotal.

(** X21: when the fetch and every per-line call succeed, with unique
    identifiers in the store and one entry per product in the guest cart,
    [mergeCarts] moves the guest items into the user's cart: the number of
    items in the user's remote cart grows by the number of items of the
    guest cart it was given, and the guest cart is gone.  So a merge of
    the guest cart found in local storage conserves the number of items
    the user holds in both carts together. *)
Theorem merge_conserves_items (localCart : list GuestItem.t) (userEmail : string)
    (s : Cart.State) :
  Env.store_wf (Cart.world s) ->
  NoDup (List.map GuestItem.product_id localCart) ->
  Spec.okPrefix (S (length localCart)) (Env.script (Cart.world s)) = true ->
  let w := Cart.world s in
  let w' := Cart.world (Async.exec (Cart.mergeCarts localCart userEmail) s) in
  Spec.storeTotal (Env.linesOf userEmail w')
  = Spec.storeTotal (Env.linesOf userEmail w) + Spec.guestTotal localCart
  /\ Env.readCart w' = []
  /\ (localCart = Env.readCart w ->
      Spec.storeTotal (Env.linesOf userEmail w') + Spec.guestTotal (Env.readCart w')
      = Spec.storeTotal (Env.linesOf userEmail w) + Spec.guestTotal (Env.readCart w)).
Proof.
  intros [Hids Hlt] Hnd Hok w w'. unfold w', Async.exec.
  destruct (Async.run (Cart.mergeCarts localCart userEmail) s) as [res s1] eqn:Hrun.
  apply mergeCarts_exec in Hrun as (_ & Hstore & _ & _ & _ & _ & Hout). st_simpl.
  set (w1 := Env.set_trace (Env.trace (Cart.world s) ++ [Env.SetIsMerging true])
                           (Cart.world s)) in *.
  rewrite mergeOutcome_resolved in Hout.
  change (Env.script w1) with (Env.script (Cart.world s)) in Hout. rewrite Hok in Hout.
  destruct Hout as [Hcart _].
  assert (Htotal : Spec.storeTotal (Env.linesOf userEmail (Cart.world s1))
                   = Spec.storeTotal (Env.linesOf userEmail w) + Spec.guestTotal localCart).
  { unfold Env.linesOf at 1. rewrite Hstore.
    fold (Env.linesOf userEmail (snd (Spec.mergeOutcome localCart userEmail w1))).
    apply okPrefix_S in Hok as [Hn Hok].
    unfold Spec.mergeOutcome. change (Env.nextOutcome w1) with (Env.nextOutcome (Cart.world s)).
    rewrite Hn.
    rewrite settle_total; st_simpl; try assumption; [reflexivity| |].
    - intros g r _ E. apply dbCartMap_Some in E as (Hin & Hmail & _).
      split; [|exact Hmail]. now apply find_unique.
    - intros g g' r r' _ _ E E' Hid.
      apply dbCartMap_Some in E as (Hin & _ & Hp), E' as (Hin' & _ & Hp').
      rewrite <- Hp, <- Hp'. f_equal.
      now apply (store_id_inj (Env.cartStore (Cart.world s))). }
  split; [exact Htotal|].
  assert (Hempty : Env.readCart (Cart.world s1) = [])
    by (unfold Env.readCart; now rewrite Hcart).
  split; [exact Hempty|].
  intros <-. rewrite Hempty, Htotal. unfold Spec.guestTotal at 2. simpl. lia.
Qed.

Lemma merge_conserves_items_witness :
  Spec.storeTotal
    (Env.linesOf "ann@example.com"
       (Cart.world (Async.exec (Cart.mergeCarts [Sample.guestScarf 2] "ann@example.com")
                      (Sample.mergeState [Sample.annScarf 3] []))))
  = 3 + 2.
Proof.
  refine (proj1 (merge_conserves_items [Sample.guestScarf 2] "ann@example.com"
                   (Sample.mergeState [Sample.annScarf 3] []) _ _ _)).
  - split; simpl.
    + apply NoDup_cons. split; [apply not_elem_of_nil | apply NoDup_nil_2].
    + repeat constructor.
  - simpl. apply NoDup_cons. split; [apply not_elem_of_nil | apply NoDup_nil_2].
  - reflexivity.
Defined.

Section MergeFailure.
Variables (dbCartMap : gmap string CartItem.t) (userEmail : string).

Lemma mergeLine_rejected (g : GuestItem.t) (w : Env.World) :
  Env.nextOutcome w = false ->
  Cart.mergeLine dbCartMap userEmail g w = (Rejected, Env.popScript w).
Proof.
  intros Hn. unfold Cart.mergeLine, Env.CartItem_update, Env.CartItem_create.
  destruct (dbCartMap !! GuestItem.product_id g); now rewrite remote_fail.
Qed.
End MergeFailure.

(** X22: a failed call does not stop the others, and nothing is rolled
    back.  When the fetch succeeds, the call for the first guest entry is
    rejected and the calls for the other entries succeed (unique
    identifiers, one guest entry per product), the other entries are merged
    into the user's remote cart, which grows by their items, while the
    guest cart stays in local storage with all its entries, the first one
    and the merged ones, and the error toast is shown. *)
Theorem merge_partial_failure (g : GuestItem.t) (gs : list GuestItem.t)
    (userEmail : string) (s : Cart.State) (rest : list bool) :
  Env.store_wf (Cart.world s) ->
  NoDup (List.map GuestItem.product_id (g :: gs)) ->
  Env.script (Cart.world s) = true :: false :: rest ->
  Spec.okPrefix (length gs) rest = true ->
  let w := Cart.world s in
  let s' := Async.exec (Cart.mergeCarts (g :: gs) userEmail) s in
  Env.anonymousCart (Cart.world s') = Env.anonymousCart w
  /\ (forall g', In g' gs ->
        Spec.lineMerged (Cart.dbCartMapOf (Env.linesOf userEmail w)) userEmail (Env.nextId w)
          (Env.cartStore (Cart.world s')) g')
  /\ Spec.storeTotal (Env.linesOf userEmail (Cart.world s'))
     = Spec.storeTotal (Env.linesOf userEmail w) + Spec.guestTotal gs
  /\ Env.trace (Cart.world s')
     = Env.trace w
       ++ [Env.SetIsMerging true; Env.ConsoleError "Error merging carts:";
           Env.Toast "Error merging carts" true; Env.SetIsMerging false; Env.CartUpdated].
Proof.
  intros [Hids Hlt] Hnd Hscript Hok w s'. unfold s', Async.exec.
  destruct (Async.run (Cart.mergeCarts (g :: gs) userEmail) s) as [res s1] eqn:Hrun.
  apply mergeCarts_exec in Hrun as (_ & Hstore & _ & _ & _ & _ & Hout). st_simpl.
  set (w1 := Env.set_trace (Env.trace (Cart.world s) ++ [Env.SetIsMerging true])
                           (Cart.world s)) in *.
  rewrite mergeOutcome_resolved in Hout.
  change (Env.script w1) with (Env.script (Cart.world s)) in Hout.
  rewrite Hscript in Hout. simpl in Hout. destruct Hout as [Hcart Htrace].
  apply NoDup_cons in Hnd as [_ Hnd].
  set (dbCartMap := Cart.dbCartMapOf (Env.linesOf userEmail w)).
  set (w2 := Env.popScript (Env.popScript w1)).
  assert (Hw : Env.cartStore (Cart.world s1)
               = Env.cartStore
                   (snd (Async.settleAll
                           (List.map (Cart.mergeLine dbCartMap userEmail) gs) w2))).
  { rewrite Hstore. unfold Spec.mergeOutcome.
    replace (Env.nextOutcome w1) with true
      by (unfold Env.nextOutcome; subst w1; st_simpl; now rewrite Hscript).
    rewrite List.map_cons, settleAll_cons, mergeLine_rejected; [reflexivity|].
    unfold Env.nextOutcome. subst w1. st_simpl. now rewrite Hscript. }
  assert (Hfound : forall g' r, In g' gs ->
            dbCartMap !! GuestItem.product_id g' = Some r ->
            List.find (Env.hasId (CartItem.id r)) (Env.cartStore w2) = Some r
            /\ CartItem.user_email r = userEmail).
  { intros g' r _ E. apply dbCartMap_Some in E as (Hin & Hmail & _).
    split; [|exact Hmail]. now apply find_unique. }
  assert (Hinj : forall g1 g2 r1 r2, In g1 gs -> In g2 gs ->
            dbCartMap !! GuestItem.product_id g1 = Some r1 ->
            dbCartMap !! GuestItem.product_id g2 = Some r2 ->
            CartItem.id r1 = CartItem.id r2 ->
            GuestItem.product_id g1 = GuestItem.product_id g2).
  { intros g1 g2 r1 r2 _ _ E E' Hid.
    apply dbCartMap_Some in E as (Hin & _ & Hp), E' as (Hin' & _ & Hp').
    rewrite <- Hp, <- Hp'. f_equal.
    now apply (store_id_inj (Env.cartStore (Cart.world s))). }
  assert (Hok2 : Spec.okPrefix (length gs) (Env.script w2) = true).
  { subst w2 w1. st_simpl. now rewrite Hscript. }
  split; [exact Hcart|]. split; [|split].
  - rewrite Hw.
    apply (merge_lines dbCartMap userEmail gs w2); try assumption.
    intros g' r Hg' E. now apply Hfound in E.
  - unfold Env.linesOf at 1. rewrite Hw.
    fold (Env.linesOf userEmail
            (snd (Async.settleAll (List.map (Cart.mergeLine dbCartMap userEmail) gs) w2))).
    now rewrite settle_total.
  - rewrite Htrace. reflexivity.
Qed.

Lemma merge_partial_failure_witness :
  let s' := Async.exec (Cart.mergeCarts [Sample.guestCoat 1; Sample.guestScarf 2]
                          "ann@example.com")
              (Sample.coatMergeState [true; false]) in
  Env.anonymousCart (Cart.world s') = Some [Sample.guestCoat 1; Sample.guestScarf 2]
  /\ Spec.storeTotal (Env.linesOf "ann@example.com" (Cart.world s')) = 3 + 2.
Proof.
  pose proof (merge_partial_failure (Sample.guestCoat 1) [Sample.guestScarf 2]
                "ann@example.com" (Sample.coatMergeState [true; false]) []) as H.
  destruct H as (Hcart & _ & Htotal & _).
  - split; simpl.
    + apply NoDup_cons. split; [apply not_elem_of_nil | apply NoDup_nil_2].
    + repeat constructor.
  - simpl. repeat (apply NoDup_cons; split;
                   [intros H; apply list_elem_of_In in H; simpl in H; intuition discriminate|]).
    apply NoDup_nil_2.
  - reflexivity.
  - reflexivity.
  - split; [exact Hcart | exact Htotal].
Defined.

(** ** Running loadUser *)
Section LoadUserRun.
Variable s : Cart.State.

Lemma loadUser_idle :
  Spec.mergeDue (Cart.world s) = false ->
  Async.run Cart.loadUser s
  = (Resolved tt,
     Cart.mkState (Env.popScript (Cart.world s))
       (Cart.mkView (Cart.cartItems (Cart.view s)) (Cart.products (Cart.view s))
                    (Cart.loading (Cart.view s))
                    (if Env.nextOutcome (Cart.world s) then Env.session (Cart.world s)
                     else None)
                    (Cart.updating (Cart.view s)) (Cart.isMerging (Cart.view s)))).
Proof.
  unfold Spec.mergeDue, Cart.loadUser. intros Hdue.
  rewrite run_tryCatch, run_bind, run_await, onWorld_eq. st_simpl.
  destruct (Env.nextOutcome (Cart.world s)) eqn:Hn; cbn [andb] in Hdue.
  - destruct (Env.session (Cart.world s)) as [u|] eqn:Hs.
    + rewrite (me_ok _ u) by assumption. st_simpl. unfold Cart.setUser.
      rewrite run_bind, run_act. st_simpl. rewrite run_bind, run_act. st_simpl.
      change (Env.readCart (Env.popScript (Cart.world s)))
        with (Env.readCart (Cart.world s)).
      rewrite Hdue. rewrite run_ret. reflexivity.
    + rewrite me_rejected by now right. st_simpl. unfold Cart.setUser.
      rewrite run_act. reflexivity.
  - rewrite me_rejected by now left. st_simpl. unfold Cart.setUser.
    rewrite run_act. reflexivity.
Qed.

Lemma loadUser_merging :
  Spec.mergeDue (Cart.world s) = true ->
  exists u,
    Env.session (Cart.world s) = Some u
    /\ Env.nextOutcome (Cart.world s) = true
    /\ Async.run Cart.loadUser s
       = Async.run (Cart.mergeCarts (Env.readCart (Cart.world s)) (User.email u))
           (Spec.afterMe u s).
Proof.
  unfold Spec.mergeDue, Cart.loadUser. intros Hdue.
  apply andb_true_iff in Hdue as [Hn Hdue].
  destruct (Env.session (Cart.world s)) as [u|] eqn:Hs; [|discriminate].
  exists u. split; [reflexivity|]. split; [exact Hn|].
  rewrite run_tryCatch, run_bind, run_await, onWorld_eq. st_simpl.
  rewrite (me_ok _ u) by assumption. st_simpl. unfold Cart.setUser.
  rewrite run_bind, run_act. st_simpl. rewrite run_bind, run_act. st_simpl.
  change (Env.readCart (Env.popScript (Cart.world s))) with (Env.readCart (Cart.world s)).
  rewrite Hdue. unfold Spec.afterMe.
  match goal with |- context [Async.run (Cart.mergeCarts ?l ?e) ?s0] =>
    destruct (Async.run (Cart.mergeCarts l e) s0) as [res s1] eqn:Hrun end.
  apply mergeCarts_exec in Hrun as (-> & _). reflexivity.
Qed.
End LoadUserRun.

(** X23: [loadUser] of the cart page never throws.  It records the user
    [User.me()] resolves to; when [User.me()] is rejected it sets the
    user to null, also when a user was shown before.  A merge that fails
    does not sign the user out: the user stays the one [User.me()] gave.
    The lines of the view are not touched, and [isMerging] is false after a
    merge and what it was otherwise. *)
Theorem cart_loadUser_outcome (s : Cart.State) :
  let w := Cart.world s in
  let s' := Async.exec Cart.loadUser s in
  fst (Async.run Cart.loadUser s) = Resolved tt
  /\ Cart.user (Cart.view s') = (if Env.nextOutcome w then Env.session w else None)
  /\ Cart.cartItems (Cart.view s') = Cart.cartItems (Cart.view s)
  /\ Cart.isMerging (Cart.view s')
     = (if Spec.mergeDue w then false else Cart.isMerging (Cart.view s)).
Proof.
  intros w s'. unfold s', Async.exec. destruct (Spec.mergeDue w) eqn:Hdue.
  - destruct (loadUser_merging s Hdue) as (u & Hs & Hn & ->). fold w in Hs, Hn.
    rewrite Hn, Hs.
    destruct (Async.run (Cart.mergeCarts _ _) _) as [res s1] eqn:Hrun.
    apply mergeCarts_exec in Hrun as (-> & _ & _ & Hm & Hu & Hitems & _).
    st_simpl. auto.
  - rewrite (loadUser_idle s Hdue). st_simpl. auto.
Qed.

(** X24: after a [loadUser] whose merge succeeded, a second [loadUser]
    does not merge again: the guest cart is gone, so the condition of the
    merge is false, and the second run changes neither the remote store nor
    local storage and shows nothing.  The items of the guest cart are added
    once. *)
Theorem loadUser_merges_once (s : Cart.State) :
  Spec.mergeDue (Cart.world s) = true ->
  Spec.okPrefix (2 + length (Env.readCart (Cart.world s))) (Env.script (Cart.world s))
  = true ->
  let s1 := Async.exec Cart.loadUser s in
  let s2 := Async.exec Cart.loadUser s1 in
  Spec.mergeDue (Cart.world s1) = false
  /\ Env.cartStore (Cart.world s2) = Env.cartStore (Cart.world s1)
  /\ Env.anonymousCart (Cart.world s2) = None
  /\ Env.trace (Cart.world s2) = Env.trace (Cart.world s1).
Proof.
  intros Hdue Hok s1 s2.
  assert (Hcart : Env.anonymousCart (Cart.world s1) = None).
  { unfold s1, Async.exec. destruct (loadUser_merging s Hdue) as (u & Hs & Hn & ->).
    destruct (Async.run (Cart.mergeCarts _ _) _) as [res r1] eqn:Hrun.
    apply mergeCarts_exec in Hrun as (_ & _ & _ & _ & _ & _ & Hout). st_simpl.
    rewrite mergeOutcome_resolved in Hout.
    apply okPrefix_S in Hok as [_ Hok].
    unfold Spec.afterMe in Hout. st_simpl_all. rewrite Hok in Hout. tauto. }
  assert (Hidle : Spec.mergeDue (Cart.world s1) = false).
  { unfold Spec.mergeDue, Env.readCart. rewrite Hcart. simpl.
    destruct (Env.session (Cart.world s1)); [simpl|]; apply andb_false_r. }
  split; [exact Hidle|].
  unfold s2, Async.exec. rewrite (loadUser_idle s1 Hidle). st_simpl. auto.
Qed.

Lemma loadUser_merges_once_witness :
  Env.cartStore
    (Cart.world (Async.exec Cart.loadUser
                   (Async.exec Cart.loadUser (Sample.mergeState [Sample.annScarf 3] []))))
  = Env.cartStore
      (Cart.world (Async.exec Cart.loadUser (Sample.mergeState [Sample.annScarf 3] []))).
Proof.
  apply (loadUser_merges_once (Sample.mergeState [Sample.annScarf 3] [])); reflexivity.
Defined.

(** ** What the cart page renders *)
Section Render.
Variable v : Cart.View.

Lemma sameNumber_sym (x y : Js.number) : Spec.sameNumber x y -> Spec.sameNumber y x.
Proof. intros [->|[Hx Hy]]; [now left | right; now split]. Qed.

(** A line by what its reference finds: a card for a stored product, an
    exception for a truthy member that is none, nothing otherwise. *)
Lemma renderRow_cases (item : Cart.Line) :
  match Cart.renderRow v item with
  | Cart.Card row =>
      Spec.productOf (Cart.products v) item = Some (Cart.row_product row)
      /\ Cart.row_item row = item
      /\ Cart.row_amount row = Spec.amount (item, Cart.row_product row)
  | Cart.Null =>
      Spec.productOf (Cart.products v) item = None
      /\ ~ Spec.picksInherited (Cart.products v) item
  | Cart.TypeError => Spec.picksInherited (Cart.products v) item
  end.
Proof.
  unfold Cart.renderRow, Spec.productOf, Spec.picksInherited, Spec.amount.
  destruct (Cart.lookupProduct (Cart.products v) (Cart.product_id item)) as [p|[|]|];
    cbn [Cart.row_product Cart.row_item Cart.row_amount fst snd].
  - split; [reflexivity|]. split; [reflexivity|]. now destruct item.
  - reflexivity.
  - split; [reflexivity | discriminate].
  - split; [reflexivity | discriminate].
Qed.

Lemma renderRows_cases (lines : list Cart.Line) :
  match Cart.renderRows v lines with
  | Some rows =>
      (forall item, In item lines -> ~ Spec.picksInherited (Cart.products v) item)
      /\ List.map (fun row => (Cart.row_item row, Cart.row_product row)) rows
         = Spec.resolved (Cart.products v) lines
      /\ List.map Cart.row_amount rows
         = List.map Spec.amount (Spec.resolved (Cart.products v) lines)
  | None => exists item, In item lines /\ Spec.picksInherited (Cart.products v) item
  end.
Proof.
  induction lines as [|item lines IH]; [repeat split; intros item []|].
  cbn [Cart.renderRows]. unfold Spec.resolved. cbn [omap list_omap].
  fold (Spec.resolved (Cart.products v) lines).
  pose proof (renderRow_cases item) as Hitem.
  destruct (Cart.renderRow v item) as [row| |].
  - destruct Hitem as (Hp & Hi & Ha). rewrite Hp. cbn [fmap option_fmap option_map].
    destruct (Cart.renderRows v lines) as [rows|]; cbn [fmap option_fmap option_map].
    + destruct IH as (Hplain & Hrows & Hamounts). split; [|split].
      * intros x [<-|Hx]; [|now apply Hplain].
        unfold Spec.picksInherited. unfold Spec.productOf in Hp.
        destruct (Cart.lookupProduct _ _); discriminate.
      * cbn [List.map]. now rewrite Hi, Hrows.
      * cbn [List.map]. now rewrite Ha, Hamounts.
    + destruct IH as (x & Hx & Hpick). exists x. split; [now right | exact Hpick].
  - destruct Hitem as [Hp Hno]. rewrite Hp. cbn [fmap option_fmap option_map].
    destruct (Cart.renderRows v lines) as [rows|].
    + destruct IH as (Hplain & Hrows & Hamounts). split; [|split; assumption].
      intros x [<-|Hx]; [exact Hno | now apply Hplain].
    + destruct IH as (x & Hx & Hpick). exists x. split; [now right | exact Hpick].
  - exists item. split; [now left | exact Hitem].
Qed.
End Render.

(** X25: what the cart page shows.  While a merge runs it shows the
    "Merging your cart..." spinner, and while loading the "Loading your
    cart..." one, whatever the cart holds.  Otherwise it shows the empty
    cart exactly when the view has no line.  With lines, the render throws
    exactly when the reference of a line finds a truthy member that is no
    product.  In the list, the header counts every line, while the cards
    are those of the lines whose product resolves, in order, each with
    price times quantity; the sum of the amounts on the cards is the
    subtotal shown (the sign of a zero apart), the tax is the subtotal
    times 0.08 and the total the subtotal plus the tax, in doubles; and the
    checkout button depends on whether a user is set. *)
Theorem cart_screen (v : Cart.View) :
  (Cart.isMerging v = true -> Cart.screen v = Cart.Spinner "Merging your cart...")
  /\ (Cart.isMerging v = false -> Cart.loading v = true ->
      Cart.screen v = Cart.Spinner "Loading your cart...")
  /\ (Cart.isMerging v = false -> Cart.loading v = false ->
      match Cart.screen v with
      | Cart.Spinner _ => False
      | Cart.EmptyCart => Cart.cartItems v = []
      | Cart.Crash =>
          exists item, In item (Cart.cartItems v)
                       /\ Spec.picksInherited (Cart.products v) item
      | Cart.CartList count rows subtotal tax total signedIn =>
          count = length (Cart.cartItems v) /\ (0 < count)%nat
          /\ (forall item, In item (Cart.cartItems v) ->
                ~ Spec.picksInherited (Cart.products v) item)
          /\ List.map (fun row => (Cart.row_item row, Cart.row_product row)) rows
             = Spec.resolved (Cart.products v) (Cart.cartItems v)
          /\ (forall row, In row rows ->
                Cart.row_amount row = Spec.amount (Cart.row_item row, Cart.row_product row))
          /\ Spec.sameNumber (Js.sum (List.map Cart.row_amount rows)) subtotal
          /\ subtotal = Cart.getSubtotal v
          /\ tax = Js.times subtotal (Js.ofQ (8 # 100))
          /\ total = Js.plus subtotal tax
          /\ (signedIn = true <-> Cart.user v <> None)
      end).
Proof.
  unfold Cart.screen. split; [|split].
  - intros ->. now rewrite orb_true_r.
  - intros -> ->. reflexivity.
  - intros -> ->. simpl.
    destruct (Nat.eqb_spec (length (Cart.cartItems v)) 0) as [E|E].
    { now apply length_zero_iff_nil. }
    pose proof (renderRows_cases v (Cart.cartItems v)) as Hrows.
    destruct (Cart.renderRows v (Cart.cartItems v)) as [rows|]; [|exact Hrows].
    destruct Hrows as (Hplain & Hrows & Hamounts).
    split; [reflexivity|]. split; [lia|]. split; [exact Hplain|]. split; [exact Hrows|].
    split.
    { intros row Hrow.
      assert (Hin : In (Cart.row_amount row,
                        Spec.amount (Cart.row_item row, Cart.row_product row))
                       (combine (List.map Cart.row_amount rows)
                                (List.map Spec.amount
                                   (List.map (fun row => (Cart.row_item row,
                                                          Cart.row_product row)) rows)))).
      { clear -Hrow. induction rows as [|r rows IH]; [destruct Hrow|].
        destruct Hrow as [->|Hrow]; [now left | right; now apply IH]. }
      rewrite Hrows, <- Hamounts in Hin. clear -Hin.
      induction (List.map Cart.row_amount rows) as [|a l IH]; [destruct Hin|].
      destruct Hin as [E|Hin]; [injection E as E1 E2; congruence | now apply IH]. }
    split; [rewrite Hamounts; apply sameNumber_sym, subtotal_sum, Hplain|].
    split; [reflexivity|]. split; [reflexivity|]. split; [reflexivity|].
    destruct (Cart.user v); split; congruence.
Qed.

Lemma cart_screen_witness :
  Cart.screen Sample.inheritedView = Cart.Crash
  /\ Cart.screen (Cart.view Sample.guestShownState)
     = Cart.CartList 1
         [Cart.mkRow (Cart.GuestLine (Sample.guestScarf 2))
                     (Cart.ofGuest (Sample.guestScarf 2)) false false false
                     (SpecFloat.S754_finite false 7035467042882847 (-46))]
         (SpecFloat.S754_finite false 7035467042882847 (-46))
         (SpecFloat.S754_finite false 9005397814890044 (-50))
         (SpecFloat.S754_finite false 7598304406313475 (-46))
         false.
Proof.
  pose proof (proj2 (proj2 (cart_screen Sample.inheritedView)) eq_refl eq_refl) as H.
  split; [|vm_compute; reflexivity].
  destruct (Cart.screen Sample.inheritedView) eqn:E; try reflexivity; exfalso.
  - exact H.
  - discriminate H.
  - destruct H as (_ & _ & Hplain & _).
    apply (Hplain (Cart.StoredLine (CartItem.mk 7 "constructor" 1 "ann@example.com")));
      [now left | vm_compute; reflexivity].
Defined.

(** X26: the minus button of a guest's card cannot bring a quantity below
    1.  The button is enabled only for a line of at least 2 items whose
    product is not busy; clicking it then sets every guest entry of that
    product to the shown quantity minus one, which is at least 1, keeps the
    products of the guest cart and their order, and keeps all quantities at
    least 1 when they were. *)
Theorem minus_button_floor (s : Cart.State) (item : Cart.Line) (row : Cart.Row) :
  Cart.renderRow (Cart.view s) item = Cart.Card row ->
  Cart.minusDisabled row = false ->
  Cart.user (Cart.view s) = None ->
  let cart := Env.readCart (Cart.world s) in
  let cart' := Env.readCart (Cart.world (Async.exec (Cart.clickMinus item) s)) in
  2 <= Cart.quantity item
  /\ Cart.isUpdating (Cart.view s) (Cart.product_id item) = false
  /\ (forall g, In g cart' -> GuestItem.product_id g = Cart.product_id item ->
        GuestItem.quantity g = Cart.quantity item - 1 /\ 1 <= GuestItem.quantity g)
  /\ List.map GuestItem.product_id cart' = List.map GuestItem.product_id cart
  /\ (Spec.positiveQuantities cart -> Spec.positiveQuantities cart').
Proof.
  intros Hrow Hminus Hu cart cart'. unfold Cart.renderRow in Hrow.
  destruct (Cart.lookupProduct (Cart.products (Cart.view s)) (Cart.product_id item))
    as [product|[|]|]; try discriminate.
  injection Hrow as <-. cbn [Cart.minusDisabled] in Hminus.
  apply orb_false_iff in Hminus as [Hbusy Hq]. apply Z.leb_gt in Hq.
  split; [lia|]. split; [exact Hbusy|].
  assert (Hq1 : 1 <= Cart.quantity item - 1) by lia.
  destruct (update_guest_run (Cart.product_id item) s Hu _ Hq1)
    as (s1 & Hrun & Hcart & _).
  assert (Ec : cart' = Cart.setGuestQuantity (Cart.product_id item)
                         (Cart.quantity item - 1) cart).
  { unfold cart', Cart.clickMinus, Async.exec. rewrite Hrun.
    unfold Env.readCart at 1. simpl. now rewrite Hcart. }
  rewrite Ec. split; [|split].
  - intros g Hg Hp. destruct (setGuestQuantity_In _ _ _ _ Hg) as [[_ E]|[Hne _]];
      [|contradiction]. rewrite E. split; [reflexivity | exact Hq1].
  - apply setGuestQuantity_ids.
  - now apply setGuestQuantity_positive.
Qed.

Lemma minus_button_floor_witness :
  2 <= Cart.quantity (Cart.GuestLine (Sample.guestScarf 2)).
Proof.
  refine (proj1 (minus_button_floor Sample.guestShownState
                   (Cart.GuestLine (Sample.guestScarf 2)) _ eq_refl eq_refl eq_refl)).
Defined.

(** ** From the shop to the cart page *)
Section ShopToCart.

(** What the cart page charges a guest for a cart with one entry per
    product. *)
Lemma guest_subtotal (s : Cart.State) :
  Cart.hasEmail (Cart.user (Cart.view s)) = false ->
  NoDup (List.map GuestItem.product_id (Env.readCart (Cart.world s))) ->
  Cart.getSubtotal (Cart.view (Async.exec Cart.loadCartItems s))
  = Js.sum (List.map (fun g => Js.times (Js.ofQ (GuestItem.price g))
                                        (Js.ofZ (GuestItem.quantity g)))
                     (Env.readCart (Cart.world s))).
Proof.
  intros Hh Hnd. unfold Async.exec. rewrite (load_guest s Hh). st_simpl.
  unfold Cart.getSubtotal, Js.sum, Spec.viewAfterLoad. st_simpl.
  apply guest_fold. intros g Hg. now apply guestProductMap_own.
Qed.

Lemma find_sameProduct_app (pid : string) (before after : list GuestItem.t)
    (g : GuestItem.t) :
  (forall g', In g' before -> GuestItem.product_id g' <> pid) ->
  GuestItem.product_id g = pid ->
  List.find (Shop.sameProduct pid) (before ++ g :: after) = Some g.
Proof.
  intros Hno Hg. induction before as [|b before IH]; simpl.
  - unfold Shop.sameProduct. now rewrite Hg, String.eqb_refl.
  - unfold Shop.sameProduct at 1.
    destruct (String.eqb_spec (GuestItem.product_id b) pid) as [E|_].
    + exfalso. apply (Hno b); [now left | exact E].
    + apply IH. intros g' Hg'. apply Hno. now right.
Qed.

Lemma find_sameProduct_none (pid : string) (cart : list GuestItem.t) :
  (forall g, In g cart -> GuestItem.product_id g <> pid) ->
  List.find (Shop.sameProduct pid) cart = None.
Proof.
  intros Hno. induction cart as [|b cart IH]; simpl; [reflexivity|].
  unfold Shop.sameProduct at 1.
  destruct (String.eqb_spec (GuestItem.product_id b) pid) as [E|_].
  - exfalso. apply (Hno b); [now left | exact E].
  - apply IH. intros g' Hg'. apply Hno. now right.
Qed.
End ShopToCart.

(** X27: what the shop adds, the cart page shows and charges.  A guest
    whose cart has one entry per product adds a product in the shop and
    opens the cart page.  When the product was not in the cart, the page
    shows one line more, the last one, with quantity 1 at the product's
    price, and the subtotal is the former subtotal plus that price times 1,
    in doubles.  When it was, the page shows the same lines with one more
    item on the line of the product, still at the price stored with the
    first add, not at the product's current one.  Either way every line
    resolves to its own snapshot. *)
Theorem guest_add_then_cart (product : Product.t) (s : Cart.State) :
  Cart.hasEmail (Cart.user (Cart.view s)) = false ->
  NoDup (List.map GuestItem.product_id (Env.readCart (Cart.world s))) ->
  let before := Cart.view (Async.exec Cart.loadCartItems s) in
  let w' := Async.exec (Shop.handleAddToCart None product) (Cart.world s) in
  let after := Cart.view (Async.exec Cart.loadCartItems (Cart.mkState w' (Cart.view s))) in
  match List.find (Shop.sameProduct (Product.id product)) (Env.readCart (Cart.world s)) with
  | None =>
      (exists g,
          Cart.cartItems after = Cart.cartItems before ++ [Cart.GuestLine g]
          /\ GuestItem.product_id g = Product.id product
          /\ GuestItem.quantity g = 1
          /\ GuestItem.price g = Product.price product)
      /\ Cart.getSubtotal after
         = Js.plus (Cart.getSubtotal before)
                   (Js.times (Js.ofQ (Product.price product)) (Js.ofZ 1))
  | Some g =>
      exists l1 l2 g',
        Cart.cartItems before = l1 ++ Cart.GuestLine g :: l2
        /\ Cart.cartItems after = l1 ++ Cart.GuestLine g' :: l2
        /\ GuestItem.product_id g' = Product.id product
        /\ GuestItem.quantity g' = GuestItem.quantity g + 1
        /\ GuestItem.price g' = GuestItem.price g
        /\ Cart.lineAmount (Cart.products after) (Cart.GuestLine g')
           = Js.times (Js.ofQ (GuestItem.price g)) (Js.ofZ (GuestItem.quantity g + 1))
  end
  /\ (forall g, In (Cart.GuestLine g) (Cart.cartItems after) ->
        Cart.lookupProduct (Cart.products after) (GuestItem.product_id g)
        = Js.Own (Cart.ofGuest g)).
Proof.
  intros Hh Hnd before w' after.
  assert (Hcart : Env.readCart w'
                  = Shop.addToGuestCart product (Env.readCart (Cart.world s)))
    by (unfold w'; now rewrite add_guest).
  assert (Hnd' : NoDup (List.map GuestItem.product_id (Env.readCart w')))
    by (rewrite Hcart; now apply addToGuestCart_NoDup).
  assert (Hbefore : Cart.cartItems before
                    = List.map Cart.GuestLine (Env.readCart (Cart.world s))).
  { unfold before, Async.exec. now rewrite (load_guest s Hh). }
  assert (Hafter : Cart.cartItems after = List.map Cart.GuestLine (Env.readCart w')
                   /\ Cart.products after = Cart.guestProductMap (Env.readCart w')).
  { unfold after, Async.exec. now rewrite (load_guest (Cart.mkState w' (Cart.view s)) Hh). }
  destruct Hafter as [Hafter Hproducts].
  assert (Hown : forall g, In g (Env.readCart w') ->
            Cart.lookupProduct (Cart.products after) (GuestItem.product_id g)
            = Js.Own (Cart.ofGuest g)).
  { intros g Hg. rewrite Hproducts. now apply lookupProduct_own, guestProductMap_own. }
  split.
  - destruct (addToGuestCart_cases product (Env.readCart (Cart.world s)))
      as [(l1 & g & l2 & E & Hg & Hno & Hadd)|[Hno Hadd]].
    + assert (Hfind : List.find (Shop.sameProduct (Product.id product))
                        (Env.readCart (Cart.world s)) = Some g)
        by (rewrite E; now apply find_sameProduct_app).
      rewrite Hfind.
      exists (List.map Cart.GuestLine l1), (List.map Cart.GuestLine l2), (Shop.increment g).
      rewrite Hbefore, Hafter, Hcart, Hadd, E, !List.map_app.
      split; [reflexivity|]. split; [reflexivity|].
      split; [now destruct g|]. split; [now destruct g|]. split; [now destruct g|].
      unfold Cart.lineAmount. cbn [Cart.product_id].
      rewrite (Hown (Shop.increment g)).
      * now destruct g.
      * rewrite Hcart, Hadd. apply in_or_app. right. now left.
    + rewrite (find_sameProduct_none _ _ Hno). split.
      * exists (Shop.snapshot product).
        rewrite Hbefore, Hafter, Hcart, Hadd, List.map_app. repeat split.
      * unfold after, before.
        rewrite (guest_subtotal (Cart.mkState w' (Cart.view s)) Hh Hnd').
        rewrite (guest_subtotal s Hh Hnd). st_simpl. rewrite Hcart, Hadd.
        unfold Js.sum. rewrite List.map_app, fold_left_app. reflexivity.
  - intros g Hg. apply Hown. rewrite Hafter in Hg.
    apply in_map_iff in Hg as (g' & [= ->] & Hg'). exact Hg'.
Qed.

Lemma guest_add_then_cart_witness :
  Cart.getSubtotal
    (Cart.view (Async.exec Cart.loadCartItems
                  (Cart.mkState (Async.exec (Shop.handleAddToCart None Sample.coat)
                                   Sample.guestWorld)
                                Cart.initialView)))
  = Js.plus (SpecFloat.S754_finite false 7035467042882847 (-46))
            (SpecFloat.S754_finite false 8796093022208000 (-43)).
Proof.
  assert (Hnd : NoDup (List.map GuestItem.product_id
                         (Env.readCart (Cart.world Sample.guestState)))).
  { simpl. apply NoDup_cons. split; [apply not_elem_of_nil | apply NoDup_nil_2]. }
  pose proof (guest_add_then_cart Sample.coat Sample.guestState eq_refl Hnd) as H.
  cbv zeta in H.
  assert (Hf : List.find (Shop.sameProduct (Product.id Sample.coat))
                 (Env.readCart (Cart.world Sample.guestState)) = None) by reflexivity.
  rewrite Hf in H. destruct H as [[_ H] _].
  etransitivity; [exact H | vm_compute; reflexivity].
Defined.
